(** * Poor People Tax dashboard: the cleaning and presentation pipeline

    A shallow embedding of [app/app.py], a Streamlit script that loads four
    small CSV files with pandas, shapes them, charts them and offers the
    shaped tables for download.

    Conventions of the embedding.
    - A Python [str] is a [string] whose characters are code points below
      256; [strip] and [lower] follow [str.strip] and [str.lower] on that
      range.
    - A pandas scalar is a [str], a numpy [int64], or a numpy [float64]; a
      missing value is the [float64] NaN.  [float64] is IEEE 754 binary64 as
      specified by [SpecFloat] (precision 53, [emax] 1024).  Boolean columns
      are not modelled.
    - A [DataFrame] is a list of column names and a list of rows; a row
      carries its index label, which filtering and sorting keep, and one
      cell per column.  The dtype of a column is the one [read_csv] infers
      from its cells: [object] when a cell is a [str], [int64] when every
      cell is an integer, [float64] otherwise.
    - What pandas, numpy, CPython and Streamlit do outside this script (CSV
      parsing, number parsing and printing, the sorting routine, the
      widgets) is gathered in the records [Runtime] and [Session]. *)

From Stdlib Require Import ZArith Ascii String List Sorted Permutation Lia.
From Stdlib Require Import Floats.SpecFloat.
From stdpp Require Import base tactics option list sorting gmap strings pretty.

Local Open Scope string_scope.
Local Open Scope list_scope.

(* ===================================================================== *)
(** * Python strings *)
(* ===================================================================== *)

Module Py.

(** [str.isspace] on one character. *)
Definition is_space (a : ascii) : bool :=
  let n := N_of_ascii a in
  ((9 <=? n) && (n <=? 13) || (28 <=? n) && (n <=? 32)
   || (n =? 133) || (n =? 160))%N.

Fixpoint lstrip (s : string) : string :=
  match s with
  | EmptyString => EmptyString
  | String a s' => if is_space a then lstrip s' else s
  end.

Fixpoint rstrip (s : string) : string :=
  match s with
  | EmptyString => EmptyString
  | String a s' =>
      match rstrip s' with
      | EmptyString => if is_space a then EmptyString else String a EmptyString
      | r => String a r
      end
  end.

(** [s.strip()] *)
Definition strip (s : string) : string := rstrip (lstrip s).

Definition lower_char (a : ascii) : ascii :=
  let n := N_of_ascii a in
  if ((65 <=? n) && (n <=? 90)
      || (192 <=? n) && (n <=? 222) && negb (n =? 215))%N
  then ascii_of_N (n + 32) else a.

(** [s.lower()] *)
Fixpoint lower (s : string) : string :=
  match s with
  | EmptyString => EmptyString
  | String a s' => String (lower_char a) (lower s')
  end.

(** [key in s]: the text [key] occurs in [s] at some offset. *)
Fixpoint str_contains (s key : string) : bool :=
  String.prefix key s
  || match s with
     | EmptyString => false
     | String _ s' => str_contains s' key
     end.

Definition squote : ascii := "'"%char.
Definition dquote : ascii := "034"%char.
Definition backslash : ascii := "\"%char.

Definition hex_digit (n : N) : ascii :=
  if (n <? 10)%N then ascii_of_N (48 + n) else ascii_of_N (87 + n).

(** One character of [repr(s)] between the quotes [q]: the quote and
    the backslash are escaped, and so is what [str.isprintable] refuses. *)
Definition repr_char (q : ascii) (a : ascii) : string :=
  let n := N_of_ascii a in
  let s1 (c : ascii) := String c EmptyString in
  if bool_decide (a = q) || bool_decide (a = backslash)
  then String backslash (s1 a)
  else if (n =? 9)%N then String backslash (s1 "t"%char)
  else if (n =? 10)%N then String backslash (s1 "n"%char)
  else if (n =? 13)%N then String backslash (s1 "r"%char)
  else if ((n <? 32) || (n =? 127) || (128 <=? n) && (n <=? 160)
           || (n =? 173))%N
  then String backslash
         (String "x"%char
            (String (hex_digit (n / 16)) (s1 (hex_digit (n mod 16)))))
  else s1 a.

Fixpoint repr_chars (q : ascii) (s : string) : string :=
  match s with
  | EmptyString => EmptyString
  | String a s' => repr_char q a +:+ repr_chars q s'
  end.

Fixpoint has_char (c : ascii) (s : string) : bool :=
  match s with
  | EmptyString => false
  | String a s' => bool_decide (a = c) || has_char c s'
  end.

(** [repr(s)] of a [str]: in single quotes, unless the text holds a single
    quote and no double quote. *)
Definition repr (s : string) : string :=
  let q := if has_char squote s && negb (has_char dquote s)
           then dquote else squote in
  String q (repr_chars q s +:+ String q EmptyString).

(** [repr(l)] of a list of [str]. *)
Definition repr_list (l : list string) : string :=
  "[" +:+ String.concat ", " (map repr l) +:+ "]".

(** The exceptions the script can meet; all derive from [Exception].
    [KeyError] is raised on a label or on a message, [KeyErrorList] is
    the [KeyError] that [dropna] raises on the list of the labels it
    misses. *)
Inductive exn :=
| KeyError (key : string)
| KeyErrorList (keys : list string)
| IndexError
| TypeError
| ValueError
| OverflowError
| AttributeError
| OSError (msg : string)
| StreamlitInvalidMinMaxError.

Inductive result (A : Type) :=
| Ok (a : A)
| Raise (e : exn).
Arguments Ok {A} a.
Arguments Raise {A} e.

Definition rbind {A B} (m : result A) (f : A -> result B) : result B :=
  match m with
  | Ok a => f a
  | Raise e => Raise e
  end.

(** [str(e)], as interpolated in the diagnostics. *)
Definition exn_message (e : exn) : string :=
  match e with
  | KeyError k => repr k
  | KeyErrorList ks => repr_list ks
  | IndexError => "single positional indexer is out-of-bounds"
  | TypeError => "unsupported operand type(s)"
  | ValueError => "cannot convert to integer"
  | OverflowError => "cannot convert float infinity to integer"
  | AttributeError => "Can only use .str accessor with string values!"
  | OSError msg => msg
  | StreamlitInvalidMinMaxError =>
      "Slider `min_value` must be less than the `max_value`."
  end.

End Py.

Notation "x <-r m ; k" := (Py.rbind m (fun x => k))
  (at level 100, m at next level, right associativity, only parsing).

(* ===================================================================== *)
(** * numpy scalars *)
(* ===================================================================== *)

Module Np.

Definition prec : Z := 53.
Definition emax : Z := 1024.

(** [float64] arithmetic, correctly rounded to nearest, ties to even. *)
Definition fadd : spec_float -> spec_float -> spec_float := SFadd prec emax.
Definition fsub : spec_float -> spec_float -> spec_float := SFsub prec emax.
Definition fdiv : spec_float -> spec_float -> spec_float := SFdiv prec emax.
Definition feqb : spec_float -> spec_float -> bool := SFeqb.
Definition fleb : spec_float -> spec_float -> bool := SFleb.

(** [float(z)] *)
Definition of_Z (z : Z) : spec_float := binary_normalize prec emax z 0 false.

Definition is_nan (f : spec_float) : bool :=
  match f with S754_nan => true | _ => false end.

(** [int(f)]: truncation toward zero; NaN and the infinities raise. *)
Definition to_Z (f : spec_float) : Py.result Z :=
  match f with
  | S754_nan => Py.Raise Py.ValueError
  | S754_infinity _ => Py.Raise Py.OverflowError
  | S754_zero _ => Py.Ok 0%Z
  | S754_finite s m e =>
      let a := match e with
               | Zneg p => Z.shiftr (Zpos m) (Zpos p)
               | _ => Z.shiftl (Zpos m) e
               end in
      Py.Ok (if s then Z.opp a else a)
  end.

(** [int64] arithmetic wraps around. *)
Definition wrap64 (z : Z) : Z :=
  ((z + 2 ^ 63) mod 2 ^ 64 - 2 ^ 63)%Z.

(** A cell of a table. *)
Inductive scalar :=
| SStr (s : string)
| SInt (z : Z)
| SFloat (f : spec_float).

Definition NaN : scalar := SFloat S754_nan.

(** [pd.isna] on one cell. *)
Definition isna (v : scalar) : bool :=
  match v with
  | SFloat f => is_nan f
  | _ => false
  end.

Definition is_str (v : scalar) : bool :=
  match v with SStr _ => true | _ => false end.

Definition is_int (v : scalar) : bool :=
  match v with SInt _ => true | _ => false end.

Inductive dtype := Object | Int64 | Float64.

(** The dtype of a column holding these cells. *)
Definition dtype_of (col : list scalar) : dtype :=
  if existsb is_str col then Object
  else if forallb is_int col then Int64
  else Float64.

(** The value of a numeric cell in a [float64] array. *)
Definition as_f64 (v : scalar) : spec_float :=
  match v with
  | SInt z => of_Z z
  | SFloat f => f
  | SStr _ => S754_nan
  end.

Definition as_i64 (v : scalar) : Z :=
  match v with
  | SInt z => z
  | _ => 0%Z
  end.

(** [series / 12.0] on one cell of a numeric series: true division is
    carried out in [float64]. *)
Definition truediv (v : scalar) (d : spec_float) : scalar :=
  SFloat (fdiv (as_f64 v) d).

(** [100 - pct] for the scalar [pct] that [.iloc[0]] returns. *)
Definition rsub (k : Z) (v : scalar) : Py.result scalar :=
  match v with
  | SInt z => Py.Ok (SInt (wrap64 (k - z)))
  | SFloat f => Py.Ok (SFloat (fsub (of_Z k) f))
  | SStr _ => Py.Raise Py.TypeError
  end.

(** [a + b] on two numeric scalars. *)
Definition add (a b : scalar) : Py.result scalar :=
  match a, b with
  | SInt x, SInt y => Py.Ok (SInt (wrap64 (x + y)))
  | SStr _, _ | _, SStr _ => Py.Raise Py.TypeError
  | _, _ => Py.Ok (SFloat (fadd (as_f64 a) (as_f64 b)))
  end.

(** [v == k] for a Python integer [k]. *)
Definition eq_int (v : scalar) (k : Z) : bool :=
  match v with
  | SInt z => (z =? k)%Z
  | SFloat f => feqb f (of_Z k)
  | SStr _ => false
  end.

End Np.

(* ===================================================================== *)
(** * pandas tables *)
(* ===================================================================== *)

Module Pd.
Import Py Np.

Record row := Row { label : nat; cells : list scalar }.

Record DataFrame := Frame { columns : list string; rows : list row }.

(** What the libraries under the script compute. *)
Record Runtime := {
  (** the numeric parser behind [pd.to_numeric], on one [str] *)
  parse_number : string -> option scalar;
  (** [ndarray.argsort(kind="quicksort")] on integer, float and str arrays *)
  argsort_int : list Z -> list nat;
  argsort_f64 : list spec_float -> list nat;
  argsort_str : list string -> list nat;
  (** [repr(float)], [format(float, ".1f")] and [int(str)] *)
  repr_f64 : spec_float -> string;
  format_1f : spec_float -> string;
  int_of_str : string -> result Z;
  (** [str(pd.Index(names))] *)
  repr_index : list string -> string;
  (** [pd.read_csv(path)]: the file system and the CSV parser *)
  read_csv : string -> result DataFrame;
  (** [os.linesep] *)
  linesep : string
}.

(** [pd.DataFrame()] *)
Definition empty_frame : DataFrame := Frame [] [].

(** [df.empty]: some axis has length 0. *)
Definition empty (df : DataFrame) : bool :=
  match columns df, rows df with
  | [], _ | _, [] => true
  | _, _ => false
  end.

(** [name in df.columns] *)
Definition has_column (name : string) (df : DataFrame) : bool :=
  bool_decide (name ∈ columns df).

Fixpoint positions (name : string) (cols : list string) (j : nat) : list nat :=
  match cols with
  | [] => []
  | c :: cols' =>
      if bool_decide (c = name) then j :: positions name cols' (S j)
      else positions name cols' (S j)
  end.

Definition cell (j : nat) (r : row) : scalar := default NaN (cells r !! j).

(** [df[name]] where a Series is expected: a missing label raises
    [KeyError]; with a repeated label pandas hands back a DataFrame, on
    which the consumer raises [dup]. *)
Definition getitem (dup : exn) (name : string) (df : DataFrame)
  : result (list scalar) :=
  match positions name (columns df) 0 with
  | [] => Raise (KeyError name)
  | [j] => Ok (map (cell j) (rows df))
  | _ => Raise dup
  end.

(** [df[name] = values]: overwrites the column, or appends a new one. *)
Definition setitem (name : string) (values : list scalar) (df : DataFrame)
  : DataFrame :=
  match positions name (columns df) 0 with
  | [] =>
      Frame (columns df ++ [name])
            (zip_with (fun r v => Row (label r) (cells r ++ [v]))
                      (rows df) values)
  | js =>
      Frame (columns df)
            (zip_with (fun r v =>
                         Row (label r)
                             (foldr (fun j cs => <[j := v]> cs) (cells r) js))
                      (rows df) values)
  end.

(** [df.rename(columns=mapper)] *)
Definition rename (mapper : gmap string string) (df : DataFrame) : DataFrame :=
  Frame (map (fun c => default c (mapper !! c)) (columns df)) (rows df).

(** Boolean-mask indexing, [a[mask]]. *)
Fixpoint select {A} (mask : list bool) (l : list A) : list A :=
  match mask, l with
  | b :: mask', x :: l' =>
      if b then x :: select mask' l' else select mask' l'
  | _, _ => []
  end.

(** [df[mask]] *)
Definition getitem_mask (mask : list bool) (df : DataFrame) : DataFrame :=
  Frame (columns df) (select mask (rows df)).

(** Positional indexing, [a[indexer]] and [df.take(indexer)]. *)
Definition itake {A} (indexer : list nat) (l : list A) : list A :=
  omap (fun i => l !! i) indexer.

(** [series.str.lower()]; the accessor exists on [object] columns only. *)
Definition str_lower (s : list scalar) : result (list scalar) :=
  match dtype_of s with
  | Object =>
      Ok (map (fun v => match v with
                        | SStr x => SStr (lower x)
                        | _ => NaN
                        end) s)
  | _ => Raise AttributeError
  end.

(** [series != text], elementwise. *)
Definition ne_str (text : string) (v : scalar) : bool :=
  match v with
  | SStr x => negb (bool_decide (x = text))
  | _ => true
  end.

(** [pd.to_numeric(series, errors="coerce")] on one cell, before the
    result dtype is settled. *)
Definition coerce (R : Runtime) (v : scalar) : scalar :=
  match v with
  | SStr s =>
      match parse_number R s with
      | Some (SInt z) => SInt z
      | Some (SFloat f) => SFloat f
      | _ => NaN
      end
  | _ => v
  end.

(** [pd.to_numeric(series, errors="coerce")]: [int64] when every cell is
    an integer, [float64] otherwise. *)
Definition to_numeric (R : Runtime) (s : list scalar) : list scalar :=
  let parsed := map (coerce R) s in
  match dtype_of parsed with
  | Int64 => parsed
  | _ => map (fun v => SFloat (as_f64 v)) parsed
  end.

(** [ndarray.argsort] dispatches on the dtype of the array. *)
Definition argsort (R : Runtime) (a : list scalar) : list nat :=
  match dtype_of a with
  | Int64 => argsort_int R (map as_i64 a)
  | Float64 => argsort_f64 R (map as_f64 a)
  | Object =>
      argsort_str R (map (fun v => match v with SStr x => x | _ => "" end) a)
  end.

(** [pandas.core.sorting.nargsort], ascending with [na_position="last"]:
    the entries that are not missing are sorted, the missing ones follow
    in their original order. *)
Definition nargsort (sorter : list scalar -> list nat)
  (mask : list bool) (items : list scalar) : list nat :=
  let idx := seq 0 (length items) in
  let non_nans := select (map negb mask) items in
  let non_nan_idx := select (map negb mask) idx in
  let nan_idx := select mask idx in
  itake (sorter non_nans) non_nan_idx ++ nan_idx.

(** [df.sort_values(by)] on a numeric column. *)
Definition sort_values (R : Runtime) (by_ : string) (df : DataFrame)
  : result DataFrame :=
  k <-r getitem ValueError by_ df ;
  Ok (Frame (columns df)
            (itake (nargsort (argsort R) (map isna k) k) (rows df))).

(** [pd.Categorical(values, categories=..., ordered=True)]: a value that
    is not a category becomes missing. *)
Definition categorical (categories : list string) (values : list scalar)
  : list scalar :=
  map (fun v => match v with
                | SStr x => if bool_decide (x ∈ categories) then v else NaN
                | _ => NaN
                end) values.

Fixpoint index_of (x : string) (l : list string) : option nat :=
  match l with
  | [] => None
  | y :: l' => if bool_decide (y = x) then Some 0 else S <$> index_of x l'
  end.

(** The code of a categorical cell: the position of its category, or -1. *)
Definition code (categories : list string) (v : scalar) : scalar :=
  match v with
  | SStr x =>
      match index_of x categories with
      | Some i => SInt (Z.of_nat i)
      | None => SInt (-1)
      end
  | _ => SInt (-1)
  end.

(** [df.sort_values(by)] on a categorical column: the codes are sorted,
    the cells without a category (code -1) count as missing. *)
Definition sort_values_categorical (R : Runtime) (categories : list string)
  (by_ : string) (df : DataFrame) : result DataFrame :=
  k <-r getitem ValueError by_ df ;
  let codes := map (code categories) k in
  Ok (Frame (columns df)
            (itake (nargsort (argsort R)
                             (map (fun c => eq_int c (-1)) codes) codes)
                   (rows df))).

(** The names, of those asked for, that are no column of the table. *)
Definition missing (names : list string) (df : DataFrame) : list string :=
  List.filter (fun n => negb (has_column n df)) names.

(** The positions of the columns of these names, name after name. *)
Definition locate_all (names : list string) (df : DataFrame) : list nat :=
  flat_map (fun n => positions n (columns df) 0) names.

(** [df.dropna(subset=names)]: the names that are no column are the
    argument of the [KeyError]. *)
Definition dropna (subset : list string) (df : DataFrame) : result DataFrame :=
  match missing subset df with
  | [] =>
      let js := locate_all subset df in
      Ok (getitem_mask
            (map (fun r => forallb (fun j => negb (isna (cell j r))) js)
                 (rows df))
            df)
  | names => Raise (KeyErrorList names)
  end.

(** [index.unique()]: each entry once, at its first place. *)
Fixpoint unique (seen l : list string) : list string :=
  match l with
  | [] => []
  | x :: l' =>
      if bool_decide (x ∈ seen) then unique seen l'
      else x :: unique (x :: seen) l'
  end.

(** The [KeyError] of [df[names]] when some name is no column: its
    argument is a message, which lists either the whole selection, when
    none of its names is a column, or the names that are no column. *)
Definition not_in_index (R : Runtime) (names lost : list string) : exn :=
  if bool_decide (length lost = length names)
  then KeyError ("None of [" +:+ repr_index R names
                 +:+ "] are in the [columns]")
  else KeyError (repr_list (unique [] lost) +:+ " not in index").

(** [df[names]]: the listed columns, in the listed order. *)
Definition getitem_list (R : Runtime) (names : list string) (df : DataFrame)
  : result DataFrame :=
  match missing names df with
  | [] =>
      let js := locate_all names df in
      Ok (Frame (map (fun j => default "" (columns df !! j)) js)
                (map (fun r => Row (label r) (map (fun j => cell j r) js))
                     (rows df)))
  | lost => Raise (not_in_index R names lost)
  end.

End Pd.

(* ===================================================================== *)
(** * Export: [DataFrame.to_csv(index=False)] and [str.encode("utf-8")] *)
(* ===================================================================== *)

Module Csv.
Import Py Np Pd.

Definition quotechar : ascii := "034"%char.
Definition delimiter : ascii := ","%char.

(** A character that forces the field into quotes ([csv.QUOTE_MINIMAL]). *)
Definition special (R : Runtime) (a : ascii) : bool :=
  bool_decide (a = delimiter) || bool_decide (a = quotechar)
  || existsb (fun b => bool_decide (a = b)) (list_ascii_of_string (linesep R)).

(** Quote characters inside a field are doubled. *)
Fixpoint doublequote (s : string) : string :=
  match s with
  | EmptyString => EmptyString
  | String a s' =>
      if bool_decide (a = quotechar)
      then String a (String a (doublequote s'))
      else String a (doublequote s')
  end.

Definition field (R : Runtime) (s : string) : string :=
  if existsb (special R) (list_ascii_of_string s)
  then String quotechar (doublequote s +:+ String quotechar EmptyString)
  else s.

Fixpoint join (sep : string) (l : list string) : string :=
  match l with
  | [] => EmptyString
  | [x] => x
  | x :: l' => x +:+ sep +:+ join sep l'
  end.

(** [csv.writer.writerow]: a record made of one empty field is written as
    a pair of quotes. *)
Definition record (R : Runtime) (fields : list string) : string :=
  match join (String delimiter EmptyString) (map (field R) fields), fields with
  | EmptyString, _ :: _ =>
      String quotechar (String quotechar EmptyString) +:+ linesep R
  | line, _ => line +:+ linesep R
  end.

(** A cell as text: [na_rep] is the empty string. *)
Definition format_cell (R : Runtime) (v : scalar) : string :=
  match v with
  | SStr s => s
  | SInt z => pretty z
  | SFloat f => if is_nan f then EmptyString else repr_f64 R f
  end.

(** [df.to_csv(index=False)]: the header, then one record per row. *)
Definition to_csv (R : Runtime) (df : DataFrame) : string :=
  record R (columns df)
  +:+ foldr (fun r acc => record R (map (format_cell R) (cells r)) +:+ acc)
            EmptyString (rows df).

(** UTF-8 of a code point below 256. *)
Definition utf8_char (a : ascii) : list Byte.byte :=
  let n := Z.of_N (N_of_ascii a) in
  let byte_of (z : Z) := byte_of_ascii (ascii_of_N (Z.to_N z)) in
  if (n <? 128)%Z then [byte_of n]
  else [byte_of (Z.lor 192 (Z.shiftr n 6)); byte_of (Z.lor 128 (Z.land n 63))].

(** [s.encode("utf-8")] *)
Fixpoint encode_utf8 (s : string) : list Byte.byte :=
  match s with
  | EmptyString => []
  | String a s' => utf8_char a ++ encode_utf8 s'
  end.

End Csv.

(* ===================================================================== *)
(** * Streamlit: the page as the list of elements a script run emits *)
(* ===================================================================== *)

Module St.
Import Py Np Pd.

Inductive figure :=
| Bar (x : list string) (y : list scalar)
| Scatter (x y : list scalar) (mode : string)
| Pie (names : list string) (values : list scalar) (annotation : string).

Inductive element :=
| Markdown (body : string)
| Caption (body : string)
| Write (body : string)
| Warning (body : string)
| Error (body : string)
| Toggle (label : string) (value : bool)
| Radio (label : string) (value : string)
| Slider (label : string) (min_value max_value value : Z)
| PlotlyChart (fig : figure)
| DownloadButton (label : string) (data : list Byte.byte) (file_name : string).

(** How a script, or a part of it, ends: it runs to its end, it calls
    [st.stop()], or an exception escapes it; in the last two cases nothing
    that follows in the script is executed. *)
Inductive outcome (A : Type) :=
| Done (a : A)
| Stopped
| Uncaught (e : exn).
Arguments Done {A} a.
Arguments Stopped {A}.
Arguments Uncaught {A} e.

Definition script (A : Type) : Type := list element * outcome A.

Definition ret {A} (a : A) : script A := ([], Done a).

Definition bind {A B} (m : script A) (k : A -> script B) : script B :=
  match m with
  | (out, Done a) => let '(out', r) := k a in (out ++ out', r)
  | (out, Stopped) => (out, Stopped)
  | (out, Uncaught e) => (out, Uncaught e)
  end.

Definition emit (e : element) : script unit := ([e], Done tt).

(** [st.stop()] *)
Definition stop {A} : script A := ([], Stopped).

(** An exception that no handler catches ends the run. *)
Definition lift {A} (m : result A) : script A :=
  match m with
  | Ok a => ret a
  | Raise e => ([], Uncaught e)
  end.

(** The widgets' state: what the visitor has set. *)
Record Session := {
  glow : bool;
  line_style : string;
  (** the position of the year slider, given its bounds *)
  pick_year : Z -> Z -> Z
}.

Definition toggle (label : string) (value : bool) : script bool :=
  ([Toggle label value], Done value).

Definition radio (label : string) (value : string) : script string :=
  ([Radio label value], Done value).

(** [st.slider(label, min_value, max_value, value)]: Streamlit refuses
    bounds that leave no range to choose from, and the exception is
    raised where the widget is called. *)
Definition slider (label : string) (lo hi value : Z) : script Z :=
  if (lo <? hi)%Z then ([Slider label lo hi value], Done value)
  else ([], Uncaught StreamlitInvalidMinMaxError).

Definition elements {A} (m : script A) : list element := fst m.
Definition result_of {A} (m : script A) : outcome A := snd m.

End St.

Notation "x <- m ;; k" := (St.bind m (fun x => k))
  (at level 100, m at next level, right associativity, only parsing).
Notation "m ;; k" := (St.bind m (fun _ => k))
  (at level 100, right associativity, only parsing).

(* ===================================================================== *)
(** * The script [app/app.py]

    The texts are the script's, without the emoji and typographic
    characters and with the HTML of the static cards left out. *)
(* ===================================================================== *)

Module App.
Import Py Np Pd Csv St.

(** Export cleaned DataFrames as CSV bytes. *)
Definition df_csv_bytes (R : Runtime) (df : DataFrame) : list Byte.byte :=
  encode_utf8 (to_csv R df).

Definition DATA_DIR : string := "data/".

Definition load_csv_safe (R : Runtime) (path : string) : script DataFrame :=
  match read_csv R path with
  | Ok df => ret (Frame (map strip (columns df)) (rows df))
  | Raise e =>
      emit (Error ("Failed to load `" +:+ path +:+ "` -> " +:+ exn_message e)) ;;
      ret empty_frame
  end.

(** The first name whose lower-case form holds one of the keys. *)
Definition find_column (cols : list string) (contains : list string)
  : option string :=
  List.find (fun c =>
               let cl := lower c in
               existsb (fun key => str_contains cl key) contains)
            cols.

Definition file_status (df : DataFrame) : string :=
  if negb (empty df) then "OK" else "Missing/Empty".

(** Sidebar status and global controls. *)
Definition sidebar (S : Session) (crypto_df lottery_df bls_raw : DataFrame)
  : script (bool * string) :=
  emit (Markdown "## Controls") ;;
  emit (Caption "Files detected (relative to `/data/`):") ;;
  emit (Write ("- `crypto_under30.csv`: **" +:+ file_status crypto_df +:+ "**")) ;;
  emit (Write ("- `lottery_under30.csv`: **" +:+ file_status lottery_df +:+ "**")) ;;
  emit (Write ("- `lottery_age_spend_bls_2018.csv`: **"
               +:+ file_status bls_raw +:+ "**")) ;;
  emit (Markdown "---") ;;
  g <- toggle "Extra glow" (glow S) ;;
  l <- radio "Line style for time series" (line_style S) ;;
  ret (g, l).

Definition header (g : bool) : script unit :=
  emit (Markdown
          ("Poor People Tax: from tickets to tokens"
           +:+ (if g then " [glow]" else ""))).

(** ** Lottery era: BLS bar chart *)

Definition age_order : list string :=
  ["Under 25"; "25-34"; "35-44"; "45-54"; "55-64"; "65-74"; "75+"].

(** The literal [12.0]. *)
Definition twelve : spec_float := of_Z 12.

Definition prep_bls (R : Runtime) (bls_in : DataFrame) : result DataFrame :=
  if empty bls_in then Ok bls_in else
  let df := rename {[ "age_group" := "AgeGroup";
                      "avg_annual_spend_usd" := "AvgAnnualSpend" ]} bls_in in
  (* Drop 'All ages' *)
  df <-r (if has_column "AgeGroup" df then
            a <-r getitem AttributeError "AgeGroup" df ;
            low <-r str_lower a ;
            Ok (getitem_mask (map (ne_str "all ages") low) df)
          else Ok df) ;
  (* Monthly from annual *)
  df <-r (if has_column "AvgAnnualSpend" df then
            a <-r getitem TypeError "AvgAnnualSpend" df ;
            Ok (setitem "AvgMonthlySpend"
                        (map (fun v => truediv v twelve) (to_numeric R a)) df)
          else Ok df) ;
  (* Order *)
  if has_column "AgeGroup" df then
    a <-r getitem TypeError "AgeGroup" df ;
    sort_values_categorical R age_order "AgeGroup"
      (setitem "AgeGroup" (categorical age_order a) df)
  else Ok df.

(** [series.astype(str)] on one cell. *)
Definition astype_str (R : Runtime) (v : scalar) : string :=
  match v with
  | SStr s => s
  | SInt z => pretty z
  | SFloat f => if is_nan f then "nan" else repr_f64 R f
  end.

Definition bls_section (R : Runtime) (bls_raw : DataFrame) : script unit :=
  emit (Markdown
          "## Lottery Era - Average Monthly Lottery Spend by Age (2017-2018)") ;;
  bls_df <- lift (prep_bls R bls_raw) ;;
  if empty bls_df then
    emit (Warning "`lottery_age_spend_bls_2018.csv` missing or malformed. Expect columns like `age_group`, `avg_annual_spend_usd`.")
  else
    x <- lift (getitem TypeError "AgeGroup" bls_df) ;;
    y <- lift (getitem TypeError "AvgMonthlySpend" bls_df) ;;
    emit (PlotlyChart (Bar (map (astype_str R) x) y)) ;;
    emit (Caption "Source: Bureau of Labor Statistics, CES 2017-2018 (BLS TED 2019).") ;;
    sel <- lift (getitem_list R
                   ["AgeGroup"; "AvgAnnualSpend"; "AvgMonthlySpend"; "year"; "source"]
                   bls_df) ;;
    emit (DownloadButton "Download BLS (cleaned CSV)"
            (df_csv_bytes R
               (rename {[ "year" := "Year"; "source" := "Source" ]} sel))
            "bls_lottery_spend_cleaned.csv").

(** ** Lottery era and crypto era: the two percent series

    [prep_lottery] and [prep_crypto] are the same function up to the name
    of the metric column. *)

Definition prep_series (R : Runtime) (src dst : string) (lot : DataFrame)
  : result DataFrame :=
  if empty lot then Ok lot else
  let df := rename {[ "year" := "Year"; src := dst; "source" := "Source" ]} lot in
  y <-r getitem TypeError "Year" df ;
  let df := setitem "Year" (to_numeric R y) df in
  p <-r getitem TypeError dst df ;
  let df := setitem dst (to_numeric R p) df in
  df <-r dropna ["Year"; dst] df ;
  sort_values R "Year" df.

Definition prep_lottery (R : Runtime) (lot : DataFrame) : result DataFrame :=
  prep_series R "under30_lottery_pct" "Under30LotteryPct" lot.

Definition prep_crypto (R : Runtime) (cdf : DataFrame) : result DataFrame :=
  prep_series R "under30_crypto_pct" "Under30CryptoPct" cdf.

Definition mode_choice (line_style : string) : string :=
  if bool_decide (line_style = "Lines + markers")
  then "lines+markers" else "markers".

Definition series_section (title warning caption metric button file_name : string)
  (R : Runtime) (line : result DataFrame) (line_style : string) : script unit :=
  emit (Markdown title) ;;
  line <- lift line ;;
  if empty line then emit (Warning warning)
  else
    x <- lift (getitem TypeError "Year" line) ;;
    y <- lift (getitem TypeError metric line) ;;
    emit (PlotlyChart (Scatter x y (mode_choice line_style))) ;;
    emit (Caption caption) ;;
    sel <- lift (getitem_list R ["Year"; metric; "Source"] line) ;;
    emit (DownloadButton button (df_csv_bytes R sel) file_name).

Definition gallup_section (R : Runtime) (lottery_df : DataFrame)
  (line_style : string) : script unit :=
  series_section
    "### Gallup: Under-30 Lottery Participation (2003, 2007, 2016)"
    "`lottery_under30.csv` missing or malformed. Expect columns: `year, under30_lottery_pct, source`."
    "Source: Gallup (2003, 2007, 2016). % of under-30s who reported playing the lottery."
    "Under30LotteryPct" "Download Gallup (cleaned CSV)"
    "lottery_under30_cleaned.csv"
    R (prep_lottery R lottery_df) line_style.

Definition transition_memo : script unit :=
  emit (Markdown "The Hope Market Goes Digital").

Definition crypto_section (R : Runtime) (crypto_df : DataFrame)
  (line_style : string) : script unit :=
  series_section
    "## Crypto Era - Under-30 Ownership (2015-2024)"
    "`crypto_under30.csv` missing or malformed. Expect columns: `year, under30_crypto_pct, source`."
    "Sources: Pew, Finder, CNBC/Credit Karma, Gemini. % of under-30s who own crypto (survey methodologies vary)."
    "Under30CryptoPct" "Download Crypto (cleaned CSV)"
    "crypto_under30_cleaned.csv"
    R (prep_crypto R crypto_df) line_style.

(** ** The new house: ownership concentration donut *)

(** Load data safely (so it won't crash if file missing). *)
Definition load_concentration (R : Runtime) : script DataFrame :=
  match read_csv R (DATA_DIR +:+ "crypto_concentration.csv") with
  | Ok df => ret df
  | Raise e =>
      emit (Warning ("Could not load crypto_concentration.csv - "
                     +:+ exn_message e)) ;;
      ret empty_frame
  end.

(** [series.min()] and [series.max()]: missing values are skipped in a
    numeric column; an [object] column is compared as Python compares its
    cells, which fails between a [str] and a missing value. *)
Definition extremum (better : scalar -> scalar -> bool) (s : list scalar)
  : scalar :=
  foldr (fun v acc =>
           if isna v then acc
           else if isna acc then v
           else if better v acc then v else acc) NaN s.

Definition series_extremum (int_better : Z -> Z -> bool)
  (f64_better : spec_float -> spec_float -> bool)
  (str_better : string -> string -> bool) (s : list scalar) : result scalar :=
  match dtype_of s with
  | Int64 => Ok (extremum (fun a b => int_better (as_i64 a) (as_i64 b)) s)
  | Float64 => Ok (extremum (fun a b => f64_better (as_f64 a) (as_f64 b)) s)
  | Object =>
      if existsb isna s then Raise TypeError
      else Ok (extremum (fun a b =>
                           match a, b with
                           | SStr x, SStr y => str_better x y
                           | _, _ => false
                           end) s)
  end.

Definition series_min : list scalar -> result scalar :=
  series_extremum Z.leb fleb String.leb.

Definition series_max : list scalar -> result scalar :=
  series_extremum (fun a b => Z.leb b a) (fun a b => fleb b a)
                  (fun a b => String.leb b a).

(** [int(x)] *)
Definition py_int (R : Runtime) (v : scalar) : result Z :=
  match v with
  | SInt z => Ok z
  | SFloat f => to_Z f
  | SStr s => int_of_str R s
  end.

(** [series.iloc[0]] *)
Definition iloc0 (s : list scalar) : result scalar :=
  match s with
  | [] => Raise IndexError
  | v :: _ => Ok v
  end.

(** The body of the [try] block. *)
Definition select_year (conc : DataFrame) (year : Z)
  : result (scalar * scalar * scalar) :=
  y <-r getitem TypeError "year" conc ;
  let mask := map (fun v => eq_int v year) y in
  top <-r getitem TypeError "top_0_01_pct_ownership" conc ;
  pct <-r iloc0 (select mask top) ;
  other <-r rsub 100 pct ;
  src <-r getitem TypeError "source" conc ;
  source <-r iloc0 (select mask src) ;
  Ok (pct, other, source).

Definition donut_groups : list string :=
  ["Top 0.01% of holders"; "All other holders"].

Definition concentration_section (R : Runtime) (S : Session) : script unit :=
  emit (Markdown "The New House: Who Holds the power?") ;;
  emit (Markdown
          "_Explore how Bitcoin ownership concentration changed over time._") ;;
  conc <- load_concentration R ;;
  if negb (empty conc) && has_column "year" conc then
    ycol <- lift (getitem TypeError "year" conc) ;;
    year_min <- lift (m <-r series_min ycol ; py_int R m) ;;
    year_max <- lift (m <-r series_max ycol ; py_int R m) ;;
    year <- slider "Select a year" year_min year_max
                   (pick_year S year_min year_max) ;;
    match select_year conc year with
    | Raise _ =>
        emit (Error "Your CSV must have columns: year, top_0_01_pct_ownership, source") ;;
        stop
    | Ok (pct, other, source) =>
        emit (PlotlyChart
                (Pie donut_groups [pct; other]
                     (format_1f R (as_f64 pct) +:+ "% of all Bitcoin"))) ;;
        emit (Caption
                ("Source: " +:+ astype_str R source +:+ " (" +:+ pretty year
                 +:+ "). The top 0.01% of holders control "
                 +:+ format_1f R (as_f64 pct)
                 +:+ "% of Bitcoin's total supply."))
    end
  else
    emit (Warning "`crypto_concentration.csv` missing or empty - expected columns: `year, top_0_01_pct_ownership, source`.").

(** ** The static cards and the footer *)

Definition synthesis_card : script unit :=
  emit (Markdown "## Crossing Lines: From Tickets to Tokens") ;;
  emit (Markdown "Different syntax, same dream.").

Definition closing_reflection : script unit :=
  emit (Markdown "A New Interface for an Old Game").

Definition footer : script unit :=
  emit (Markdown "---") ;;
  emit (Caption "Sources: BLS CES 2017-2018 (BLS TED 2019 image); Gallup (2003, 2007, 2016 lottery participation); Pew, Finder, CNBC/Credit Karma, Gemini (2015-2024 crypto ownership).").

(** ** The page, top to bottom *)

(** Everything the script does before the concentration section. *)
Definition page_top (R : Runtime) (S : Session) : script unit :=
  emit (Markdown "CRT_CSS") ;;
  crypto_df <- load_csv_safe R (DATA_DIR +:+ "crypto_under30.csv") ;;
  lottery_df <- load_csv_safe R (DATA_DIR +:+ "lottery_under30.csv") ;;
  bls_raw <- load_csv_safe R (DATA_DIR +:+ "lottery_age_spend_bls_2018.csv") ;;
  controls <- sidebar S crypto_df lottery_df bls_raw ;;
  header (fst controls) ;;
  bls_section R bls_raw ;;
  gallup_section R lottery_df (snd controls) ;;
  transition_memo ;;
  crypto_section R crypto_df (snd controls).

(** Everything the script does after the concentration section. *)
Definition page_bottom : script unit :=
  synthesis_card ;;
  closing_reflection ;;
  footer.

Definition page (R : Runtime) (S : Session) : script unit :=
  page_top R S ;;
  concentration_section R S ;;
  page_bottom.

End App.

(* ===================================================================== *)
(** * What the script relies on, and a runtime to run it *)
(* ===================================================================== *)

Module Contract.
Import Py Np Pd.

Definition valid_f64 (f : spec_float) : Prop := valid_binary prec emax f = true.

Definition fle (x y : spec_float) : Prop := fleb x y = true.

(** [argsort] returns a permutation of the positions that puts the array
    in non-decreasing order; which of several equal entries comes first is
    left open, as it is for numpy's quicksort. *)
Record RuntimeOk (R : Runtime) : Prop := {
  argsort_int_perm : forall a, argsort_int R a ≡ₚ seq 0 (length a);
  argsort_int_sorted : forall a, Sorted Z.le (itake (argsort_int R a) a);
  argsort_f64_perm : forall a, argsort_f64 R a ≡ₚ seq 0 (length a);
  argsort_f64_sorted :
    forall a, Forall (fun f => is_nan f = false) a ->
              Sorted fle (itake (argsort_f64 R a) a)
}.

(** The cells of a table as [read_csv] builds it: one per column, and the
    rows labelled apart. *)
Definition rectangular (df : DataFrame) : Prop :=
  Forall (fun r => length (cells r) = length (columns df)) (rows df).

End Contract.

Module Ref.
Import Py Np Pd.

(** Insertion of a position into positions already ordered by their
    keys. *)
Fixpoint insert_by {A} (leb : A -> A -> bool) (x : A * nat)
  (l : list (A * nat)) : list (A * nat) :=
  match l with
  | [] => [x]
  | y :: l' => if leb (fst x) (fst y) then x :: l else y :: insert_by leb x l'
  end.

Definition argsort_by {A} (leb : A -> A -> bool) (a : list A) : list nat :=
  map snd (foldr (insert_by leb) [] (zip a (seq 0 (length a)))).

Definition digit (a : ascii) : option Z :=
  let n := Z.of_N (N_of_ascii a) in
  if ((48 <=? n) && (n <=? 57))%Z then Some (n - 48)%Z else None.

Fixpoint digits (acc : Z) (s : string) : option Z :=
  match s with
  | EmptyString => Some acc
  | String a s' =>
      match digit a with
      | Some d => digits (10 * acc + d)%Z s'
      | None => None
      end
  end.

(** Decimal integer literals, with an optional minus sign. *)
Definition integer (s : string) : option Z :=
  match s with
  | EmptyString => None
  | String "-" (String a s') => Z.opp <$> digits 0 (String a s')
  | _ => digits 0 s
  end.

(** A float as mantissa and binary exponent. *)
Definition show_f64 (f : spec_float) : string :=
  match f with
  | S754_zero s => if s then "-0.0" else "0.0"
  | S754_infinity s => if s then "-inf" else "inf"
  | S754_nan => "nan"
  | S754_finite s m e =>
      (if s then "-" else "") +:+ pretty (Zpos m) +:+ "p" +:+ pretty e
  end.

Definition newline : string := String "010"%char EmptyString.

(** A runtime over the files [fs]: integers are parsed, arrays are sorted
    by insertion, floats are shown by mantissa and exponent. *)
Definition runtime (fs : list (string * DataFrame)) : Runtime := {|
  parse_number := fun s => SInt <$> integer s;
  argsort_int := argsort_by Z.leb;
  argsort_f64 := argsort_by fleb;
  argsort_str := argsort_by String.leb;
  repr_f64 := show_f64;
  format_1f := show_f64;
  int_of_str := fun s => match integer s with
                         | Some z => Ok z
                         | None => Raise ValueError
                         end;
  repr_index := fun names => "Index(" +:+ repr_list names +:+ ", dtype='object')";
  read_csv := fun path =>
    match list_find (fun kv => fst kv = path) fs with
    | Some (_, (_, df)) => Ok df
    | None => Raise (OSError "No such file or directory")
    end;
  linesep := newline
|}.

Definition session (year : Z) : St.Session := {|
  St.glow := true;
  St.line_style := "Lines + markers";
  St.pick_year := fun _ _ => year
|}.

(** [n / d] as a [float64]. *)
Definition ratio (n d : Z) : scalar := SFloat (fdiv (of_Z n) (of_Z d)).

Definition frame (cols : list string) (data : list (list scalar)) : DataFrame :=
  Frame cols (zip_with Row (seq 0 (length data)) data).

End Ref.

(* ===================================================================== *)
(** * Vocabulary of the statements *)
(* ===================================================================== *)

Module Spec.
Import Py Np Pd St App.

Definition labels (df : DataFrame) : list nat := map label (rows df).

(** The cell of a row under a column name that occurs once. *)
Definition value_of (name : string) (df : DataFrame) (r : row) : option scalar :=
  match positions name (columns df) 0 with
  | [j] => cells r !! j
  | _ => None
  end.

(** The cells of a column whose name occurs once, top to bottom. *)
Definition column_values (name : string) (df : DataFrame) : list scalar :=
  match positions name (columns df) 0 with
  | [j] => map (cell j) (rows df)
  | _ => []
  end.

Definition eq_ignore_case (a b : string) : Prop := lower a = lower b.

(** The order of two numbers of one numeric column. *)
Definition num_le (a b : scalar) : Prop :=
  match a, b with
  | SInt x, SInt y => (x <= y)%Z
  | SFloat x, SFloat y => fleb x y = true
  | _, _ => False
  end.

(** The age-group label of a row of the raw spend table. *)
Definition age_label (bls_in : DataFrame) (r : row) : option scalar :=
  value_of "AgeGroup"
    (rename {[ "age_group" := "AgeGroup";
               "avg_annual_spend_usd" := "AvgAnnualSpend" ]} bls_in) r.

Definition in_buckets (v : scalar) : Prop :=
  exists x, v = SStr x /\ x ∈ age_order.

Definition is_all_ages (v : scalar) : Prop :=
  exists x, v = SStr x /\ eq_ignore_case x "All ages".

(** Row [a] stands above row [b] in the table. *)
Definition above (df : DataFrame) (a b : nat) : Prop :=
  exists i j, labels df !! i = Some a /\ labels df !! j = Some b /\ i < j.

(** The cell of a row of a raw percent table, under the name the shaper
    gives the column. *)
Definition raw_value (src dst name : string) (lot : DataFrame) (r : row)
  : option scalar :=
  value_of name
    (rename {[ "year" := "Year"; src := dst; "source" := "Source" ]} lot) r.

(** Numeric coercion turns the cell into a missing value. *)
Definition fails_coercion (R : Runtime) (v : scalar) : Prop :=
  isna (coerce R v) = true.


(** No row of the concentration table is for the year. *)
Definition no_matching_row (conc : DataFrame) (year : Z) : Prop :=
  exists ycol, getitem TypeError "year" conc = Ok ycol
               /\ Forall (fun v => eq_int v year = false) ycol.

Definition is_chart (e : element) : bool :=
  match e with PlotlyChart _ => true | _ => false end.

End Spec.

(* ===================================================================== *)
(** * Sample files *)
(* ===================================================================== *)

Module Examples.
Import Py Np Pd St App Ref.

(** A concentration file with rows for 2015 and 2024 only. *)
Definition conc_2015_2024 : DataFrame :=
  frame ["year"; "top_0_01_pct_ownership"; "source"]
        [[SInt 2015; ratio 55 2; SStr "Chainalysis"];
         [SInt 2024; SInt 19; SStr "Glassnode"]].

Definition conc_path : string := DATA_DIR +:+ "crypto_concentration.csv".

Definition only_concentration : Runtime := runtime [(conc_path, conc_2015_2024)].

(** The header [year, top_0_01_pct_ownership, source], as the script's own
    warning spells the expected columns. *)
Definition conc_spaced : DataFrame :=
  frame ["year"; " top_0_01_pct_ownership"; " source"]
        [[SInt 2015; ratio 55 2; SStr "Chainalysis"]].

Definition no_files : Runtime := runtime [].

End Examples.

Module Claims.
Import Py Np Pd St App Spec.

(** Every element the part emits is on the page. *)
Definition renders {A B} (part : script A) (page : script B) : Prop :=
  forall e, e ∈ elements part -> e ∈ elements page.

End Claims.

Module Pipeline.
Import Py Np Pd.

(** A row of a percent table after its year (column [jy]) and its metric
    (column [jd]) went through [g1] and [g2]. *)
Definition coerced (jy jd : nat) (g1 g2 : scalar -> scalar) (r : row) : row :=
  let r1 := Row (label r) (<[jy := g1 (cell jy r)]> (cells r)) in
  Row (label r1) (<[jd := g2 (cell jd r1)]> (cells r1)).

(** Neither the year nor the metric of the row is missing. *)
Definition complete (jy jd : nat) (r : row) : bool :=
  negb (isna (cell jy r)) && (negb (isna (cell jd r)) && true).

End Pipeline.

Module SeriesSpec.
Import Py Np Pd Spec.

(** No row whose year or metric fails numeric coercion is in the output. *)
Definition drops_uncoercible (R : Runtime) (src dst : string)
  (lot out : DataFrame) : Prop :=
  forall r name v,
    r ∈ rows lot -> name ∈ ["Year"; dst] ->
    raw_value src dst name lot r = Some v -> fails_coercion R v ->
    label r ∉ labels out.

(** The years of the output never decrease from one row to the next. *)
Definition sorted_by_year (out : DataFrame) : Prop :=
  Sorted num_le (column_values "Year" out).

End SeriesSpec.

Module Samples.
Import Py Np Pd App Ref.

(** A participation file in which one year and one percentage do not
    parse, so that pandas reads every cell of the first two columns as
    text. *)
Definition gallup_raw : DataFrame :=
  frame ["year"; "under30_lottery_pct"; "source"]
        [[SStr "2016"; SStr "61"; SStr "Gallup"];
         [SStr "n/a"; SStr "70"; SStr "Gallup"];
         [SStr "2003"; SStr "68"; SStr "Gallup"];
         [SStr "2007"; SStr "?"; SStr "Gallup"]].

Definition gallup_shaped : DataFrame :=
  Eval vm_compute in
    match prep_lottery (runtime []) gallup_raw with
    | Ok df => df
    | Raise _ => empty_frame
    end.

(** The spend file of the end-to-end scenario, with one more row whose
    label is not an age bucket. *)
Definition bls_raw : DataFrame :=
  frame ["age_group"; "avg_annual_spend_usd"; "year"; "source"]
        [[SStr "25-34"; ratio 48384 100; SInt 2018; SStr "BLS"];
         [SStr "Seniors"; ratio 1000 1; SInt 2018; SStr "BLS"];
         [SStr "Under 25"; ratio 906 10; SInt 2018; SStr "BLS"];
         [SStr "All ages"; ratio 500 1; SInt 2018; SStr "BLS"]].

Definition bls_shaped : DataFrame :=
  Eval vm_compute in
    match prep_bls (runtime []) bls_raw with
    | Ok df => df
    | Raise _ => empty_frame
    end.

(** A spend file with whole dollars, one of them written as text. *)
Definition bls_whole : DataFrame :=
  frame ["age_group"; "avg_annual_spend_usd"]
        [[SStr "35-44"; SStr "1200"];
         [SStr "25-34"; SStr "about 480"];
         [SStr "Under 25"; SStr "90"]].

Definition bls_whole_shaped : DataFrame :=
  Eval vm_compute in
    match prep_bls (runtime []) bls_whole with
    | Ok df => df
    | Raise _ => empty_frame
    end.

End Samples.

Module BlsPipeline.
Import Py Np Pd App.

(** What [df[name] = values] does to the cells of one row, the name being
    at the positions [js]. *)
Definition put (js : list nat) (v : scalar) (cs : list scalar) : list scalar :=
  match js with
  | [] => cs ++ [v]
  | _ => foldr (fun j cs => <[j := v]> cs) cs js
  end.

Definition put_columns (js : list nat) (name : string) (cols : list string)
  : list string :=
  match js with
  | [] => cols ++ [name]
  | _ => cols
  end.

(** The row is kept by the 'All ages' filter on column [jg]. *)
Definition kept (jg : nat) (r : row) : bool :=
  ne_str "all ages"
    (match cell jg r with
     | SStr x => SStr (lower x)
     | _ => NaN
     end).

(** The row with its monthly spend written at [jsm], the annual spend
    being in column [ja] and coerced by [g]. *)
Definition with_monthly (g : scalar -> scalar) (ja : nat) (jsm : list nat)
  (r : row) : row :=
  Row (label r) (put jsm (truediv (g (cell ja r)) twelve) (cells r)).

Definition bucket (v : scalar) : scalar :=
  match v with
  | SStr x => if bool_decide (x ∈ age_order) then v else NaN
  | _ => NaN
  end.

(** The row with the label in column [jg] made categorical. *)
Definition with_bucket (jg : nat) (r : row) : row :=
  Row (label r) (<[jg := bucket (cell jg r)]> (cells r)).

(** [sort_values] on the categorical column [jg]. *)
Definition sorted_by_bucket (R : Runtime) (jg : nat) (rs : list row) : list row :=
  let codes := map (code age_order) (map (cell jg) rs) in
  itake (nargsort (argsort R) (map (fun c => eq_int c (-1)) codes) codes) rs.

End BlsPipeline.

Module BlsSpec.
Import Py Np Pd App Spec.

(** The table has a column of that name, and the row has [v] under every
    column of that name. *)
Definition under_every (name : string) (df : DataFrame) (r : row) (v : scalar)
  : Prop :=
  name ∈ columns df
  /\ forall j, columns df !! j = Some name -> cells r !! j = Some v.

(** The monthly spend of every row, as the shaper computes it from the
    annual spend of the row. *)
Definition monthly_as_computed (R : Runtime) (out : DataFrame) : Prop :=
  forall r a,
    r ∈ rows out -> value_of "AvgAnnualSpend" out r = Some a ->
    under_every "AvgMonthlySpend" out r (truediv (coerce R a) twelve).

(** [12.0] in binary64: 1.5 * 2 ^ 3. *)
Definition f64_12 : spec_float := S754_finite false 6755399441055744 (-49).

(** The whole number [z] as a [float64]. *)
Definition f64_of_int (z : Z) : spec_float := binary_normalize 53 1024 z 0 false.

(** The number that an annual spend stands for, as a [float64]: the cell
    itself when it is a number, the number its text parses to when it is
    text; a missing value and a text that is no number stand for none. *)
Definition number_of (R : Runtime) (a : scalar) : option spec_float :=
  let number v :=
    match v with
    | SInt z => Some (f64_of_int z)
    | SFloat f => if is_nan f then None else Some f
    | SStr _ => None
    end in
  match a with
  | SStr s => parse_number R s ≫= number
  | _ => number a
  end.

(** In every row whose annual spend is a number, the monthly spend is
    the IEEE 754 quotient of that number by 12, in binary64 and rounded to
    nearest, ties to even. *)
Definition monthly_is_annual_over_12 (R : Runtime) (out : DataFrame) : Prop :=
  forall r a x,
    r ∈ rows out -> value_of "AvgAnnualSpend" out r = Some a ->
    number_of R a = Some x ->
    under_every "AvgMonthlySpend" out r (SFloat (SFdiv 53 1024 x f64_12)).

(** An annual spend of twelve times a whole number gives that whole
    number as the monthly spend, exactly. *)
Definition whole_months_are_exact (R : Runtime) (out : DataFrame) : Prop :=
  forall r a k,
    r ∈ rows out -> value_of "AvgAnnualSpend" out r = Some a ->
    (0 <= k)%Z -> (12 * k < 2 ^ 53)%Z ->
    number_of R a = Some (f64_of_int (12 * k)) ->
    under_every "AvgMonthlySpend" out r (SFloat (f64_of_int k)).

(** No row labelled 'All ages', in any casing, is in the output. *)
Definition drops_all_ages (bls_in out : DataFrame) : Prop :=
  forall r v,
    r ∈ rows bls_in -> age_label bls_in r = Some v -> is_all_ages v ->
    label r ∉ labels out.

(** No row of the output carries the label 'All ages', in any casing. *)
Definition shows_no_all_ages (out : DataFrame) : Prop :=
  forall r v,
    r ∈ rows out -> value_of "AgeGroup" out r = Some v -> ~ is_all_ages v.

(** The row [r] is in the output, below every row labelled with one of
    the seven buckets. *)
Definition kept_below_buckets (bls_in out : DataFrame) (r : row) : Prop :=
  label r ∈ labels out
  /\ forall r' v',
       r' ∈ rows bls_in -> age_label bls_in r' = Some v' -> in_buckets v' ->
       above out (label r') (label r).

(** Every row labelled outside the seven buckets is kept, below the
    bucket rows. *)
Definition keeps_unmapped_last (bls_in out : DataFrame) : Prop :=
  forall r v,
    r ∈ rows bls_in -> age_label bls_in r = Some v -> ~ in_buckets v ->
    kept_below_buckets bls_in out r.

(** The same, for the labels that are not 'All ages' either. *)
Definition keeps_other_labels_last (bls_in out : DataFrame) : Prop :=
  forall r v,
    r ∈ rows bls_in -> age_label bls_in r = Some v ->
    ~ in_buckets v -> ~ is_all_ages v ->
    kept_below_buckets bls_in out r.

End BlsSpec.

Module Rounding.

(** The integer nearest to [M / 2 ^ n], ties to even. *)
Definition nearest_even (M n : Z) : Z :=
  let q := (M / 2 ^ n)%Z in
  let rho := (M mod 2 ^ n)%Z in
  match (2 * rho ?= 2 ^ n)%Z with
  | Lt => q
  | Gt => (q + 1)%Z
  | Eq => if Z.even q then q else (q + 1)%Z
  end.

(** The mantissa of [100.0]: 100 * 2 ^ 46, with exponent -46. *)
Definition hundred_mantissa : positive := 7036874417766400.

End Rounding.

Module ConcSpec.
Import Py Np Pd App Spec.

(** Row [i] is the first row whose year equals [year]. *)
Definition first_match (conc : DataFrame) (year : Z) (i : nat) : Prop :=
  (exists y, column_values "year" conc !! i = Some y /\ eq_int y year = true)
  /\ forall i' y', i' < i -> column_values "year" conc !! i' = Some y' ->
                   eq_int y' year = false.

(** The selected year has a matching row, with top percentage [p]. *)
Definition matching_row (conc : DataFrame) (year : Z) (p : scalar) : Prop :=
  exists i, first_match conc year i
            /\ column_values "top_0_01_pct_ownership" conc !! i = Some p.

(** [a + b == 100], in the arithmetic of the two values ([int64] or
    [float64]). *)
Definition sum_is_100 (a b : scalar) : Prop :=
  exists s, add a b = Ok s /\ eq_int s 100 = true.

(** An integer, or a float between 0 and 100. *)
Definition int_or_percentage (v : scalar) : Prop :=
  match v with
  | SInt _ => True
  | SFloat f =>
      valid_binary prec emax f = true
      /\ fleb (of_Z 0) f = true /\ fleb f (of_Z 100) = true
  | SStr _ => False
  end.

(** A concentration file whose first row has a blank top percentage, so
    that pandas reads the column as floats. *)
Definition conc_blank_share : DataFrame :=
  Ref.frame ["year"; "top_0_01_pct_ownership"; "source"]
            [[SInt 2015; NaN; SStr "Chainalysis"];
             [SInt 2021; SFloat (of_Z 27); SStr "Glassnode"]].

End ConcSpec.


Module ColumnSpec.
Import Py App.

(** The text [key] occurs in [s]. *)
Definition occurs_in (key s : string) : Prop :=
  exists a b, s = a +:+ key +:+ b.

(** The lower-case form of the name [c] holds one of the keys. *)
Definition hit (keys : list string) (c : string) : Prop :=
  exists key, key ∈ keys /\ occurs_in key (lower c).

(** [c] is the first name of [cols] that is a hit. *)
Definition first_hit (cols keys : list string) (c : string) : Prop :=
  exists before after,
    cols = before ++ c :: after
    /\ hit keys c /\ Forall (fun c' => ~ hit keys c') before.

(** The text holds a character that [lower] changes: a capital letter. *)
Definition has_capital (key : string) : Prop :=
  exists a, a ∈ list_ascii_of_string key /\ lower_char a <> a.

End ColumnSpec.

Module LoaderSpec.
Import Py Np Pd St App.

Definition chars (s : string) : list ascii := list_ascii_of_string s.

(** The text is made of whitespace only. *)
Definition blank (s : string) : Prop :=
  Forall (fun a => is_space a = true) (chars s).

(** The text neither starts nor ends with a whitespace character. *)
Definition trimmed (s : string) : Prop :=
  (forall a, head (chars s) = Some a -> is_space a = false)
  /\ (forall a, last (chars s) = Some a -> is_space a = false).

(** [c'] is [c] without the whitespace around it. *)
Definition stripped_of (c c' : string) : Prop :=
  trimmed c' /\ exists l r, blank l /\ blank r /\ c = l +:+ c' +:+ r.

Definition is_download (e : element) : bool :=
  match e with DownloadButton _ _ _ => true | _ => false end.

Definition is_slider (e : element) : bool :=
  match e with Slider _ _ _ _ => true | _ => false end.

Definition is_warning (e : element) : bool :=
  match e with Warning _ => true | _ => false end.

End LoaderSpec.

Module ShaperSpec.
Import Py Np Pd App Spec.

(** The raw percent table has exactly one column that the shaper calls
    [name]. *)
Definition named_once (src dst name : string) (lot : DataFrame) : Prop :=
  length (positions name
            (columns (rename {[ "year" := "Year"; src := dst;
                                "source" := "Source" ]} lot)) 0) = 1.

(** The raw percent table has no column that the shaper calls [name]. *)
Definition unnamed (src dst name : string) (lot : DataFrame) : Prop :=
  positions name
    (columns (rename {[ "year" := "Year"; src := dst;
                        "source" := "Source" ]} lot)) 0 = [].

(** The year and the metric of the row both coerce to a number. *)
Definition coercible (R : Runtime) (src dst : string) (lot : DataFrame)
  (r : row) : Prop :=
  exists vy vd,
    raw_value src dst "Year" lot r = Some vy
    /\ raw_value src dst dst lot r = Some vd
    /\ isna (coerce R vy) = false /\ isna (coerce R vd) = false.

(** Every row whose year and metric are numbers is in the output, which
    holds rows of the input only, none of them twice. *)
Definition keeps_coercible (R : Runtime) (src dst : string)
  (lot out : DataFrame) : Prop :=
  (forall r, r ∈ rows lot -> coercible R src dst lot r -> label r ∈ labels out)
  /\ NoDup (labels out)
  /\ labels out ⊆ labels lot.

(** A number: neither text nor a missing value. *)
Definition is_number (v : scalar) : Prop :=
  is_str v = false /\ isna v = false.

(** The table has one column of that name, which holds numbers only. *)
Definition numbers_only (name : string) (out : DataFrame) : Prop :=
  length (positions name (columns out) 0) = 1
  /\ Forall is_number (column_values name out).

(** The output has the renamed columns of the input, and outside the year
    and the metric every row of the output has the cells of the input row
    it comes from. *)
Definition other_cells_kept (src dst : string) (lot out : DataFrame) : Prop :=
  columns out
  = columns (rename {[ "year" := "Year"; src := dst; "source" := "Source" ]} lot)
  /\ forall r', r' ∈ rows out ->
       exists r, r ∈ rows lot /\ label r = label r'
                 /\ forall j name,
                      columns out !! j = Some name ->
                      name <> "Year" -> name <> dst ->
                      cells r' !! j = cells r !! j.

(** Every row has a year or a metric that fails numeric coercion. *)
Definition nothing_coercible (R : Runtime) (src dst : string) (lot : DataFrame)
  : Prop :=
  forall r, r ∈ rows lot ->
    exists name v, name ∈ ["Year"; dst]
                   /\ raw_value src dst name lot r = Some v
                   /\ fails_coercion R v.

End ShaperSpec.

Module Cases.
Import Py Np Pd App Ref.

(** A participation file whose year column is called [yr]. *)
Definition gallup_no_year : DataFrame :=
  frame ["yr"; "under30_lottery_pct"; "source"]
        [[SInt 2016; SInt 61; SStr "Gallup"]].

(** A participation file in which every row has a year or a percentage
    that does not parse. *)
Definition gallup_all_text : DataFrame :=
  frame ["year"; "under30_lottery_pct"; "source"]
        [[SStr "n/a"; SStr "61"; SStr "Gallup"];
         [SStr "2016"; SStr "?"; SStr "Gallup"]].

(** A participation file without its source column. *)
Definition gallup_no_source : DataFrame :=
  frame ["year"; "under30_lottery_pct"]
        [[SInt 2016; SInt 61]; [SInt 2003; SInt 68]].

End Cases.

Module SpendSpec.
Import Py Np Pd App Spec.

(** The number of columns of the raw spend table that the Spend Shaper
    calls [name]. *)
Definition spend_columns (name : string) (bls_in : DataFrame) : nat :=
  length (positions name
            (columns (rename {[ "age_group" := "AgeGroup";
                                "avg_annual_spend_usd" := "AvgAnnualSpend" ]}
                             bls_in)) 0).

(** The annual spend of a row of the raw spend table. *)
Definition annual_spend (bls_in : DataFrame) (r : row) : option scalar :=
  value_of "AvgAnnualSpend"
    (rename {[ "age_group" := "AgeGroup";
               "avg_annual_spend_usd" := "AvgAnnualSpend" ]} bls_in) r.

(** The row of the raw table is in the output, with its annual spend and
    a missing monthly spend. *)
Definition kept_without_monthly (bls_in out : DataFrame) (r : row) : Prop :=
  exists r',
    r' ∈ rows out /\ label r' = label r
    /\ value_of "AvgAnnualSpend" out r' = annual_spend bls_in r
    /\ BlsSpec.under_every "AvgMonthlySpend" out r' NaN.

(** Some age-group label is text, so that the column is a text column. *)
Definition text_labels (bls_in : DataFrame) : Prop :=
  exists r x, r ∈ rows bls_in /\ age_label bls_in r = Some (SStr x).

(** No age-group label is text: the column is numeric, or all missing. *)
Definition no_text_labels (bls_in : DataFrame) : Prop :=
  forall r v, r ∈ rows bls_in -> age_label bls_in r = Some v -> is_str v = false.

(** The rank of a label among the seven buckets. *)
Definition bucket_index (v : scalar) : option nat :=
  match v with
  | SStr x => index_of x age_order
  | _ => None
  end.

(** Rows labelled with buckets stand in the order of the buckets. *)
Definition in_bucket_order (bls_in out : DataFrame) : Prop :=
  forall r1 r2 v1 v2 i1 i2,
    r1 ∈ rows bls_in -> r2 ∈ rows bls_in ->
    age_label bls_in r1 = Some v1 -> age_label bls_in r2 = Some v2 ->
    bucket_index v1 = Some i1 -> bucket_index v2 = Some i2 -> i1 < i2 ->
    above out (label r1) (label r2).

(** Every row that is not labelled 'All ages' is in the output, which
    holds rows of the input only, none of them twice. *)
Definition keeps_all_but_all_ages (bls_in out : DataFrame) : Prop :=
  (forall r, r ∈ rows bls_in ->
             (forall v, age_label bls_in r = Some v -> ~ is_all_ages v) ->
             label r ∈ labels out)
  /\ NoDup (labels out)
  /\ labels out ⊆ labels bls_in.

End SpendSpec.

Module SpendCases.
Import Py Np Pd App Ref.

(** A spend file whose age groups are numbers. *)
Definition bls_numbers : DataFrame :=
  frame ["age_group"; "avg_annual_spend_usd"]
        [[SInt 25; SInt 900]; [SInt 35; SInt 1200]].

(** A spend file whose age-group column has another name. *)
Definition bls_no_age : DataFrame :=
  frame ["group"; "avg_annual_spend_usd"]
        [[SStr "25-34"; SInt 900]; [SStr "All ages"; SInt 800]].

(** A spend file with an annual spend that does not parse. *)
Definition bls_unparsed : DataFrame :=
  frame ["age_group"; "avg_annual_spend_usd"]
        [[SStr "25-34"; SStr "n/a"]; [SStr "35-44"; SStr "1200"]].

(** A spend file without its year column. *)
Definition bls_no_year : DataFrame :=
  frame ["age_group"; "avg_annual_spend_usd"; "source"]
        [[SStr "25-34"; SInt 900; SStr "BLS"]].

End SpendCases.

Module SelectorSpec.
Import Py Np Pd St App Spec.

(** The table has exactly one column of that name. *)
Definition once (name : string) (conc : DataFrame) : Prop :=
  length (positions name (columns conc) 0) = 1.

(** The one column of that name holds integers only. *)
Definition int_column (name : string) (conc : DataFrame) : Prop :=
  once name conc
  /\ Forall (fun v => is_int v = true) (column_values name conc).

(** The one column of that name holds no text. *)
Definition numeric_column (name : string) (conc : DataFrame) : Prop :=
  once name conc
  /\ Forall (fun v => is_str v = false) (column_values name conc).

(** The one column of that name holds missing values only. *)
Definition blank_column (name : string) (conc : DataFrame) : Prop :=
  once name conc
  /\ Forall (fun v => isna v = true) (column_values name conc).

(** The table has rows for two different years at least, so that the
    slider has a range. *)
Definition several_years (conc : DataFrame) : Prop :=
  exists a b, SInt a ∈ column_values "year" conc
              /\ SInt b ∈ column_values "year" conc /\ a <> b.

(** Every row of the table is for the year [y]. *)
Definition single_year (conc : DataFrame) (y : Z) : Prop :=
  once "year" conc
  /\ Forall (fun v => v = SInt y) (column_values "year" conc).

(** The slider is where the script puts it: on the last year. *)
Definition untouched (S : Session) : Prop :=
  forall lo hi, pick_year S lo hi = hi.

(** The bounds the script computes for the slider. *)
Definition slider_bounds (R : Runtime) (conc : DataFrame) (lo hi : Z) : Prop :=
  exists ycol,
    getitem TypeError "year" conc = Ok ycol
    /\ (m <-r series_min ycol ; py_int R m) = Ok lo
    /\ (m <-r series_max ycol ; py_int R m) = Ok hi.

(** The widgets as the script sets them on a first visit. *)
Definition first_visit : Session := {|
  glow := true;
  line_style := "Lines + markers";
  pick_year := fun _ hi => hi
|}.

(** A concentration file with its columns and its years in another
    order. *)
Definition conc_three : DataFrame :=
  Ref.frame ["source"; "year"; "top_0_01_pct_ownership"]
            [[SStr "Chainalysis"; SInt 2019; Ref.ratio 55 2];
             [SStr "Glassnode"; SInt 2015; SInt 31];
             [SStr "Glassnode"; SInt 2021; SInt 27]].

(** A concentration file whose years are blank. *)
Definition conc_blank_years : DataFrame :=
  Ref.frame ["year"; "top_0_01_pct_ownership"; "source"]
            [[NaN; SInt 31; SStr "Glassnode"];
             [NaN; SInt 27; SStr "Glassnode"]].

(** A concentration file without its source column. *)
Definition conc_no_source : DataFrame :=
  Ref.frame ["year"; "top_0_01_pct_ownership"]
            [[SInt 2015; SInt 31]; [SInt 2021; SInt 27]].

(** A concentration file with rows for one year only. *)
Definition conc_one_year : DataFrame :=
  Ref.frame ["year"; "top_0_01_pct_ownership"; "source"]
            [[SInt 2021; SInt 27; SStr "Glassnode"];
             [SInt 2021; SInt 28; SStr "Chainalysis"]].

End SelectorSpec.

Module SectionSpec.
Import Py Np Pd St App Spec.

(** The cells of a row under the listed columns, each occurring once. *)
Definition picked (names : list string) (out : DataFrame) (r : row) : row :=
  Row (label r) (map (fun name => default NaN (value_of name out r)) names).

(** The table the percent sections offer for download: the year, the
    metric and the source of every shaped row. *)
Definition download_table (metric : string) (out : DataFrame) : DataFrame :=
  Frame ["Year"; metric; "Source"]
        (map (picked ["Year"; metric; "Source"] out) (rows out)).

(** The table the bar chart section offers for download: five cells of
    every shaped row, the year and the source under their new names. *)
Definition spend_download_table (out : DataFrame) : DataFrame :=
  Frame ["AgeGroup"; "AvgAnnualSpend"; "AvgMonthlySpend"; "Year"; "Source"]
        (map (picked ["AgeGroup"; "AvgAnnualSpend"; "AvgMonthlySpend";
                      "year"; "source"] out)
             (rows out)).

(** A tick of the bar chart: a bucket, or the text of a missing value. *)
Definition is_tick (s : string) : Prop := s ∈ age_order \/ s = "nan".

End SectionSpec.

Module BlankYearSpec.
Import Py Np Pd St App Spec SelectorSpec.

(** A year in a float column: an integer below [2 ^ 53], as a float. *)
Definition float_year (v : scalar) (y : Z) : Prop :=
  (0 <= y < 2 ^ 53)%Z /\ v = SFloat (of_Z y).

(** The one [year] column is a float column in which some years may be
    blank: every cell is missing or a year, and some cell is a year. *)
Definition years_with_blanks (conc : DataFrame) : Prop :=
  once "year" conc
  /\ Forall (fun v => v = NaN \/ exists y, float_year v y)
            (column_values "year" conc)
  /\ exists v y, v ∈ column_values "year" conc /\ float_year v y.

(** Two cells of the [year] column are different years, so that the
    slider has a range. *)
Definition several_float_years (conc : DataFrame) : Prop :=
  exists va a vb b,
    va ∈ column_values "year" conc /\ float_year va a
    /\ vb ∈ column_values "year" conc /\ float_year vb b
    /\ a <> b.

(** A concentration file with a blank year. *)
Definition conc_one_blank : DataFrame :=
  Ref.frame ["year"; "top_0_01_pct_ownership"; "source"]
            [[SFloat (of_Z 2019); Ref.ratio 55 2; SStr "Chainalysis"];
             [NaN; SInt 30; SStr "Glassnode"];
             [SFloat (of_Z 2021); SInt 27; SStr "Glassnode"]].

End BlankYearSpec.

Module HeaderOnlySpec.
Import Py Np Pd St App.

(** Every file reads, and holds a header line and no row. *)
Definition header_only (R : Runtime) : Prop :=
  forall path, exists df, read_csv R path = Ok df /\ rows df = [].

Definition is_error (e : element) : bool :=
  match e with Error _ => true | _ => false end.

(** The three status lines of the sidebar when no file has data. *)
Definition all_missing_or_empty : list element :=
  [Write "- `crypto_under30.csv`: **Missing/Empty**";
   Write "- `lottery_under30.csv`: **Missing/Empty**";
   Write "- `lottery_age_spend_bls_2018.csv`: **Missing/Empty**"].

(** A runtime in which every file is the same header line. *)
Definition headers (cols : list string) : Runtime := {|
  parse_number := parse_number (Ref.runtime []);
  argsort_int := argsort_int (Ref.runtime []);
  argsort_f64 := argsort_f64 (Ref.runtime []);
  argsort_str := argsort_str (Ref.runtime []);
  repr_f64 := repr_f64 (Ref.runtime []);
  format_1f := format_1f (Ref.runtime []);
  int_of_str := int_of_str (Ref.runtime []);
  repr_index := repr_index (Ref.runtime []);
  read_csv := fun _ => Ok (Frame cols []);
  linesep := linesep (Ref.runtime [])
|}.

End HeaderOnlySpec.

Module RunSpec.
Import Py Np Pd St App.

Definition crypto_path : string := DATA_DIR +:+ "crypto_under30.csv".
Definition lottery_path : string := DATA_DIR +:+ "lottery_under30.csv".
Definition bls_path : string := DATA_DIR +:+ "lottery_age_spend_bls_2018.csv".
Definition concentration_path : string :=
  DATA_DIR +:+ "crypto_concentration.csv".

(** The table of a file once [load_csv_safe] has stripped its column
    names. *)
Definition stripped (df : DataFrame) : DataFrame :=
  Frame (map strip (columns df)) (rows df).

(** The run of a part of the script does not reach its last statement:
    it is stopped, or an exception escapes. *)
Definition ends_early (m : script unit) : Prop := result_of m <> Done tt.

(** The file was read, and the section that shows it ends early. *)
Definition ended_by (R : Runtime) (S : Session) (path : string) : Prop :=
  exists df,
    read_csv R path = Ok df
    /\ ((path = bls_path /\ ends_early (bls_section R (stripped df)))
        \/ (path = lottery_path
            /\ ends_early (gallup_section R (stripped df) (line_style S)))
        \/ (path = crypto_path
            /\ ends_early (crypto_section R (stripped df) (line_style S)))
        \/ (path = concentration_path
            /\ ends_early (concentration_section R S))).

End RunSpec.

(* ===================================================================== *)
(** * Masks and indexers *)
(* ===================================================================== *)

Module ListFacts.
Import Pd.

Local Abbreviation valid l idx := (Forall (fun i => i < length l) idx).

Lemma map_fmap {A B} (f : A -> B) (l : list A) : map f l = f <$> l.
Proof. reflexivity. Qed.

Section Select.
Context {A : Type}.
Implicit Types (l : list A) (mask : list bool).

Lemma select_map {B} (f : A -> B) mask l :
  select mask (map f l) = map f (select mask l).
Proof.
  revert l. induction mask as [|b mask IH]; intros [|x l]; simpl; try done.
  destruct b; simpl; by rewrite IH.
Qed.

Lemma elem_of_select (p : A -> bool) l x :
  x ∈ select (map p l) l <-> x ∈ l /\ p x = true.
Proof.
  induction l as [|y l IH]; simpl.
  - rewrite elem_of_nil. tauto.
  - destruct (p y) eqn:Hy; rewrite ?elem_of_cons, IH; [|split].
    + split; [intros [->|[??]]; auto|]. intros [[->|?] ?]; auto.
    + intros [??]; auto.
    + intros [[->|?] ?]; [congruence|auto].
Qed.

Lemma select_all (p : A -> bool) l :
  Forall (fun x => p x = true) l -> select (map p l) l = l.
Proof. induction 1 as [|x l Hx _ IH]; simpl; [done|]. by rewrite Hx, IH. Qed.

Lemma Forall_select (P : A -> Prop) mask l :
  Forall P l -> Forall P (select mask l).
Proof.
  intros H. revert mask. induction H as [|x l Hx _ IH]; intros [|b mask];
    simpl; try constructor.
  destruct b; [constructor|]; auto.
Qed.

Lemma select_partition mask l :
  length mask = length l ->
  select (map negb mask) l ++ select mask l ≡ₚ l.
Proof.
  revert l. induction mask as [|b mask IH]; intros [|x l] Hlen; simpl in *;
    try done.
  destruct b; simpl.
  - rewrite <- Permutation_middle. constructor. apply IH. lia.
  - constructor. apply IH. lia.
Qed.

End Select.

Section Take.
Context {A : Type}.
Implicit Types (l : list A) (idx : list nat).

Lemma itake_app idx1 idx2 l :
  itake (idx1 ++ idx2) l = itake idx1 l ++ itake idx2 l.
Proof. apply omap_app. Qed.

Lemma itake_map {B} (f : A -> B) idx l :
  itake idx (map f l) = map f (itake idx l).
Proof.
  unfold itake. rewrite !map_fmap.
  induction idx as [|i idx IH]; simpl; [done|].
  rewrite list_lookup_fmap. destruct (l !! i); simpl; [f_equal|]; exact IH.
Qed.

Lemma elem_of_itake idx l x : x ∈ itake idx l -> x ∈ l.
Proof.
  unfold itake. rewrite list_elem_of_omap. intros (i & _ & Hi).
  by eapply list_elem_of_lookup_2.
Qed.

Lemma omap_shift {B} (f : nat -> option B) (idx : list nat) :
  omap f (S <$> idx) = omap (fun i => f (S i)) idx.
Proof.
  induction idx as [|i idx IH]; [done|]. csimpl.
  destruct (f (S i)); [f_equal|]; exact IH.
Qed.

Lemma itake_seq l : itake (seq 0 (length l)) l = l.
Proof.
  unfold itake. induction l as [|x l IH]; [done|].
  change (x :: omap (fun i => (x :: l) !! i) (seq 1 (length l)) = x :: l).
  f_equal. rewrite <- fmap_S_seq, omap_shift. exact IH.
Qed.

Lemma itake_perm idx l :
  idx ≡ₚ seq 0 (length l) -> itake idx l ≡ₚ l.
Proof.
  intros H. unfold itake. rewrite H. fold (itake (seq 0 (length l)) l).
  by rewrite itake_seq.
Qed.


Lemma itake_lookup idx l i :
  valid l idx -> itake idx l !! i = idx !! i ≫= (fun j => l !! j).
Proof.
  unfold itake. intros H. revert i. induction H as [|j idx Hj _ IH]; intros i;
    csimpl; [done|].
  destruct (lookup_lt_is_Some_2 l j Hj) as [x Hx]. rewrite Hx. csimpl.
  destruct i; csimpl; [done|]. apply IH.
Qed.

Lemma length_itake idx l : valid l idx -> length (itake idx l) = length idx.
Proof.
  unfold itake. induction 1 as [|j idx Hj _ IH]; csimpl; [done|].
  destruct (lookup_lt_is_Some_2 l j Hj) as [x ->]. csimpl. by rewrite IH.
Qed.

Lemma itake_select mask idx l :
  valid l idx -> itake (select mask idx) l = select mask (itake idx l).
Proof.
  unfold itake. intros H. revert mask.
  induction H as [|j idx Hj _ IH]; intros [|b mask]; csimpl; try done.
  destruct (lookup_lt_is_Some_2 l j Hj) as [x Hx].
  destruct b; csimpl; rewrite Hx; csimpl; by rewrite IH.
Qed.

Lemma valid_seq l : valid l (seq 0 (length l)).
Proof. apply Forall_seq. intros; lia. Qed.

Lemma valid_select mask idx l : valid l idx -> valid l (select mask idx).
Proof. apply Forall_select. Qed.

End Take.

Lemma itake_itake {A} (s a : list nat) (l : list A) :
  valid l a -> itake s (itake a l) = itake (itake s a) l.
Proof.
  intros H. induction s as [|i s IH]; [done|].
  unfold itake at 1 3. csimpl. fold (itake a l). fold (itake s (itake a l)).
  fold (itake s a). rewrite itake_lookup by done.
  destruct (a !! i) as [j|] eqn:Hj; csimpl; [|exact IH].
  assert (Hlt : j < length l).
  { eapply Forall_forall in H; [exact H|]. by eapply list_elem_of_lookup_2. }
  destruct (lookup_lt_is_Some_2 l j Hlt) as [x Hx].
  rewrite Hx. csimpl. f_equal. exact IH.
Qed.

Lemma select_none {A B} (f : A -> bool) (l : list A) (l' : list B) :
  Forall (fun v => f v = false) l -> select (map f l) l' = [].
Proof.
  intros H. revert l'. induction H as [|x l Hx _ IH]; intros [|y l']; simpl; try done.
  rewrite Hx. apply IH.
Qed.

(** The shape of what [nargsort] selects: the entries that are not masked,
    in the sorter's order, then the masked ones in their own order. *)
Lemma itake_nargsort {A} sorter mask items (l : list A) :
  length mask = length l -> length items = length l ->
  itake (nargsort sorter mask items) l
  = itake (sorter (select (map negb mask) items)) (select (map negb mask) l)
    ++ select mask l.
Proof.
  intros Hm Hi. unfold nargsort. rewrite itake_app, Hi.
  rewrite <- itake_itake by (apply valid_select, valid_seq).
  rewrite !itake_select by apply valid_seq. by rewrite itake_seq.
Qed.

Lemma length_select_negb {A B} mask (l : list A) (k : list B) :
  length l = length k -> length (select mask l) = length (select mask k).
Proof.
  revert l k. induction mask as [|b mask IH]; intros [|x l] [|y k] H; simpl in *;
    try done.
  destruct b; simpl; rewrite (IH l k); auto.
Qed.

Lemma nargsort_rows_perm {A} sorter mask items (l : list A) :
  length mask = length l -> length items = length l ->
  sorter (select (map negb mask) items)
    ≡ₚ seq 0 (length (select (map negb mask) items)) ->
  itake (nargsort sorter mask items) l ≡ₚ l.
Proof.
  intros Hm Hi Hs. rewrite itake_nargsort by done.
  rewrite itake_perm.
  - by apply select_partition.
  - rewrite Hs. by rewrite (length_select_negb _ items l).
Qed.

End ListFacts.

(* ===================================================================== *)
(** * Properties of the loaders *)
(* ===================================================================== *)

Module LoaderFacts.
Import Py Np Pd St App Spec Examples.

Lemma lstrip_no_leading a s : Py.lstrip (String a s) = String a s -> is_space a = false.
Proof. simpl. destruct (is_space a) eqn:E; [|done]. intros H.
  assert (L : forall t, String.length (lstrip t) <= String.length t).
  { induction t as [|b t IH]; simpl; [lia|]. destruct (is_space b); simpl; lia. }
  specialize (L s). rewrite H in L. simpl in L. lia. Qed.

Lemma lstrip_idem s : lstrip (lstrip s) = lstrip s.
Proof. induction s as [|a s IH]; simpl; [done|].
  destruct (is_space a) eqn:E; [done|]. simpl. by rewrite E. Qed.

Lemma rstrip_idem s : rstrip (rstrip s) = rstrip s.
Proof. induction s as [|a s IH]; simpl; [done|].
  destruct (rstrip s) as [|b r] eqn:E.
  - destruct (is_space a) eqn:Ea; simpl; [done|]. by rewrite Ea.
  - simpl in *. by rewrite IH. Qed.

Lemma lstrip_rstrip s : lstrip (rstrip (lstrip s)) = rstrip (lstrip s).
Proof.
  assert (H : forall t, lstrip t = t -> lstrip (rstrip t) = rstrip t).
  { intros [|a t]; [done|]. intros Ht. apply lstrip_no_leading in Ht. simpl.
    destruct (rstrip t); rewrite ?Ht; simpl; rewrite ?Ht; done. }
  apply H, lstrip_idem. Qed.

Lemma strip_idem s : strip (strip s) = strip s.
Proof. unfold strip. rewrite lstrip_rstrip. apply rstrip_idem. Qed.

(** The general-purpose loader hands over stripped column names. *)
Lemma load_csv_safe_stripped R path :
  exists out df, load_csv_safe R path = (out, Done df)
    /\ Forall (fun c => strip c = c) (columns df).
Proof.
  unfold load_csv_safe. destruct (read_csv R path) as [df|e]; simpl.
  - eexists _, _. split; [done|]. simpl. apply Forall_forall. intros c Hc.
    apply list_elem_of_fmap in Hc as (c' & -> & _). apply strip_idem.
  - eexists _, _. split; [done|]. constructor.
Qed.

(** With all four files unreadable the page still runs to its end. *)
Lemma page_without_files R S :
  (forall path, exists e, read_csv R path = Raise e) ->
  result_of (page R S) = Done tt.
Proof.
  intros H. unfold page, page_top, concentration_section, load_concentration, load_csv_safe.
  destruct (H (DATA_DIR +:+ "crypto_under30.csv")) as [e1 ->].
  destruct (H (DATA_DIR +:+ "lottery_under30.csv")) as [e2 ->].
  destruct (H (DATA_DIR +:+ "lottery_age_spend_bls_2018.csv")) as [e3 ->].
  destruct (H (DATA_DIR +:+ "crypto_concentration.csv")) as [e4 ->].
  reflexivity.
Qed.

(** C7. On a concentration file whose header is written
    [year, top_0_01_pct_ownership, source], [load_concentration] returns the
    column names with their leading blank, which [strip] would remove. *)
Theorem load_concentration_keeps_blanks :
  exists df, load_concentration (Ref.runtime [(conc_path, conc_spaced)]) = ([], Done df)
    /\ columns df = ["year"; " top_0_01_pct_ownership"; " source"]
    /\ map strip (columns df) <> columns df.
Proof. eexists. split; [reflexivity|]. split; [reflexivity|]. vm_compute. discriminate. Qed.

End LoaderFacts.

Module BadFileFacts.
Import Py Np Pd St App Spec RunSpec.

Lemma result_of_bind {A B} (m : script A) (k : A -> script B) :
  result_of (bind m k)
  = match result_of m with
    | Done a => result_of (k a)
    | Stopped => Stopped
    | Uncaught e => Uncaught e
    end.
Proof.
  destruct m as [out [a| |e]]; simpl; [|done..].
  by destruct (k a).
Qed.

(** A loader always hands a table over: the stripped table of the file,
    or the empty table when the file could not be read. *)
Lemma load_csv_safe_result R path :
  result_of (load_csv_safe R path)
  = Done (match read_csv R path with
          | Ok df => stripped df
          | Raise _ => empty_frame
          end).
Proof. unfold load_csv_safe. by destruct (read_csv R path). Qed.

Lemma sidebar_result S a b c :
  result_of (sidebar S a b c) = Done (glow S, line_style S).
Proof. reflexivity. Qed.

Lemma bls_section_empty R : result_of (bls_section R empty_frame) = Done tt.
Proof. reflexivity. Qed.

Lemma gallup_section_empty R style :
  result_of (gallup_section R empty_frame style) = Done tt.
Proof. reflexivity. Qed.

Lemma crypto_section_empty R style :
  result_of (crypto_section R empty_frame style) = Done tt.
Proof. reflexivity. Qed.

Lemma concentration_section_unread R S e :
  read_csv R concentration_path = Raise e ->
  result_of (concentration_section R S) = Done tt.
Proof.
  intros H. unfold concentration_section, load_concentration.
  unfold concentration_path in H. rewrite H. reflexivity.
Qed.

(** The run of the page is the run of its four sections, one after the
    other, each on the table of its file. *)
Lemma page_result R S :
  let table path := match read_csv R path with
                    | Ok df => stripped df
                    | Raise _ => empty_frame
                    end in
  result_of (page R S)
  = match result_of (bls_section R (table bls_path)) with
    | Done _ =>
        match result_of (gallup_section R (table lottery_path) (line_style S)) with
        | Done _ =>
            match result_of (crypto_section R (table crypto_path) (line_style S)) with
            | Done _ => result_of (concentration_section R S)
            | r => r
            end
        | r => r
        end
    | r => r
    end.
Proof.
  cbv zeta. unfold page, page_top.
  repeat (rewrite ?result_of_bind, ?load_csv_safe_result, ?sidebar_result;
          cbn [emit result_of snd fst header transition_memo]).
  fold bls_path lottery_path crypto_path.
  destruct (result_of (bls_section _ _)) as [[]| |]; [|done..].
  destruct (result_of (gallup_section _ _ _)) as [[]| |]; [|done..].
  destruct (result_of (crypto_section _ _ _)) as [[]| |]; [|done..].
  by destruct (result_of (concentration_section R S)) as [[]| |].
Qed.

End BadFileFacts.

Module BadFileClaims.
Import Py Np Pd St App Spec RunSpec BadFileFacts.

(** C8. When reading or parsing a file raises, the loader of the file
    shows one diagnostic and returns the empty table ([load_csv_safe] an
    error, [load_concentration] a warning), and the run goes on: if the
    page does not run to its end, then because of another file, one that
    was read, whose section stops the script or lets an exception
    escape. *)
Theorem load_failure_never_ends_the_run (R : Runtime) (S : Session)
  (path : string) (e : exn) :
  read_csv R path = Raise e ->
  (exists msg, load_csv_safe R path = ([Error msg], Done empty_frame))
  /\ (path = concentration_path ->
      exists msg, load_concentration R = ([Warning msg], Done empty_frame))
  /\ (ends_early (page R S) ->
      exists other, other <> path /\ ended_by R S other).
Proof.
  intros H. split; [|split].
  - unfold load_csv_safe. rewrite H. eexists. reflexivity.
  - intros ->. unfold load_concentration. unfold concentration_path in H.
    rewrite H. eexists. reflexivity.
  - unfold ends_early. rewrite page_result. cbv zeta.
    assert (Hother : forall other, ended_by R S other ->
                       exists other, other <> path /\ ended_by R S other).
    { intros other Hby. exists other. split; [|done].
      intros ->. destruct Hby as (df & Hdf & _). congruence. }
    assert (Hb : result_of (bls_section R
                              match read_csv R bls_path with
                              | Ok df => stripped df
                              | Raise _ => empty_frame
                              end) = Done tt
                 \/ ended_by R S bls_path).
    { destruct (read_csv R bls_path) as [df|e'] eqn:E; [|by left].
      destruct (result_of (bls_section R (stripped df))) as [[]| |] eqn:Er;
        [by left|right..]; exists df; (split; [done|]); left;
        (split; [done|]); unfold ends_early; by rewrite Er. }
    assert (Hg : result_of (gallup_section R
                              match read_csv R lottery_path with
                              | Ok df => stripped df
                              | Raise _ => empty_frame
                              end (line_style S)) = Done tt
                 \/ ended_by R S lottery_path).
    { destruct (read_csv R lottery_path) as [df|e'] eqn:E; [|by left].
      destruct (result_of (gallup_section R (stripped df) (line_style S)))
        as [[]| |] eqn:Er;
        [by left|right..]; exists df; (split; [done|]); right; left;
        (split; [done|]); unfold ends_early; by rewrite Er. }
    assert (Hc : result_of (crypto_section R
                              match read_csv R crypto_path with
                              | Ok df => stripped df
                              | Raise _ => empty_frame
                              end (line_style S)) = Done tt
                 \/ ended_by R S crypto_path).
    { destruct (read_csv R crypto_path) as [df|e'] eqn:E; [|by left].
      destruct (result_of (crypto_section R (stripped df) (line_style S)))
        as [[]| |] eqn:Er;
        [by left|right..]; exists df; (split; [done|]); right; right; left;
        (split; [done|]); unfold ends_early; by rewrite Er. }
    assert (Hd : result_of (concentration_section R S) = Done tt
                 \/ ended_by R S concentration_path).
    { destruct (read_csv R concentration_path) as [df|e'] eqn:E.
      - destruct (result_of (concentration_section R S)) as [[]| |] eqn:Er;
          [by left|right..]; exists df; (split; [done|]); do 3 right;
          (split; [done|]); unfold ends_early; by rewrite Er.
      - left. by eapply concentration_section_unread. }
    destruct Hb as [->|Hb]; [|intros _; by eapply Hother].
    destruct Hg as [->|Hg]; [|intros _; by eapply Hother].
    destruct Hc as [->|Hc]; [|intros _; by eapply Hother].
    destruct Hd as [->|Hd]; [done|intros _; by eapply Hother].
Qed.

Lemma load_failure_never_ends_the_run_witness :
  let R := Examples.only_concentration in
  let S := Ref.session 2016 in
  (exists msg, load_csv_safe R crypto_path = ([Error msg], Done empty_frame))
  /\ (crypto_path = concentration_path ->
      exists msg, load_concentration R = ([Warning msg], Done empty_frame))
  /\ (ends_early (page R S) ->
      exists other, other <> crypto_path /\ ended_by R S other).
Proof.
  apply (load_failure_never_ends_the_run Examples.only_concentration
           (Ref.session 2016) crypto_path
           (OSError "No such file or directory")).
  reflexivity.
Defined.

End BadFileClaims.

(* ===================================================================== *)
(** * Properties of the export *)
(* ===================================================================== *)

Module ExportFacts.
Import Py Np Pd Csv St App Spec.






End ExportFacts.

(* ===================================================================== *)
(** * Properties of the page *)
(* ===================================================================== *)

Module PageFacts.
Import Py Np Pd Csv St App Spec Claims Examples ListFacts.

Lemma select_year_no_match conc year :
  no_matching_row conc year -> exists e, select_year conc year = Raise e.
Proof.
  intros (ycol & Hy & Hall). unfold select_year. rewrite Hy. simpl.
  destruct (getitem TypeError "top_0_01_pct_ownership" conc) as [top|e]; simpl;
    [|by eexists].
  rewrite select_none by done. simpl. by eexists.
Qed.

(** C1, as the code has it. When the table gives the slider a range, its
    least year being below its greatest, and the slider is on a year
    without a row, the section shows its error and the script stops
    there: the page is what came before the section, the section's two
    headings, the slider and the error; no chart of the section and
    nothing of what follows it (synthesis card, closing reflection,
    footer) is rendered. *)
Theorem no_matching_row_stops_the_script
  (R : Runtime) (S : Session) (top : list element) (conc : DataFrame)
  (ycol : list scalar) (year_min year_max : Z) :
  page_top R S = (top, Done tt) ->
  read_csv R (DATA_DIR +:+ "crypto_concentration.csv") = Ok conc ->
  empty conc = false ->
  has_column "year" conc = true ->
  getitem TypeError "year" conc = Ok ycol ->
  (m <-r series_min ycol ; py_int R m) = Ok year_min ->
  (m <-r series_max ycol ; py_int R m) = Ok year_max ->
  (year_min < year_max)%Z ->
  no_matching_row conc (pick_year S year_min year_max) ->
  page R S =
    (top ++ [Markdown "The New House: Who Holds the power?";
             Markdown "_Explore how Bitcoin ownership concentration changed over time._";
             Slider "Select a year" year_min year_max
                    (pick_year S year_min year_max);
             Error "Your CSV must have columns: year, top_0_01_pct_ownership, source"],
     Stopped).
Proof.
  intros Htop Hread Hne Hcol Hy Hmin Hmax Hlt Hno.
  apply select_year_no_match in Hno as [e He].
  apply Z.ltb_lt in Hlt.
  unfold page. rewrite Htop. unfold concentration_section, load_concentration.
  rewrite Hread. simpl. rewrite Hne, Hcol. simpl. rewrite Hy. simpl.
  rewrite Hmin. simpl. rewrite Hmax. simpl. unfold slider. rewrite Hlt. simpl.
  rewrite He. simpl. reflexivity.
Qed.

Lemma no_matching_row_stops_the_script_witness :
  page Examples.only_concentration (Ref.session 2016) =
    (elements (page_top Examples.only_concentration (Ref.session 2016))
     ++ [Markdown "The New House: Who Holds the power?";
         Markdown "_Explore how Bitcoin ownership concentration changed over time._";
         Slider "Select a year" 2015 2024 2016;
         Error "Your CSV must have columns: year, top_0_01_pct_ownership, source"],
     Stopped).
Proof.
  apply (no_matching_row_stops_the_script Examples.only_concentration
           (Ref.session 2016)
           (elements (page_top Examples.only_concentration (Ref.session 2016)))
           conc_2015_2024 [SInt 2015; SInt 2024] 2015 2024).
  - vm_compute. reflexivity.
  - vm_compute. reflexivity.
  - vm_compute. reflexivity.
  - vm_compute. reflexivity.
  - vm_compute. reflexivity.
  - vm_compute. reflexivity.
  - vm_compute. reflexivity.
  - lia.
  - exists [SInt 2015; SInt 2024]. split; [vm_compute; reflexivity|].
    repeat constructor.
Defined.

(** C1, as stated, fails: with rows for 2015 and 2024 only and the slider
    on 2016, which is within its range, the error is shown and the
    sections after the concentration section are not rendered. *)
Lemma stop_hides_the_rest_of_the_page :
  no_matching_row conc_2015_2024 2016
  /\ (2015 <= 2016 <= 2024)%Z
  /\ Error "Your CSV must have columns: year, top_0_01_pct_ownership, source"
       ∈ elements (page only_concentration (Ref.session 2016))
  /\ ~ renders page_bottom (page only_concentration (Ref.session 2016)).
Proof.
  split; [|split; [lia|split]].
  - exists [SInt 2015; SInt 2024]. split; [reflexivity|]. repeat constructor.
  - apply list_elem_of_In. vm_compute.
    repeat (first [left; reflexivity | right]).
  - intros H.
    specialize (H (Markdown "A New Interface for an Old Game")).
    assert (Hin : Markdown "A New Interface for an Old Game" ∈ elements page_bottom).
    { apply list_elem_of_In. vm_compute.
      repeat (first [left; reflexivity | right]). }
    apply H, list_elem_of_In in Hin. vm_compute in Hin.
    repeat (destruct Hin as [Hin|Hin]; [discriminate Hin|]). exact Hin.
Qed.

End PageFacts.


(* ===================================================================== *)
(** * Facts about [float64] *)
(* ===================================================================== *)

Module FloatFacts.
Import Py Np.

Lemma iter_pos_invariant {A} (P : A -> Prop) (f : A -> A) :
  (forall x, P x -> P (f x)) -> forall n x, P x -> P (SpecFloat.iter_pos f n x).
Proof.
  intros Hf. induction n as [n IH|n IH|]; intros x Hx; simpl; auto.
Qed.

Lemma shr_1_nonneg mrs : (0 <= shr_m mrs)%Z -> (0 <= shr_m (shr_1 mrs))%Z.
Proof.
  destruct mrs as [m r s]. simpl. destruct m as [|p|p]; simpl; [lia| |lia].
  destruct p; simpl; lia.
Qed.

Lemma shr_nonneg mrs e n :
  (0 <= shr_m mrs)%Z -> (0 <= shr_m (fst (shr mrs e n)))%Z.
Proof.
  intros H. destruct n as [|p|p]; simpl; try done.
  apply (iter_pos_invariant (fun x => (0 <= shr_m x)%Z)); [apply shr_1_nonneg|done].
Qed.

Lemma shr_fexp_nonneg m e l :
  (0 <= m)%Z -> (0 <= shr_m (fst (shr_fexp prec emax m e l)))%Z.
Proof.
  intros H. unfold shr_fexp. apply shr_nonneg.
  destruct l as [|[]]; simpl; done.
Qed.

Lemma round_nearest_even_nonneg m l :
  (0 <= m)%Z -> (0 <= round_nearest_even m l)%Z.
Proof.
  intros H. destruct l as [|[]]; simpl; try lia. destruct (Z.even m); lia.
Qed.

Lemma binary_round_aux_not_nan s m e l :
  (0 <= m)%Z -> is_nan (binary_round_aux prec emax s m e l) = false.
Proof.
  intros H. unfold binary_round_aux.
  pose proof (shr_fexp_nonneg m e l H) as H1.
  destruct (shr_fexp prec emax m e l) as [mrs' e']. simpl in H1.
  pose proof (shr_fexp_nonneg _ e' loc_Exact
                (round_nearest_even_nonneg _ (loc_of_shr_record mrs') H1)) as H2.
  destruct (shr_fexp prec emax _ e' loc_Exact) as [mrs'' e'']. simpl in H2.
  destruct (shr_m mrs'') as [|p|p]; [done| |lia].
  by destruct (e'' <=? emax - prec)%Z.
Qed.

Lemma binary_round_not_nan s m e :
  is_nan (binary_round prec emax s m e) = false.
Proof.
  unfold binary_round. destruct (shl_align _ _ _) as [mz ez].
  by apply binary_round_aux_not_nan.
Qed.

(** [float(z)] is never NaN. *)
Lemma of_Z_not_nan z : is_nan (of_Z z) = false.
Proof.
  unfold of_Z, binary_normalize. destruct z; [done| |]; apply binary_round_not_nan.
Qed.

End FloatFacts.

(* ===================================================================== *)
(** * Facts about tables *)
(* ===================================================================== *)

Module FrameFacts.
Import Py Np Pd Spec Contract ListFacts FloatFacts.

(** ** Column positions *)

Lemma elem_of_positions name cols k j :
  j ∈ positions name cols k <-> k <= j /\ cols !! (j - k) = Some name.
Proof.
  revert k. induction cols as [|c cols IH]; intros k; simpl.
  - rewrite elem_of_nil. split; [done|]. by intros [_ ?].
  - assert (Hstep : (S k <= j /\ cols !! (j - S k) = Some name)
                    <-> (k <= j /\ j <> k /\ (c :: cols) !! (j - k) = Some name)).
    { split.
      - intros [? H]. replace (j - k) with (S (j - S k)) by lia. auto with lia.
      - intros (? & ? & H). replace (j - k) with (S (j - S k)) in H by lia.
        auto with lia. }
    case_bool_decide as Hc; rewrite ?elem_of_cons, IH, Hstep.
    + subst c. split.
      * intros [->|(? & ? & ?)]; [|done]. by rewrite Nat.sub_diag.
      * intros [? H]. destruct (decide (j = k)); auto.
    + split; [intros (? & ? & ?); done|]. intros [? H].
      split; [done|]. split; [|done]. intros ->.
      rewrite Nat.sub_diag in H. simpl in H. congruence.
Qed.

Lemma positions_lookup name cols j :
  j ∈ positions name cols 0 <-> cols !! j = Some name.
Proof. rewrite elem_of_positions, Nat.sub_0_r. intuition lia. Qed.

Lemma positions_one name cols j :
  positions name cols 0 = [j] -> cols !! j = Some name /\ j < length cols.
Proof.
  intros H. assert (Hj : cols !! j = Some name).
  { apply positions_lookup. rewrite H. by apply list_elem_of_singleton. }
  split; [done|]. by eapply lookup_lt_Some.
Qed.

Lemma positions_apart a b cols ja jb :
  a <> b -> positions a cols 0 = [ja] -> positions b cols 0 = [jb] -> ja <> jb.
Proof.
  intros Hab Ha Hb ->. apply positions_one in Ha as [Ha _], Hb as [Hb _]. congruence.
Qed.

Lemma positions_nil name cols k : positions name cols k = [] <-> name ∉ cols.
Proof.
  revert k. induction cols as [|c cols IH]; intros k; simpl.
  - split; [intros _; apply not_elem_of_nil|done].
  - rewrite not_elem_of_cons. case_bool_decide; [|rewrite IH]; naive_solver.
Qed.

Lemma has_column_positions name df :
  has_column name df = true <-> positions name (columns df) 0 <> [].
Proof.
  unfold has_column. rewrite bool_decide_eq_true, positions_nil.
  destruct (decide (name ∈ columns df)); tauto.
Qed.

Lemma has_column_here name df j :
  positions name (columns df) 0 = [j] -> has_column name df = true.
Proof. intros H. apply has_column_positions. by rewrite H. Qed.

Lemma has_column_nowhere name df :
  positions name (columns df) 0 = [] -> has_column name df = false.
Proof.
  intros H. apply not_true_is_false. rewrite has_column_positions, H.
  intros Hn. by apply Hn.
Qed.

Lemma positions_app name a b k :
  positions name (a ++ b) k = positions name a k ++ positions name b (k + length a).
Proof.
  revert k. induction a as [|c a IH]; intros k; simpl.
  - by rewrite Nat.add_0_r.
  - rewrite IH. replace (S k + length a) with (k + S (length a)) by lia.
    by case_bool_decide.
Qed.

Lemma positions_snoc_other name new cols :
  name <> new -> positions name (cols ++ [new]) 0 = positions name cols 0.
Proof.
  intros H. rewrite positions_app. simpl. rewrite bool_decide_eq_false_2 by done.
  apply app_nil_r.
Qed.

Lemma positions_snoc_new new cols :
  positions new cols 0 = [] -> positions new (cols ++ [new]) 0 = [length cols].
Proof.
  intros H. rewrite positions_app, H. simpl. by rewrite bool_decide_eq_true_2.
Qed.

(** ** Cells *)

Lemma cell_lookup j r v : cells r !! j = Some v -> cell j r = v.
Proof. unfold cell. by intros ->. Qed.

Lemma cell_insert_eq j l cs v :
  j < length cs -> cell j (Row l (<[j := v]> cs)) = v.
Proof. intros H. unfold cell. simpl. by rewrite list_lookup_insert_eq. Qed.

Lemma cell_insert_ne j j' l cs v :
  j <> j' -> cell j (Row l (<[j' := v]> cs)) = cell j (Row l cs).
Proof. intros H. unfold cell. simpl. by rewrite list_lookup_insert_ne. Qed.

Lemma cell_same_cells j r l : cell j (Row l (cells r)) = cell j r.
Proof. done. Qed.

(** ** Reading and writing a column *)

Lemma getitem_Ok dup name df s :
  getitem dup name df = Ok s ->
  exists j, positions name (columns df) 0 = [j] /\ s = map (cell j) (rows df).
Proof.
  unfold getitem. destruct (positions name (columns df) 0) as [|j [|??]];
    intros H; simplify_eq. eauto.
Qed.

Lemma getitem_one dup name df j :
  positions name (columns df) 0 = [j] ->
  getitem dup name df = Ok (map (cell j) (rows df)).
Proof. unfold getitem. by intros ->. Qed.

Lemma setitem_at name (g : row -> scalar) df j :
  positions name (columns df) 0 = [j] ->
  setitem name (map g (rows df)) df
  = Frame (columns df)
          (map (fun r => Row (label r) (<[j := g r]> (cells r))) (rows df)).
Proof.
  intros H. unfold setitem. rewrite H. f_equal.
  rewrite map_fmap, zip_with_fmap_r, zip_with_diag. done.
Qed.

Lemma setitem_new name (g : row -> scalar) df :
  positions name (columns df) 0 = [] ->
  setitem name (map g (rows df)) df
  = Frame (columns df ++ [name])
          (map (fun r => Row (label r) (cells r ++ [g r])) (rows df)).
Proof.
  intros H. unfold setitem. rewrite H. f_equal.
  rewrite map_fmap, zip_with_fmap_r, zip_with_diag. done.
Qed.

Lemma dropna_two a b df ja jb :
  positions a (columns df) 0 = [ja] ->
  positions b (columns df) 0 = [jb] ->
  dropna [a; b] df
  = Ok (Frame (columns df)
          (select (map (fun r => negb (isna (cell ja r))
                                 && (negb (isna (cell jb r)) && true))
                       (rows df))
                  (rows df))).
Proof.
  intros Ha Hb. unfold dropna, missing, locate_all. simpl.
  rewrite (has_column_here a df ja Ha), (has_column_here b df jb Hb). simpl.
  rewrite Ha, Hb. reflexivity.
Qed.

Lemma sort_values_one R name df j :
  positions name (columns df) 0 = [j] ->
  sort_values R name df
  = Ok (Frame (columns df)
          (itake (nargsort (argsort R) (map isna (map (cell j) (rows df)))
                           (map (cell j) (rows df)))
                 (rows df))).
Proof. intros H. unfold sort_values. by rewrite (getitem_one _ _ _ j H). Qed.

Lemma empty_false df :
  empty df = false -> columns df <> [] /\ rows df <> [].
Proof. unfold empty. destruct (columns df), (rows df); done. Qed.

Lemma empty_true df : empty df = true -> columns df = [] \/ rows df = [].
Proof. unfold empty. destruct (columns df), (rows df); auto; done. Qed.

(** ** Numeric coercion, cell by cell *)

Lemma coerce_not_str R v s : coerce R v <> SStr s.
Proof.
  destruct v as [x| |]; simpl; try done.
  destruct (parse_number R x) as [[]|]; done.
Qed.

Lemma isna_as_f64 R v :
  is_nan (as_f64 (coerce R v)) = isna (coerce R v).
Proof.
  pose proof (coerce_not_str R v) as H.
  destruct (coerce R v) as [s|z|f]; simpl; [by destruct (H s)| |done].
  apply of_Z_not_nan.
Qed.

Lemma dtype_Int64 col : dtype_of col = Int64 -> Forall (fun v => is_int v = true) col.
Proof.
  unfold dtype_of. destruct (existsb is_str col); [done|].
  destruct (forallb is_int col) eqn:E; [|done]. intros _.
  apply Forall_forall. intros v Hv. rewrite forallb_forall in E.
  apply E. by apply list_elem_of_In.
Qed.

(** [to_numeric] acts cell by cell, all cells becoming integers or all
    becoming floats. *)
Lemma to_numeric_cellwise R s :
  exists g, to_numeric R s = map g s
    /\ (forall v, isna (g v) = isna (coerce R v))
    /\ (forall v, as_f64 (g v) = as_f64 (coerce R v))
    /\ (Forall (fun v => is_int (g v) = true) s
        \/ forall v, exists f, g v = SFloat f).
Proof.
  unfold to_numeric.
  destruct (dtype_of (map (coerce R) s)) eqn:E.
  - exists (fun v => SFloat (as_f64 (coerce R v))).
    rewrite map_map. split; [done|]. split; [apply isna_as_f64|].
    split; [done|]. right. eauto.
  - exists (coerce R). split; [done|]. split; [done|]. split; [done|]. left.
    apply dtype_Int64 in E. by rewrite map_fmap, Forall_fmap in E.
  - exists (fun v => SFloat (as_f64 (coerce R v))).
    rewrite map_map. split; [done|]. split; [apply isna_as_f64|].
    split; [done|]. right. eauto.
Qed.

(** ** Sorting a numeric column *)

Lemma Sorted_ints (k : list scalar) :
  Forall (fun v => is_int v = true) k ->
  Sorted Z.le (map as_i64 k) -> Sorted num_le k.
Proof.
  induction 1 as [|v k Hv Hk IH]; simpl; [constructor|].
  intros Hs. apply Sorted_inv in Hs as [Hs Hhd]. constructor; [auto|].
  destruct Hk as [|w k Hw _]; [constructor|]. simpl in Hhd.
  apply HdRel_inv in Hhd. constructor.
  destruct v, w; try done.
Qed.

Lemma Sorted_floats (k : list scalar) :
  Forall (fun v => exists f, v = SFloat f) k ->
  Sorted fle (map as_f64 k) -> Sorted num_le k.
Proof.
  induction 1 as [|v k Hv Hk IH]; simpl; [constructor|].
  intros Hs. apply Sorted_inv in Hs as [Hs Hhd]. constructor; [auto|].
  destruct Hk as [|w k Hw _]; [constructor|]. simpl in Hhd.
  apply HdRel_inv in Hhd. constructor.
  destruct Hv as [f ->], Hw as [f' ->]. exact Hhd.
Qed.

Lemma Forall_itake {A} (P : A -> Prop) idx (l : list A) :
  Forall P l -> Forall P (itake idx l).
Proof.
  intros H. apply Forall_forall. intros x Hx. apply elem_of_itake in Hx.
  by eapply Forall_forall in H.
Qed.

Lemma itake_nil {A} idx : itake idx (@nil A) = [].
Proof. unfold itake. induction idx as [|i idx IH]; [done|]. exact IH. Qed.

(** A column that holds integers only, or floats only and no missing
    value, comes out of [argsort] in non-decreasing order. *)
Lemma argsort_sorted R (k : list scalar) :
  RuntimeOk R ->
  Forall (fun v => is_int v = true) k
  \/ Forall (fun v => exists f, v = SFloat f /\ is_nan f = false) k ->
  Sorted num_le (itake (argsort R k) k).
Proof.
  intros ok [Hint|Hfl].
  - unfold argsort, dtype_of.
    assert (Hs : existsb is_str k = false).
    { apply not_true_is_false. rewrite existsb_exists. intros (v & Hv & Hstr).
      apply list_elem_of_In in Hv. eapply Forall_forall in Hint; [|done].
      by destruct v. }
    assert (Hi : forallb is_int k = true).
    { apply forallb_forall. intros v Hv. apply list_elem_of_In in Hv.
      by eapply Forall_forall in Hint. }
    rewrite Hs, Hi. apply Sorted_ints; [by apply Forall_itake|].
    rewrite <- itake_map. apply (argsort_int_sorted R ok).
  - destruct k as [|v k]; [rewrite itake_nil; constructor|].
    unfold argsort, dtype_of.
    assert (Hs : existsb is_str (v :: k) = false).
    { apply not_true_is_false. rewrite existsb_exists. intros (w & Hw & Hstr).
      apply list_elem_of_In in Hw. eapply Forall_forall in Hfl; [|done].
      by destruct Hfl as (f & -> & _). }
    assert (Hi : forallb is_int (v :: k) = false).
    { apply Forall_cons in Hfl as [(f & -> & _) _]. done. }
    rewrite Hs, Hi. apply Sorted_floats.
    + apply Forall_itake. eapply Forall_impl; [exact Hfl|]. naive_solver.
    + rewrite <- itake_map. apply (argsort_f64_sorted R ok).
      rewrite map_fmap, Forall_fmap. eapply Forall_impl; [exact Hfl|].
      by intros ? (f & -> & ?).
Qed.

(** ** Rows and their labels *)

Lemma label_inj (rs : list row) r1 r2 :
  NoDup (map label rs) -> r1 ∈ rs -> r2 ∈ rs -> label r1 = label r2 -> r1 = r2.
Proof.
  intros Hnd H1 H2 Heq.
  apply list_elem_of_lookup in H1 as [i Hi], H2 as [j Hj].
  assert (i = j); [|congruence].
  eapply (NoDup_lookup _ _ _ (label r1) Hnd).
  - by rewrite map_fmap, list_lookup_fmap, Hi.
  - by rewrite map_fmap, list_lookup_fmap, Hj, Heq.
Qed.

End FrameFacts.

(* ===================================================================== *)
(** * The sample runtime *)
(* ===================================================================== *)

Module RefFacts.
Import Py Np Pd Contract Ref ListFacts.

Section Insertion.
Context {A : Type} (leb : A -> A -> bool).

Local Abbreviation le_key :=
  (fun x y : A * nat => leb (fst x) (fst y) = true).

Lemma insert_by_perm x l : insert_by leb x l ≡ₚ x :: l.
Proof.
  induction l as [|y l IH]; simpl; [done|].
  destruct (leb (fst x) (fst y)); [done|]. rewrite IH. apply Permutation_swap.
Qed.

Lemma sort_by_perm l : foldr (insert_by leb) [] l ≡ₚ l.
Proof.
  induction l as [|x l IH]; simpl; [done|]. by rewrite insert_by_perm, IH.
Qed.

Lemma insert_by_sorted x l :
  (forall y, y ∈ l -> leb (fst x) (fst y) = true \/ leb (fst y) (fst x) = true) ->
  Sorted le_key l -> Sorted le_key (insert_by leb x l).
Proof.
  intros Htot Hs. induction Hs as [|y l Hs IH Hhd]; simpl.
  - repeat constructor.
  - destruct (leb (fst x) (fst y)) eqn:Hxy.
    + constructor; [by constructor|]. by constructor.
    + assert (Hyx : leb (fst y) (fst x) = true).
      { destruct (Htot y) as [H|H]; [by left|congruence|done]. }
      constructor.
      * apply IH. intros z Hz. apply Htot. by right.
      * destruct Hhd as [|z l Hyz]; simpl; [by constructor|].
        destruct (leb (fst x) (fst z)); by constructor.
Qed.

Lemma sort_by_sorted l :
  (forall x y, x ∈ l -> y ∈ l ->
               leb (fst x) (fst y) = true \/ leb (fst y) (fst x) = true) ->
  Sorted le_key (foldr (insert_by leb) [] l).
Proof.
  induction l as [|x l IH]; intros Htot; simpl; [constructor|].
  apply insert_by_sorted.
  - intros y Hy. rewrite sort_by_perm in Hy.
    apply Htot; [by left|by right].
  - apply IH. intros y z Hy Hz. apply Htot; by right.
Qed.

Lemma itake_keys (a : list A) (s : list (A * nat)) :
  Forall (fun p => a !! snd p = Some (fst p)) s ->
  itake (map snd s) a = map fst s.
Proof.
  unfold itake. induction 1 as [|p s Hp _ IH]; [done|].
  csimpl. rewrite Hp. csimpl. f_equal. exact IH.
Qed.

Lemma zip_positions (a : list A) :
  Forall (fun p => a !! snd p = Some (fst p)) (zip a (seq 0 (length a))).
Proof.
  apply Forall_forall. intros [x i] Hp.
  apply list_elem_of_lookup in Hp as [j Hj].
  apply lookup_zip_with_Some in Hj as (x' & i' & [= <- <-] & Hx & Hi).
  apply lookup_seq in Hi as [-> _]. done.
Qed.

Lemma argsort_by_perm (a : list A) : argsort_by leb a ≡ₚ seq 0 (length a).
Proof.
  unfold argsort_by. rewrite sort_by_perm.
  rewrite map_fmap, snd_zip by (rewrite length_seq; lia). done.
Qed.

Lemma argsort_by_sorted (a : list A) :
  (forall x y, x ∈ a -> y ∈ a -> leb x y = true \/ leb y x = true) ->
  Sorted (fun x y => leb x y = true) (itake (argsort_by leb a) a).
Proof.
  intros Htot. unfold argsort_by.
  rewrite itake_keys
    by (rewrite sort_by_perm; apply zip_positions).
  assert (Hs : Sorted le_key (foldr (insert_by leb) [] (zip a (seq 0 (length a))))).
  { apply sort_by_sorted. intros [x i] [y j] Hx Hy. simpl.
    apply Htot.
    - apply elem_of_zip_l in Hx. done.
    - apply elem_of_zip_l in Hy. done. }
  induction Hs as [|p s Hs IH Hhd]; simpl; [constructor|].
  constructor; [done|]. destruct Hhd; simpl; by constructor.
Qed.

End Insertion.

Lemma Sorted_weaken {A} (R1 R2 : A -> A -> Prop) (l : list A) :
  (forall x y, R1 x y -> R2 x y) -> Sorted R1 l -> Sorted R2 l.
Proof.
  intros H. induction 1 as [|x l Hs IH Hhd]; constructor; [done|].
  destruct Hhd; constructor; auto.
Qed.

Lemma fleb_total x y :
  is_nan x = false -> is_nan y = false -> fleb x y = true \/ fleb y x = true.
Proof.
  unfold fleb, SFleb, SFcompare.
  destruct x as [sx|sx| |sx mx ex], y as [sy|sy| |sy my ey]; simpl; try done;
    intros _ _;
    try (destruct sx; auto; fail); try (destruct sy; auto; fail);
    try (destruct sx, sy; auto; fail).
  pose proof (Pos.compare_cont_antisym mx my Eq) as Hm. simpl in Hm.
  rewrite (Z.compare_antisym ex ey), <- Hm.
  destruct sx, sy; auto; simpl;
    destruct (ex ?= ey)%Z; simpl; auto;
    destruct (Pos.compare_cont Eq mx my); simpl; auto.
Qed.

(** The sample runtime honours the contract. *)
Lemma runtime_ok fs : RuntimeOk (runtime fs).
Proof.
  split; simpl.
  - apply argsort_by_perm.
  - intros a. eapply Sorted_weaken; [|apply argsort_by_sorted].
    + intros x y H. by apply Z.leb_le.
    + intros x y _ _. destruct (Z.le_ge_cases x y); [left|right]; by apply Z.leb_le.
  - apply argsort_by_perm.
  - intros a Ha. apply argsort_by_sorted. intros x y Hx Hy.
    apply fleb_total; by eapply Forall_forall in Ha.
Qed.

End RefFacts.

(* ===================================================================== *)
(** * The percent-series shapers *)
(* ===================================================================== *)

Module SeriesFacts.
Import Py Np Pd App Spec SeriesSpec Contract Pipeline ListFacts FloatFacts FrameFacts.

Section Series.
Variables (R : Runtime) (src dst : string).
Hypothesis ok : RuntimeOk R.
Hypothesis dst_year : dst <> "Year".

Local Abbreviation renamed lot :=
  (rename {[ "year" := "Year"; src := dst; "source" := "Source" ]} lot).

(** The shaper as a pipeline over rows. *)
Lemma prep_series_rows lot out :
  empty lot = false ->
  prep_series R src dst lot = Ok out ->
  exists jy jd g1 g2,
    positions "Year" (columns (renamed lot)) 0 = [jy]
    /\ positions dst (columns (renamed lot)) 0 = [jd]
    /\ (forall v, isna (g1 v) = isna (coerce R v))
    /\ (forall v, isna (g2 v) = isna (coerce R v))
    /\ (Forall (fun r => is_int (g1 (cell jy r)) = true) (rows lot)
        \/ forall v, exists f, g1 v = SFloat f)
    /\ let rows2 := map (coerced jy jd g1 g2) (rows lot) in
       let rows3 := select (map (complete jy jd) rows2) rows2 in
       out = Frame (columns (renamed lot))
               (itake (nargsort (argsort R)
                                (map isna (map (cell jy) rows3))
                                (map (cell jy) rows3))
                      rows3).
Proof.
  intros Hne H. unfold prep_series in H. rewrite Hne in H.
  set (df0 := renamed lot) in *.
  destruct (getitem TypeError "Year" df0) as [y|e] eqn:Hy; [|done].
  cbn [rbind] in H.
  apply getitem_Ok in Hy as (jy & Hjy & ->).
  destruct (to_numeric_cellwise R (map (cell jy) (rows df0)))
    as (g1 & Hg1 & Hna1 & _ & Hom1).
  rewrite Hg1, map_map in H.
  rewrite (setitem_at "Year" (fun r => g1 (cell jy r)) df0 jy Hjy) in H.
  set (df1 := Frame _ _) in H.
  destruct (getitem TypeError dst df1) as [p|e] eqn:Hp; [|done].
  cbn [rbind] in H.
  apply getitem_Ok in Hp as (jd & Hjd & ->).
  destruct (to_numeric_cellwise R (map (cell jd) (rows df1)))
    as (g2 & Hg2 & Hna2 & _ & _).
  rewrite Hg2, map_map in H.
  rewrite (setitem_at dst (fun r => g2 (cell jd r)) df1 jd Hjd) in H.
  set (df2 := Frame _ _) in H.
  rewrite (dropna_two "Year" dst df2 jy jd Hjy Hjd) in H.
  cbn [rbind] in H.
  set (df3 := Frame _ _) in H.
  rewrite (sort_values_one R "Year" df3 jy Hjy) in H.
  injection H as <-.
  exists jy, jd, g1, g2. split; [done|]. split; [done|].
  split; [done|]. split; [done|]. split.
  - destruct Hom1 as [Hi|Hf]; [left|by right].
    by rewrite map_fmap, Forall_fmap in Hi.
  - subst df3 df2 df1. cbn [rows columns]. change (rows df0) with (rows lot).
    rewrite (map_map (fun r => Row (label r) (<[jy := g1 (cell jy r)]> (cells r)))
                     (fun r => Row (label r) (<[jd := g2 (cell jd r)]> (cells r)))).
    reflexivity.
Qed.


Lemma coerced_cells lot jy jd g1 g2 r :
  rectangular lot -> r ∈ rows lot ->
  jy < length (columns lot) -> jd < length (columns lot) -> jy <> jd ->
  label (coerced jy jd g1 g2 r) = label r
  /\ cell jy (coerced jy jd g1 g2 r) = g1 (cell jy r)
  /\ cell jd (coerced jy jd g1 g2 r) = g2 (cell jd r).
Proof.
  intros Hrect Hr Hjy Hjd Hne.
  eapply Forall_forall in Hrect; [|exact Hr]. simpl in Hrect.
  unfold coerced. cbn [label cells]. split; [done|]. split.
  - rewrite cell_insert_ne by done. apply cell_insert_eq. lia.
  - rewrite cell_insert_eq by (rewrite length_insert; lia).
    by rewrite cell_insert_ne.
Qed.

Lemma length_renamed lot : length (columns (renamed lot)) = length (columns lot).
Proof. simpl. apply length_map. Qed.

Lemma prep_series_drops lot out :
  rectangular lot -> NoDup (labels lot) ->
  prep_series R src dst lot = Ok out ->
  drops_uncoercible R src dst lot out.
Proof.
  intros Hrect Hnd H r name v Hr Hname Hv Hfail Hin.
  destruct (empty lot) eqn:Hempty.
  { apply empty_true in Hempty as [Hc|Hrows].
    - unfold raw_value, value_of in Hv. simpl in Hv. by rewrite Hc in Hv.
    - rewrite Hrows in Hr. by apply elem_of_nil in Hr. }
  destruct (prep_series_rows lot out Hempty H)
    as (jy & jd & g1 & g2 & Hjy & Hjd & Hna1 & Hna2 & _ & Hout).
  pose proof (positions_apart _ _ _ _ _ (not_eq_sym dst_year) Hjy Hjd) as Hne.
  pose proof (positions_one _ _ _ Hjy) as [_ Hly].
  pose proof (positions_one _ _ _ Hjd) as [_ Hld].
  rewrite length_renamed in Hly, Hld.
  cbv zeta in Hout. subst out. unfold labels in Hin. cbn [rows] in Hin.
  rewrite map_fmap in Hin. apply list_elem_of_fmap in Hin as (r3 & Hlab & Hr3).
  apply elem_of_itake, elem_of_select in Hr3 as [Hr3 Hcomplete].
  rewrite map_fmap in Hr3. apply list_elem_of_fmap in Hr3 as (r0 & -> & Hr0).
  destruct (coerced_cells lot jy jd g1 g2 r0 Hrect Hr0 Hly Hld Hne)
    as (Hl0 & Hcy & Hcd).
  rewrite Hl0 in Hlab.
  assert (r = r0) as <- by (by eapply label_inj).
  unfold complete in Hcomplete. rewrite Hcy, Hcd, Hna1, Hna2 in Hcomplete.
  unfold raw_value, value_of in Hv.
  apply elem_of_cons in Hname as [->|Hname].
  - rewrite Hjy in Hv. apply cell_lookup in Hv. rewrite Hv in Hcomplete.
    unfold fails_coercion in Hfail. rewrite Hfail in Hcomplete. done.
  - apply list_elem_of_singleton in Hname as ->.
    rewrite Hjd in Hv. apply cell_lookup in Hv. rewrite Hv in Hcomplete.
    unfold fails_coercion in Hfail. rewrite Hfail in Hcomplete.
    by destruct (isna (coerce R (cell jy r))).
Qed.

Lemma prep_series_sorted lot out :
  rectangular lot ->
  prep_series R src dst lot = Ok out ->
  sorted_by_year out.
Proof.
  intros Hrect H. unfold sorted_by_year.
  destruct (empty lot) eqn:Hempty.
  { unfold prep_series in H. rewrite Hempty in H. injection H as <-.
    unfold column_values.
    apply empty_true in Hempty as [->| ->]; simpl; [constructor|].
    destruct (positions _ _ _) as [|? [|??]]; constructor. }
  destruct (prep_series_rows lot out Hempty H)
    as (jy & jd & g1 & g2 & Hjy & Hjd & Hna1 & Hna2 & Hom & Hout).
  pose proof (positions_apart _ _ _ _ _ (not_eq_sym dst_year) Hjy Hjd) as Hne.
  pose proof (positions_one _ _ _ Hjy) as [_ Hly].
  pose proof (positions_one _ _ _ Hjd) as [_ Hld].
  rewrite length_renamed in Hly, Hld.
  cbv zeta in Hout. subst out. unfold column_values. cbn [columns rows].
  rewrite Hjy.
  set (rows2 := map (coerced jy jd g1 g2) (rows lot)).
  set (rows3 := select (map (complete jy jd) rows2) rows2).
  set (k := map (cell jy) rows3).
  assert (Hrows3 : forall r3, r3 ∈ rows3 ->
            exists r0, r0 ∈ rows lot /\ cell jy r3 = g1 (cell jy r0)
                       /\ isna (cell jy r3) = false).
  { intros r3 Hr3. apply elem_of_select in Hr3 as [Hr3 Hc].
    unfold rows2 in Hr3. rewrite map_fmap in Hr3.
    apply list_elem_of_fmap in Hr3 as (r0 & -> & Hr0).
    destruct (coerced_cells lot jy jd g1 g2 r0 Hrect Hr0 Hly Hld Hne)
      as (_ & Hcy & _).
    exists r0. split; [done|]. split; [done|].
    unfold complete in Hc. apply andb_prop in Hc as [Hc _].
    by apply negb_true_iff in Hc. }
  assert (Hk : Forall (fun v => isna v = false) k).
  { unfold k. rewrite map_fmap, Forall_fmap. apply Forall_forall.
    intros r3 Hr3. by destruct (Hrows3 r3 Hr3) as (_ & _ & _ & ?). }
  rewrite <- itake_map. fold k.
  rewrite itake_nargsort by (by rewrite ?length_map).
  rewrite (select_none isna) by done.
  rewrite map_map, (select_all (fun v => negb (isna v)))
    by (eapply Forall_impl; [exact Hk|]; by intros ? ->).
  rewrite app_nil_r. apply argsort_sorted; [done|].
  destruct Hom as [Hi|Hf]; [left|right].
  - unfold k. rewrite map_fmap, Forall_fmap. apply Forall_forall.
    intros r3 Hr3. destruct (Hrows3 r3 Hr3) as (r0 & Hr0 & Heq & _).
    simpl. rewrite Heq. by eapply Forall_forall in Hi.
  - unfold k. rewrite map_fmap, Forall_fmap. apply Forall_forall.
    intros r3 Hr3. destruct (Hrows3 r3 Hr3) as (r0 & Hr0 & Heq & Hna).
    simpl. destruct (Hf (cell jy r0)) as [f Hfv]. exists f.
    rewrite Heq, Hfv in *. done.
Qed.

(** With one year column and one metric column the shaper returns. *)
Lemma prep_series_returns lot jy jd :
  positions "Year" (columns (renamed lot)) 0 = [jy] ->
  positions dst (columns (renamed lot)) 0 = [jd] ->
  exists out, prep_series R src dst lot = Ok out.
Proof.
  intros Hjy Hjd. unfold prep_series. destruct (empty lot); [by eexists|].
  set (df0 := renamed lot) in *.
  rewrite (getitem_one _ _ _ jy Hjy). cbn [rbind].
  destruct (to_numeric_cellwise R (map (cell jy) (rows df0))) as (g1 & -> & _).
  rewrite map_map, (setitem_at "Year" (fun r => g1 (cell jy r)) df0 jy Hjy).
  set (df1 := Frame _ _).
  rewrite (getitem_one _ _ df1 jd Hjd). cbn [rbind].
  destruct (to_numeric_cellwise R (map (cell jd) (rows df1))) as (g2 & -> & _).
  rewrite map_map, (setitem_at dst (fun r => g2 (cell jd r)) df1 jd Hjd).
  set (df2 := Frame _ _).
  rewrite (dropna_two "Year" dst df2 jy jd Hjy Hjd). cbn [rbind].
  set (df3 := Frame _ _).
  rewrite (sort_values_one R "Year" df3 jy Hjy). by eexists.
Qed.

End Series.

End SeriesFacts.

Module SeriesClaims.
Import Py Np Pd App Spec SeriesSpec Contract Samples.

(** C3. Out of [prep_lottery] and out of [prep_crypto], no row of the
    input whose year or metric fails numeric coercion is left (rows are
    told apart by their index labels), and the years of the output never
    decrease from one row to the next. *)
Theorem percent_series_shapers (R : Runtime) (lot out : DataFrame) :
  RuntimeOk R -> rectangular lot -> NoDup (labels lot) ->
  (prep_lottery R lot = Ok out ->
   drops_uncoercible R "under30_lottery_pct" "Under30LotteryPct" lot out
   /\ sorted_by_year out)
  /\ (prep_crypto R lot = Ok out ->
      drops_uncoercible R "under30_crypto_pct" "Under30CryptoPct" lot out
      /\ sorted_by_year out).
Proof.
  intros ok Hrect Hnd. split; intros H; split.
  - eapply SeriesFacts.prep_series_drops; eauto; done.
  - eapply SeriesFacts.prep_series_sorted; eauto; done.
  - eapply SeriesFacts.prep_series_drops; eauto; done.
  - eapply SeriesFacts.prep_series_sorted; eauto; done.
Qed.

Lemma percent_series_shapers_witness :
  drops_uncoercible (Ref.runtime []) "under30_lottery_pct" "Under30LotteryPct"
    gallup_raw gallup_shaped
  /\ sorted_by_year gallup_shaped.
Proof.
  apply (proj1 (percent_series_shapers (Ref.runtime []) gallup_raw gallup_shaped
                  (RefFacts.runtime_ok [])
                  ltac:(repeat constructor)
                  ltac:(apply (bool_decide_unpack _); vm_compute; reflexivity))).
  vm_compute. reflexivity.
Defined.

End SeriesClaims.

(* ===================================================================== *)
(** * The Spend Shaper *)
(* ===================================================================== *)

Module BlsFacts.
Import Py Np Pd App Spec BlsSpec Contract BlsPipeline ListFacts FloatFacts FrameFacts.

(** ** Writing a column, in general *)

Lemma setitem_rows name (g : row -> scalar) df :
  setitem name (map g (rows df)) df
  = Frame (put_columns (positions name (columns df) 0) name (columns df))
          (map (fun r => Row (label r)
                             (put (positions name (columns df) 0) (g r) (cells r)))
               (rows df)).
Proof.
  unfold setitem, put_columns, put.
  destruct (positions name (columns df) 0); f_equal;
    by rewrite map_fmap, zip_with_fmap_r, zip_with_diag.
Qed.

Lemma foldr_insert_length (js : list nat) (v : scalar) (cs : list scalar) :
  length (foldr (fun j cs => <[j := v]> cs) cs js) = length cs.
Proof. induction js as [|j js IH]; simpl; [done|]. by rewrite length_insert. Qed.

Lemma foldr_insert_other (js : list nat) (v : scalar) (cs : list scalar) j :
  j ∉ js -> foldr (fun j cs => <[j := v]> cs) cs js !! j = cs !! j.
Proof.
  induction js as [|i js IH]; simpl; [done|]. intros Hj.
  apply not_elem_of_cons in Hj as [Hne Hj].
  rewrite list_lookup_insert_ne by done. auto.
Qed.

Lemma foldr_insert_this (js : list nat) (v : scalar) (cs : list scalar) j :
  j ∈ js -> j < length cs ->
  foldr (fun j cs => <[j := v]> cs) cs js !! j = Some v.
Proof.
  induction js as [|i js IH]; simpl; intros Hj Hlen; [by apply elem_of_nil in Hj|].
  destruct (decide (i = j)) as [->|Hne].
  - apply list_lookup_insert_eq. by rewrite foldr_insert_length.
  - rewrite list_lookup_insert_ne by done. apply elem_of_cons in Hj as [->|Hj]; auto.
    done.
Qed.

(** A cell that [put] does not write keeps its value. *)
Lemma put_other js v cs j :
  j ∉ js -> j < length cs -> put js v cs !! j = cs !! j.
Proof.
  intros Hj Hlen. unfold put. destruct js as [|i js].
  - by apply lookup_app_l.
  - by apply foldr_insert_other.
Qed.

(** The cells that [put] writes, in terms of the columns afterwards. *)
Lemma put_this name cols cs v j :
  length cs = length cols ->
  j ∈ positions name (put_columns (positions name cols 0) name cols) 0 ->
  put (positions name cols 0) v cs !! j = Some v.
Proof.
  intros Hlen Hj. unfold put, put_columns in *.
  destruct (positions name cols 0) as [|i js] eqn:Hpos.
  - rewrite positions_snoc_new in Hj by done.
    apply list_elem_of_singleton in Hj as ->. rewrite <- Hlen.
    by rewrite lookup_app_r, Nat.sub_diag.
  - rewrite Hpos in Hj. apply foldr_insert_this; [done|].
    rewrite Hlen. rewrite <- Hpos in Hj.
    apply positions_lookup in Hj. by eapply lookup_lt_Some.
Qed.

Lemma positions_put_other name other cols :
  other <> name ->
  positions other (put_columns (positions name cols 0) name cols) 0
  = positions other cols 0.
Proof.
  intros Hne. unfold put_columns. destruct (positions name cols 0); [|done].
  by apply positions_snoc_other.
Qed.

Lemma has_column_false name df :
  has_column name df = false -> positions name (columns df) 0 = [].
Proof.
  intros H. destruct (positions name (columns df) 0) eqn:E; [done|].
  assert (has_column name df = true); [|congruence].
  apply has_column_positions. by rewrite E.
Qed.

Lemma str_lower_Ok s low :
  str_lower s = Ok low ->
  low = map (fun v => match v with SStr x => SStr (lower x) | _ => NaN end) s.
Proof. unfold str_lower. destruct (dtype_of s); by intros [= <-]. Qed.

Lemma sort_values_categorical_one R name df jg :
  positions name (columns df) 0 = [jg] ->
  sort_values_categorical R age_order name df
  = Ok (Frame (columns df) (sorted_by_bucket R jg (rows df))).
Proof.
  intros H. unfold sort_values_categorical. by rewrite (getitem_one _ _ _ jg H).
Qed.

Section Bls.
Variable R : Runtime.

Local Abbreviation renamed bls_in :=
(rename {[ "age_group" := "AgeGroup";
           "avg_annual_spend_usd" := "AvgAnnualSpend" ]} bls_in).

(** The shaper as a pipeline over rows: the 'All ages' filter when there
  is an age-group column, the monthly spend when there is an annual
  spend, the ordering when there is an age-group column. *)
Lemma prep_bls_rows bls_in out :
empty bls_in = false ->
prep_bls R bls_in = Ok out ->
exists rows1 F2 cols2,
  ((positions "AgeGroup" (columns (renamed bls_in)) 0 = []
    /\ rows1 = rows bls_in)
   \/ exists jg, positions "AgeGroup" (columns (renamed bls_in)) 0 = [jg]
                 /\ rows1 = select (map (kept jg) (rows bls_in)) (rows bls_in))
  /\ ((positions "AvgAnnualSpend" (columns (renamed bls_in)) 0 = []
       /\ F2 = (fun r => r) /\ cols2 = columns (renamed bls_in))
      \/ exists ja g,
           positions "AvgAnnualSpend" (columns (renamed bls_in)) 0 = [ja]
           /\ (forall v, as_f64 (g v) = as_f64 (coerce R v))
           /\ F2 = with_monthly g ja
                     (positions "AvgMonthlySpend" (columns (renamed bls_in)) 0)
           /\ cols2 = put_columns
                        (positions "AvgMonthlySpend" (columns (renamed bls_in)) 0)
                        "AvgMonthlySpend" (columns (renamed bls_in)))
  /\ positions "AgeGroup" cols2 0
     = positions "AgeGroup" (columns (renamed bls_in)) 0
  /\ ((positions "AgeGroup" cols2 0 = []
       /\ out = Frame cols2 (map F2 rows1))
      \/ exists jg, positions "AgeGroup" cols2 0 = [jg]
                    /\ out = Frame cols2
                               (sorted_by_bucket R jg
                                  (map (with_bucket jg) (map F2 rows1)))).
Proof.
intros Hne H. unfold prep_bls in H. rewrite Hne in H.
set (df0 := renamed bls_in) in *.
match type of H with rbind ?s ?k = _ => set (k1 := k) in H end.
(* Drop 'All ages' *)
assert (exists rows1,
          ((positions "AgeGroup" (columns df0) 0 = [] /\ rows1 = rows bls_in)
           \/ exists jg, positions "AgeGroup" (columns df0) 0 = [jg]
                         /\ rows1 = select (map (kept jg) (rows bls_in))
                                           (rows bls_in))
          /\ k1 (Frame (columns df0) rows1) = Ok out) as (rows1 & H1 & Hk1).
{ destruct (has_column "AgeGroup" df0) eqn:Hg.
  - destruct (getitem AttributeError "AgeGroup" df0) as [a|e] eqn:Ha; [|done].
    cbn [rbind] in H. apply getitem_Ok in Ha as (jg & Hjg & ->).
    destruct (str_lower (map (cell jg) (rows df0))) as [low|e] eqn:Hlow; [|done].
    cbn [rbind] in H. apply str_lower_Ok in Hlow as ->.
    rewrite !map_map in H.
    eexists. split; [right; exists jg; split; [done|reflexivity]|]. exact H.
  - cbn [rbind] in H. apply has_column_false in Hg.
    exists (rows bls_in). split; [by left|]. exact H. }
clear H. subst k1. cbv beta in Hk1.
set (df1 := Frame (columns df0) rows1) in *.
match type of Hk1 with rbind ?s ?k = _ => set (k2 := k) in Hk1 end.
(* Monthly from annual *)
assert (exists F2 cols2,
          ((positions "AvgAnnualSpend" (columns df0) 0 = []
            /\ F2 = (fun r => r) /\ cols2 = columns df0)
           \/ exists ja g,
                positions "AvgAnnualSpend" (columns df0) 0 = [ja]
                /\ (forall v, as_f64 (g v) = as_f64 (coerce R v))
                /\ F2 = with_monthly g ja
                          (positions "AvgMonthlySpend" (columns df0) 0)
                /\ cols2 = put_columns
                             (positions "AvgMonthlySpend" (columns df0) 0)
                             "AvgMonthlySpend" (columns df0))
          /\ positions "AgeGroup" cols2 0 = positions "AgeGroup" (columns df0) 0
          /\ k2 (Frame cols2 (map F2 rows1)) = Ok out) as (F2 & cols2 & H2 & Hg2 & Hk2).
{ destruct (has_column "AvgAnnualSpend" df1) eqn:Hs.
  - destruct (getitem TypeError "AvgAnnualSpend" df1) as [a|e] eqn:Ha; [|done].
    cbn [rbind] in Hk1. apply getitem_Ok in Ha as (ja & Hja & ->).
    destruct (to_numeric_cellwise R (map (cell ja) (rows df1)))
      as (g & Hg & _ & Hf & _).
    rewrite Hg, !map_map in Hk1.
    rewrite (setitem_rows "AvgMonthlySpend"
               (fun r => truediv (g (cell ja r)) twelve) df1) in Hk1.
    eexists _, _. split; [right; exists ja, g; repeat split; try done|].
    split; [by apply positions_put_other|]. exact Hk1.
  - cbn [rbind] in Hk1. apply has_column_false in Hs.
    exists (fun r => r), (columns df0). split; [by left|]. split; [done|].
    by rewrite map_id. }
clear Hk1. subst k2. cbv beta in Hk2.
set (df2 := Frame cols2 (map F2 rows1)) in *.
exists rows1, F2, cols2. split; [done|]. split; [done|]. split; [done|].
(* Order *)
destruct (has_column "AgeGroup" df2) eqn:Hg.
- destruct (getitem TypeError "AgeGroup" df2) as [a|e] eqn:Ha; [|done].
  cbn [rbind] in Hk2. apply getitem_Ok in Ha as (jg & Hjg & ->).
  unfold categorical in Hk2. fold bucket in Hk2. rewrite map_map in Hk2.
  rewrite (setitem_at "AgeGroup" (fun r => bucket (cell jg r)) df2 jg Hjg) in Hk2.
  set (df3 := Frame (columns df2) _) in Hk2.
  rewrite (sort_values_categorical_one R "AgeGroup" df3 jg Hjg) in Hk2.
  injection Hk2 as <-. right. exists jg. split; [done|]. reflexivity.
- apply has_column_false in Hg. injection Hk2 as <-. by left.
Qed.

Lemma length_renamed_bls bls_in :
length (columns (renamed bls_in)) = length (columns bls_in).
Proof. simpl. apply length_map. Qed.

Lemma with_monthly_label g ja jsm r : label (with_monthly g ja jsm r) = label r.
Proof. done. Qed.

(** Writing the monthly spend leaves the other columns alone. *)
Lemma with_monthly_other cols g ja jsm r j name :
jsm = positions "AvgMonthlySpend" cols 0 ->
cols !! j = Some name -> name <> "AvgMonthlySpend" ->
length (cells r) = length cols ->
cells (with_monthly g ja jsm r) !! j = cells r !! j.
Proof.
intros -> Hj Hname Hlen. unfold with_monthly. cbn [cells].
apply put_other.
- intros Hin. apply positions_lookup in Hin. congruence.
- rewrite Hlen. by eapply lookup_lt_Some.
Qed.

(** The rows after the filter are rows of the input. *)
Lemma filtered_rows bls_in rows1 :
(positions "AgeGroup" (columns (renamed bls_in)) 0 = [] /\ rows1 = rows bls_in)
\/ (exists jg, positions "AgeGroup" (columns (renamed bls_in)) 0 = [jg]
               /\ rows1 = select (map (kept jg) (rows bls_in)) (rows bls_in)) ->
forall r, r ∈ rows1 -> r ∈ rows bls_in.
Proof.
intros [[_ ->]|(jg & _ & ->)] r Hr; [done|].
by apply elem_of_select in Hr as [? _].
Qed.

Lemma prep_bls_monthly bls_in out :
rectangular bls_in ->
prep_bls R bls_in = Ok out ->
monthly_as_computed R out.
Proof.
intros Hrect H r' a Hr' Ha.
destruct (empty bls_in) eqn:Hempty.
{ unfold prep_bls in H. rewrite Hempty in H. injection H as <-.
  apply empty_true in Hempty as [Hc|Hrows].
  - unfold value_of in Ha. by rewrite Hc in Ha.
  - rewrite Hrows in Hr'. by apply elem_of_nil in Hr'. }
destruct (prep_bls_rows bls_in out Hempty H)
  as (rows1 & F2 & cols2 & H1 & H2 & Hg & H3).
pose proof (filtered_rows bls_in rows1 H1) as Hsub.
set (cols0 := columns (renamed bls_in)) in *.
assert (Hcols : columns out = cols2).
{ by destruct H3 as [[_ ->]|(jg & _ & ->)]. }
unfold value_of in Ha. rewrite Hcols in Ha.
destruct H2 as [(Hno & _ & ->)|(ja & g & Hja & Hf & -> & ->)];
  [by rewrite Hno in Ha|].
rewrite positions_put_other, Hja in Ha by done.
pose proof (positions_put_other "AvgMonthlySpend" "AvgAnnualSpend" cols0
              ltac:(done)) as Hja2.
rewrite Hja in Hja2. apply positions_one in Hja2 as [Hja2 _].
set (jsm := positions "AvgMonthlySpend" cols0 0) in *.
assert (Hshape : forall r1, r1 ∈ rows1 ->
          length (cells r1) = length cols0
          /\ cells (with_monthly g ja jsm r1) !! ja = cells r1 !! ja).
{ intros r1 Hr1. apply Hsub in Hr1.
  eapply Forall_forall in Hrect; [|exact Hr1]. simpl in Hrect.
  rewrite <- length_renamed_bls in Hrect. split; [done|].
  apply positions_one in Hja as [Hja _].
  by eapply (with_monthly_other cols0). }
assert (Hmonthly : forall r1 a1, r1 ∈ rows1 ->
          cells r1 !! ja = Some a1 ->
          forall j, put_columns jsm "AvgMonthlySpend" cols0 !! j
                    = Some "AvgMonthlySpend" ->
                    cells (with_monthly g ja jsm r1) !! j
                    = Some (truediv (coerce R a1) twelve)).
{ intros r1 a1 Hr1 Ha1 j Hj. destruct (Hshape r1 Hr1) as [Hlen _].
  unfold with_monthly. cbn [cells]. rewrite (cell_lookup _ _ _ Ha1).
  replace (truediv (coerce R a1) twelve) with (truediv (g a1) twelve)
    by (unfold truediv; by rewrite Hf).
  apply (put_this "AvgMonthlySpend" cols0); [done|].
  by apply positions_lookup. }
assert (Hin : "AvgMonthlySpend" ∈ put_columns jsm "AvgMonthlySpend" cols0).
{ unfold put_columns. destruct jsm eqn:Hjsm.
  - apply elem_of_app. right. by apply list_elem_of_singleton.
  - destruct (decide ("AvgMonthlySpend" ∈ cols0)) as [|Hn]; [done|].
    apply (positions_nil _ _ 0) in Hn. unfold jsm in Hjsm. congruence. }
unfold under_every. rewrite Hcols. split; [done|]. intros j Hj.
destruct H3 as [[_ ->]|(jg & Hjg & ->)]; cbn [rows] in Hr'.
- rewrite map_fmap in Hr'. apply list_elem_of_fmap in Hr' as (r1 & -> & Hr1).
  destruct (Hshape r1 Hr1) as [_ Hsame]. rewrite Hsame in Ha. eauto.
- unfold sorted_by_bucket in Hr'. apply elem_of_itake in Hr'.
  rewrite !map_fmap in Hr'. apply list_elem_of_fmap in Hr' as (r2 & -> & Hr2).
  apply list_elem_of_fmap in Hr2 as (r1 & -> & Hr1).
  destruct (Hshape r1 Hr1) as [_ Hsame].
  apply positions_one in Hjg as [Hjg _].
  unfold with_bucket in *. cbn [cells] in *.
  rewrite list_lookup_insert_ne in Ha.
  + rewrite Hsame in Ha. rewrite list_lookup_insert_ne; [eauto|].
    intros ->. congruence.
  + intros ->. congruence.
Qed.

(** ** The age-group column *)

Lemma bucket_is_no_all_ages x : x ∈ age_order -> lower x <> "all ages".
Proof.
unfold age_order. rewrite !elem_of_cons, elem_of_nil.
intros [->|[->|[->|[->|[->|[->|[->|[]]]]]]]]; vm_compute; discriminate.
Qed.

Lemma index_of_elem x l : x ∈ l -> exists i, index_of x l = Some i.
Proof.
induction l as [|y l IH]; simpl; intros Hx; [by apply elem_of_nil in Hx|].
case_bool_decide; [by eexists|].
apply elem_of_cons in Hx as [->|Hx]; [done|].
destruct (IH Hx) as [i ->]. by eexists.
Qed.

Lemma bucket_code_in v :
in_buckets v -> eq_int (code age_order (bucket v)) (-1) = false.
Proof.
intros (x & -> & Hx). unfold bucket. rewrite bool_decide_eq_true_2 by done.
unfold code. destruct (index_of_elem x age_order Hx) as [i ->].
unfold eq_int. apply Z.eqb_neq. lia.
Qed.

Lemma bucket_code_out v :
~ in_buckets v -> eq_int (code age_order (bucket v)) (-1) = true.
Proof.
intros Hv. unfold bucket. destruct v as [x| |]; try done.
case_bool_decide as Hx; [|done]. destruct Hv. by exists x.
Qed.

Lemma kept_not_all_ages jg r v :
cells r !! jg = Some v -> ~ is_all_ages v -> kept jg r = true.
Proof.
intros Hv Hna. unfold kept. rewrite (cell_lookup _ _ _ Hv).
destruct v as [x| |]; try done. unfold ne_str.
apply negb_true_iff, bool_decide_eq_false_2. intros Hx.
apply Hna. exists x. split; [done|]. unfold eq_ignore_case. by rewrite Hx.
Qed.

Lemma kept_all_ages jg r v :
cells r !! jg = Some v -> is_all_ages v -> kept jg r = false.
Proof.
intros Hv (x & -> & Hx). unfold kept. rewrite (cell_lookup _ _ _ Hv).
unfold ne_str. apply negb_false_iff, bool_decide_eq_true_2. exact Hx.
Qed.

Lemma dtype_ints (a : list scalar) :
Forall (fun v => is_int v = true) a -> dtype_of a = Int64.
Proof.
intros Hint. unfold dtype_of.
assert (Hs : existsb is_str a = false).
{ apply not_true_is_false. rewrite existsb_exists. intros (v & Hv & Hstr).
  apply list_elem_of_In in Hv. eapply Forall_forall in Hint; [|done].
  by destruct v. }
assert (Hi : forallb is_int a = true).
{ apply forallb_forall. intros v Hv. apply list_elem_of_In in Hv.
  by eapply Forall_forall in Hint. }
by rewrite Hs, Hi.
Qed.

Lemma argsort_codes_perm (ok : RuntimeOk R) mask (vs : list scalar) :
argsort R (select mask (map (code age_order) vs))
≡ₚ seq 0 (length (select mask (map (code age_order) vs))).
Proof.
unfold argsort. rewrite dtype_ints.
- rewrite (argsort_int_perm R ok). by rewrite length_map.
- apply Forall_select. rewrite map_fmap, Forall_fmap. apply Forall_forall.
  intros v _. unfold compose, code.
  destruct v as [x| |]; [destruct (index_of x age_order)| |]; reflexivity.
Qed.

(** With an age-group column: the rows of the output are the kept rows,
  with their bucket; those without a bucket come last. *)
Lemma prep_bls_ordered bls_in out jg :
RuntimeOk R -> rectangular bls_in ->
empty bls_in = false ->
positions "AgeGroup" (columns (renamed bls_in)) 0 = [jg] ->
prep_bls R bls_in = Ok out ->
exists (image : row -> row) (first : list row),
  (forall r, label (image r) = label r)
  /\ (forall r, r ∈ rows bls_in -> cell jg (image r) = bucket (cell jg r))
  /\ positions "AgeGroup" (columns out) 0 = [jg]
  /\ let rows3 := map image (select (map (kept jg) (rows bls_in)) (rows bls_in)) in
     let unmapped := fun r3 => eq_int (code age_order (cell jg r3)) (-1) in
     first ≡ₚ select (map (fun r3 => negb (unmapped r3)) rows3) rows3
     /\ rows out = first ++ select (map unmapped rows3) rows3.
Proof.
intros ok Hrect Hempty Hjg H.
destruct (prep_bls_rows bls_in out Hempty H)
  as (rows1 & F2 & cols2 & H1 & H2 & Hg & H3).
set (cols0 := columns (renamed bls_in)) in *.
destruct H1 as [[Hno _]|(jg' & Hjg' & ->)]; [congruence|].
assert (jg' = jg) as -> by congruence.
rewrite Hjg in Hg.
destruct H3 as [[Hno _]|(jg2 & Hjg2 & ->)]; [congruence|].
assert (jg2 = jg) as -> by congruence.
pose proof (positions_one _ _ _ Hjg) as [Hcol Hlt].
assert (HF2 : (forall r, label (F2 r) = label r)
              /\ forall r, r ∈ rows bls_in ->
                           cells (F2 r) !! jg = cells r !! jg
                           /\ jg < length (cells (F2 r))).
{ assert (Hlen : forall r, r ∈ rows bls_in -> length (cells r) = length cols0).
  { intros r Hr. eapply Forall_forall in Hrect; [|exact Hr]. simpl in Hrect.
    by rewrite <- length_renamed_bls in Hrect. }
  destruct H2 as [(_ & -> & _)|(ja & g & _ & _ & -> & _)].
  - split; [done|]. intros r Hr. split; [done|]. by rewrite (Hlen r Hr).
  - split; [done|]. intros r Hr.
    assert (Hsame : cells (with_monthly g ja (positions "AvgMonthlySpend" cols0 0) r) !! jg
                    = cells r !! jg)
      by (by eapply (with_monthly_other cols0); eauto).
    split; [done|]. apply lookup_lt_is_Some. rewrite Hsame.
    apply lookup_lt_is_Some. by rewrite (Hlen r Hr). }
destruct HF2 as [HF2l HF2c].
set (image := fun r => with_bucket jg (F2 r)).
set (rows3 := map image (select (map (kept jg) (rows bls_in)) (rows bls_in))).
set (codes := map (code age_order) (map (cell jg) rows3)).
set (mask := map (fun c => eq_int c (-1)) codes).
assert (Hmask : mask = map (fun r3 => eq_int (code age_order (cell jg r3)) (-1))
                           rows3).
{ unfold mask, codes. by rewrite !map_map. }
exists image,
  (itake (argsort R (select (map negb mask) codes))
         (select (map negb mask) rows3)).
split; [done|]. split.
{ intros r Hr. destruct (HF2c r Hr) as [Hsame Hlen].
  unfold image, with_bucket. rewrite cell_insert_eq by done.
  f_equal. unfold cell. by rewrite Hsame. }
split; [done|]. cbv zeta. fold rows3. split.
- rewrite <- (map_map (fun r3 => eq_int (code age_order (cell jg r3)) (-1)) negb).
  rewrite <- Hmask. apply itake_perm. unfold codes.
  rewrite argsort_codes_perm by done.
  rewrite (length_select_negb (map negb mask)
             (map (code age_order) (map (cell jg) rows3)) rows3)
    by (by rewrite !length_map).
  done.
- cbn [rows]. rewrite (map_map F2 (with_bucket jg)). fold image. fold rows3.
  unfold sorted_by_bucket. fold codes. fold mask.
  rewrite itake_nargsort by (unfold mask, codes; by rewrite !length_map).
  by rewrite Hmask.
Qed.

Lemma prep_bls_drops_all_ages bls_in out :
RuntimeOk R -> rectangular bls_in -> NoDup (labels bls_in) ->
prep_bls R bls_in = Ok out ->
drops_all_ages bls_in out.
Proof.
intros ok Hrect Hnd H r v Hr Hv Hall Hin.
destruct (empty bls_in) eqn:Hempty.
{ apply empty_true in Hempty as [Hc|Hrows].
  - unfold age_label, value_of in Hv. simpl in Hv. by rewrite Hc in Hv.
  - rewrite Hrows in Hr. by apply elem_of_nil in Hr. }
unfold age_label, value_of in Hv.
destruct (positions "AgeGroup" (columns (renamed bls_in)) 0)
  as [|jg [|??]] eqn:Hjg; try done.
destruct (prep_bls_ordered bls_in out jg ok Hrect Hempty Hjg H)
  as (image & first & Hlab & _ & _ & Hfirst & Hout).
cbv zeta in Hfirst, Hout.
unfold labels in Hin. rewrite Hout, map_fmap in Hin.
apply list_elem_of_fmap in Hin as (r3 & Hl3 & Hr3).
assert (Hr3' : r3 ∈ map image (select (map (kept jg) (rows bls_in)) (rows bls_in))).
{ apply elem_of_app in Hr3 as [Hr3|Hr3].
  - rewrite Hfirst in Hr3. by apply elem_of_select in Hr3 as [? _].
  - by apply elem_of_select in Hr3 as [? _]. }
rewrite map_fmap in Hr3'. apply list_elem_of_fmap in Hr3' as (r1 & -> & Hr1).
apply elem_of_select in Hr1 as [Hr1 Hkept]. rewrite Hlab in Hl3.
assert (r = r1) as <- by (by eapply label_inj).
rewrite (kept_all_ages jg r v Hv Hall) in Hkept. done.
Qed.

Lemma prep_bls_shows_no_all_ages bls_in out :
RuntimeOk R -> rectangular bls_in ->
prep_bls R bls_in = Ok out ->
shows_no_all_ages out.
Proof.
intros ok Hrect H r' v Hr' Hv (x & -> & Hx).
destruct (empty bls_in) eqn:Hempty.
{ unfold prep_bls in H. rewrite Hempty in H. injection H as <-.
  apply empty_true in Hempty as [Hc|Hrows].
  - unfold value_of in Hv. by rewrite Hc in Hv.
  - rewrite Hrows in Hr'. by apply elem_of_nil in Hr'. }
destruct (positions "AgeGroup" (columns (renamed bls_in)) 0)
  as [|jg [|??]] eqn:Hjg.
- destruct (prep_bls_rows bls_in out Hempty H)
    as (rows1 & F2 & cols2 & _ & _ & Hg & H3).
  rewrite Hjg in Hg. unfold value_of in Hv.
  destruct H3 as [[_ ->]|(jg & Hjg' & ->)]; cbn [columns] in Hv;
    rewrite Hg in Hv; done.
- destruct (prep_bls_ordered bls_in out jg ok Hrect Hempty Hjg H)
    as (image & first & _ & Hcell & Hpos & Hfirst & Hout).
  cbv zeta in Hfirst, Hout. unfold value_of in Hv. rewrite Hpos in Hv.
  apply cell_lookup in Hv.
  assert (Hr3 : r' ∈ map image (select (map (kept jg) (rows bls_in)) (rows bls_in))).
  { rewrite Hout in Hr'. apply elem_of_app in Hr' as [Hr3|Hr3].
    - rewrite Hfirst in Hr3. by apply elem_of_select in Hr3 as [? _].
    - by apply elem_of_select in Hr3 as [? _]. }
  rewrite map_fmap in Hr3. apply list_elem_of_fmap in Hr3 as (r1 & -> & Hr1).
  apply elem_of_select in Hr1 as [Hr1 _]. rewrite (Hcell r1 Hr1) in Hv.
  unfold bucket in Hv. destruct (cell jg r1) as [y| |]; try done.
  case_bool_decide as Hy; [|done]. injection Hv as ->.
  by apply (bucket_is_no_all_ages x).
- destruct (prep_bls_rows bls_in out Hempty H)
    as (rows1 & F2 & cols2 & [[Hno _]|(jg' & Hjg' & _)] & _); congruence.
Qed.

Lemma prep_bls_keeps_other_labels bls_in out :
RuntimeOk R -> rectangular bls_in -> NoDup (labels bls_in) ->
prep_bls R bls_in = Ok out ->
keeps_other_labels_last bls_in out.
Proof.
intros ok Hrect Hnd H r v Hr Hv Hnb Hna.
destruct (empty bls_in) eqn:Hempty.
{ apply empty_true in Hempty as [Hc|Hrows].
  - unfold age_label, value_of in Hv. simpl in Hv. by rewrite Hc in Hv.
  - rewrite Hrows in Hr. by apply elem_of_nil in Hr. }
unfold kept_below_buckets, above, age_label, value_of in *.
destruct (positions "AgeGroup" (columns (renamed bls_in)) 0)
  as [|jg [|??]] eqn:Hjg; try done.
destruct (prep_bls_ordered bls_in out jg ok Hrect Hempty Hjg H)
  as (image & first & Hlab & Hcell & _ & Hfirst & Hout).
cbv zeta in Hfirst, Hout.
set (rows3 := map image (select (map (kept jg) (rows bls_in)) (rows bls_in))) in *.
set (second := select _ rows3) in Hout.
assert (Himage : forall r0 v0, r0 ∈ rows bls_in -> cells r0 !! jg = Some v0 ->
          ~ is_all_ages v0 ->
          image r0 ∈ rows3 /\ cell jg (image r0) = bucket v0).
{ intros r0 v0 Hr0 Hv0 Hna0. split.
  - unfold rows3. rewrite map_fmap. apply list_elem_of_fmap_2.
    apply elem_of_select. split; [done|]. by eapply kept_not_all_ages.
  - rewrite (Hcell r0 Hr0). by rewrite (cell_lookup _ _ _ Hv0). }
destruct (Himage r v Hr Hv Hna) as [Hr3 Hc3].
assert (Hsecond : image r ∈ second).
{ apply elem_of_select. split; [done|]. rewrite Hc3. by apply bucket_code_out. }
apply list_elem_of_lookup in Hsecond as [j Hj].
assert (Hj' : labels out !! (length first + j) = Some (label r)).
{ unfold labels. rewrite Hout, map_fmap, list_lookup_fmap.
  rewrite lookup_app_r by lia. replace (length first + j - length first) with j by lia.
  by rewrite Hj, <- Hlab. }
split; [by eapply list_elem_of_lookup_2|].
intros r' v' Hr' Hv' Hb'.
assert (Hna' : ~ is_all_ages v').
{ intros (x & -> & Hx). destruct Hb' as (y & [= <-] & Hy).
  by apply (bucket_is_no_all_ages x). }
destruct (Himage r' v' Hr' Hv' Hna') as [Hr3' Hc3'].
assert (Hf : image r' ∈ first).
{ rewrite Hfirst. apply elem_of_select. split; [done|].
  rewrite Hc3'. by rewrite bucket_code_in. }
apply list_elem_of_lookup in Hf as [i Hi].
exists i, (length first + j). split; [|split; [done|]].
- unfold labels. rewrite Hout, map_fmap, list_lookup_fmap.
  rewrite lookup_app_l by (by eapply lookup_lt_Some).
  by rewrite Hi, <- Hlab.
- apply lookup_lt_Some in Hi. lia.
Qed.

End Bls.
End BlsFacts.

Module BlsClaims.
Import Py Np Pd App Spec BlsSpec Contract Samples.

(** C5. No row of the input whose age-group label equals "All ages" up to
    case is in the Spend Shaper's output (rows are told apart by their
    index labels), and no row of the output carries such a label. *)
Theorem all_ages_never_in_output (R : Runtime) (bls_in out : DataFrame) :
  RuntimeOk R -> rectangular bls_in -> NoDup (labels bls_in) ->
  prep_bls R bls_in = Ok out ->
  drops_all_ages bls_in out /\ shows_no_all_ages out.
Proof.
  intros ok Hrect Hnd H. split.
  - by apply (BlsFacts.prep_bls_drops_all_ages R).
  - by apply (BlsFacts.prep_bls_shows_no_all_ages R bls_in).
Qed.

Lemma all_ages_never_in_output_witness :
  drops_all_ages bls_raw bls_shaped /\ shows_no_all_ages bls_shaped.
Proof.
  apply (all_ages_never_in_output (Ref.runtime []) bls_raw bls_shaped).
  - apply RefFacts.runtime_ok.
  - repeat constructor.
  - apply (bool_decide_unpack _). vm_compute. reflexivity.
  - vm_compute. reflexivity.
Defined.

(** C10, as the code has it. A row whose age-group label is neither one
    of the seven buckets nor "All ages" up to case is kept by the Spend
    Shaper, and stands in the output below every row labelled with one of
    the seven buckets. *)
Theorem other_labels_are_kept_last (R : Runtime) (bls_in out : DataFrame) :
  RuntimeOk R -> rectangular bls_in -> NoDup (labels bls_in) ->
  prep_bls R bls_in = Ok out ->
  keeps_other_labels_last bls_in out.
Proof. apply BlsFacts.prep_bls_keeps_other_labels. Qed.

Lemma other_labels_are_kept_last_witness :
  keeps_other_labels_last bls_raw bls_shaped.
Proof.
  apply (other_labels_are_kept_last (Ref.runtime []) bls_raw bls_shaped).
  - apply RefFacts.runtime_ok.
  - repeat constructor.
  - apply (bool_decide_unpack _). vm_compute. reflexivity.
  - vm_compute. reflexivity.
Defined.

(** C10, as stated, fails: the row labelled "All ages" has a label
    outside the seven buckets, and the Spend Shaper drops it. *)
Lemma all_ages_row_is_not_kept :
  prep_bls (Ref.runtime []) bls_raw = Ok bls_shaped
  /\ ~ keeps_unmapped_last bls_raw bls_shaped.
Proof.
  split; [vm_compute; reflexivity|]. intros H.
  destruct (H (Row 3 [SStr "All ages"; Ref.ratio 500 1; SInt 2018; SStr "BLS"])
              (SStr "All ages")) as [Hin _].
  - apply list_elem_of_In. vm_compute. do 3 right. left. reflexivity.
  - vm_compute. reflexivity.
  - intros (x & [= <-] & Hx). apply list_elem_of_In in Hx. vm_compute in Hx.
    repeat (destruct Hx as [Hx|Hx]; [discriminate Hx|]). exact Hx.
  - apply list_elem_of_In in Hin. vm_compute in Hin.
    repeat (destruct Hin as [Hin|Hin]; [discriminate Hin|]). exact Hin.
Qed.

End BlsClaims.

(* ===================================================================== *)
(** * Rounding to [float64] *)
(* ===================================================================== *)

Module RoundingFacts.
Import Py Np Rounding.
Local Open Scope Z_scope.

(** ** Binary digits *)

Lemma digits2_pos_size p : digits2_pos p = Pos.size p.
Proof. induction p as [p IH|p IH|]; simpl; by rewrite ?IH. Qed.

Lemma digits_bounds p :
  2 ^ (Zpos (digits2_pos p) - 1) <= Zpos p < 2 ^ Zpos (digits2_pos p).
Proof.
  rewrite digits2_pos_size. split.
  - pose proof (Pos.size_le p) as H.
    assert (H' : 2 ^ Zpos (Pos.size p) <= 2 * Zpos p).
    { change 2 with (Zpos 2) at 1. rewrite <- Pos2Z.inj_pow.
      change (2 * Zpos p) with (Zpos p~0). by apply Pos2Z.pos_le_pos. }
    replace (Zpos (Pos.size p)) with (Zpos (Pos.size p) - 1 + 1) in H' by lia.
    rewrite Z.pow_add_r in H' by lia. lia.
  - pose proof (Pos.size_gt p) as H.
    change 2 with (Zpos 2). rewrite <- Pos2Z.inj_pow. by apply Pos2Z.pos_lt_pos.
Qed.

Lemma digits_unique p d :
  2 ^ (d - 1) <= Zpos p < 2 ^ d -> Zpos (digits2_pos p) = d.
Proof.
  intros [Hlo Hhi]. pose proof (digits_bounds p) as [Hlo' Hhi'].
  set (D := Zpos (digits2_pos p)) in *.
  assert (0 < D) by (unfold D; lia).
  destruct (Z.lt_trichotomy D d) as [Hlt|[->|Hgt]]; [|done|].
  - assert (2 ^ D <= 2 ^ (d - 1)) by (apply Z.pow_le_mono_r; lia). lia.
  - assert (0 <= d).
    { destruct (Z.le_gt_cases 0 d); [done|].
      rewrite (Z.pow_neg_r 2 d) in Hhi by lia. lia. }
    assert (2 ^ d <= 2 ^ (D - 1)) by (apply Z.pow_le_mono_r; lia). lia.
Qed.

(** ** Shifting right with a rounding bit and a sticky bit *)

Lemma shr_1_spec m r s :
  0 <= m ->
  shr_1 (Build_shr_record m r s)
  = Build_shr_record (m / 2) (Z.odd m) (r || s).
Proof.
  intros Hm. rewrite <- Z.div2_div.
  destruct m as [|p|p]; [done| |lia]. by destruct p.
Qed.

Lemma iter_pos_nat {A} (f : A -> A) p x :
  SpecFloat.iter_pos f p x = Nat.iter (Pos.to_nat p) f x.
Proof.
  revert x. induction p as [p IH|p IH|]; intros x; [| |done].
  - rewrite Pos2Nat.inj_xI.
    replace (S (2 * Pos.to_nat p)) with (S (Pos.to_nat p + Pos.to_nat p)) by lia.
    rewrite Nat.iter_succ_r, Nat.iter_add. cbn [SpecFloat.iter_pos].
    by rewrite !IH.
  - rewrite Pos2Nat.inj_xO.
    replace (2 * Pos.to_nat p)%nat with (Pos.to_nat p + Pos.to_nat p)%nat by lia.
    rewrite Nat.iter_add. cbn [SpecFloat.iter_pos]. by rewrite !IH.
Qed.

Lemma mod_pow2_succ M i :
  0 <= i ->
  M mod 2 ^ (i + 1) = M mod 2 ^ i + 2 ^ i * Z.b2z (Z.testbit M i).
Proof.
  intros Hi. rewrite Z.pow_add_r, Z.pow_1_r by lia.
  rewrite Z.rem_mul_r by lia. by rewrite Z.testbit_spec'.
Qed.

Lemma shr_iter_spec M (j : nat) :
  0 <= M ->
  Nat.iter (S j) shr_1 (Build_shr_record M false false)
  = Build_shr_record (M / 2 ^ Z.of_nat (S j))
                     (Z.testbit M (Z.of_nat j))
                     (negb (M mod 2 ^ Z.of_nat j =? 0)).
Proof.
  intros HM. induction j as [|j IH].
  - change (Nat.iter 1 shr_1 ?x) with (shr_1 x). rewrite shr_1_spec by done.
    change (Z.of_nat 1) with 1. change (Z.of_nat 0) with 0.
    rewrite Z.pow_1_r, Z.pow_0_r, Z.mod_1_r.
    f_equal; symmetry; apply Z.bit0_odd.
  - change (Nat.iter (S (S j)) shr_1 ?x) with (shr_1 (Nat.iter (S j) shr_1 x)).
    rewrite IH, shr_1_spec by (apply Z.div_pos; lia).
    f_equal.
    + rewrite Z.div_div by lia.
      replace (Z.of_nat (S (S j))) with (Z.of_nat (S j) + 1) by lia.
      by rewrite Z.pow_add_r, Z.pow_1_r by lia.
    + by rewrite Z.testbit_odd, Z.shiftr_div_pow2 by lia.
    + replace (Z.of_nat (S j)) with (Z.of_nat j + 1) by lia.
      rewrite mod_pow2_succ by lia.
      pose proof (Z.mod_pos_bound M (2 ^ Z.of_nat j) ltac:(lia)).
      assert (0 < 2 ^ Z.of_nat j) by lia.
      destruct (Z.testbit M (Z.of_nat j)); simpl.
      * symmetry. apply negb_true_iff, Z.eqb_neq. lia.
      * rewrite Z.mul_0_r, Z.add_0_r. by destruct (M mod 2 ^ Z.of_nat j =? 0).
Qed.

(** Shifting [n] bits out and rounding to nearest even. *)
Lemma shr_round M p :
  0 <= M ->
  let mrs := SpecFloat.iter_pos shr_1 p (Build_shr_record M false false) in
  round_nearest_even (shr_m mrs) (loc_of_shr_record mrs)
  = nearest_even M (Zpos p).
Proof.
  intros HM. cbv zeta. rewrite iter_pos_nat.
  destruct (Pos2Nat.is_succ p) as [j Hj]. rewrite Hj, shr_iter_spec by done.
  assert (Hp : Zpos p = Z.of_nat j + 1) by lia.
  unfold nearest_even. rewrite Hp, mod_pow2_succ by lia.
  replace (Z.of_nat (S j)) with (Z.of_nat j + 1) by lia.
  rewrite (Z.pow_add_r 2 (Z.of_nat j) 1), Z.pow_1_r by lia.
  set (h := 2 ^ Z.of_nat j). set (q := M / (h * 2)).
  pose proof (Z.mod_pos_bound M h ltac:(unfold h; lia)) as Hrho.
  set (rho := M mod h) in *.
  cbn [shr_m loc_of_shr_record].
  destruct (Z.testbit M (Z.of_nat j)); cbn [Z.b2z];
    destruct (Z.eqb_spec rho 0) as [Hz|Hz]; cbn [negb round_nearest_even].
  - rewrite Hz. replace (2 * (0 + h * 1) ?= h * 2) with Eq; [done|].
    symmetry. apply Z.compare_eq_iff. lia.
  - replace (2 * (rho + h * 1) ?= h * 2) with Gt; [done|].
    symmetry. apply Z.compare_gt_iff. lia.
  - rewrite Hz. replace (2 * (0 + h * 0) ?= h * 2) with Lt; [done|].
    symmetry. apply Z.compare_lt_iff. lia.
  - replace (2 * (rho + h * 0) ?= h * 2) with Lt; [done|].
    symmetry. apply Z.compare_lt_iff. lia.
Qed.


(** ** Rounding to nearest even on integers *)

Lemma nearest_even_0 M : nearest_even M 0 = M.
Proof.
  unfold nearest_even. rewrite Z.pow_0_r, Z.mod_1_r, Z.div_1_r. done.
Qed.

Lemma nearest_even_error M n :
  0 <= n ->
  let N := nearest_even M n in
  M / 2 ^ n <= N <= M / 2 ^ n + 1 /\ 2 * Z.abs (N * 2 ^ n - M) <= 2 ^ n.
Proof.
  intros Hn. cbv zeta. unfold nearest_even.
  assert (Hh : 0 < 2 ^ n) by (apply Z.pow_pos_nonneg; lia).
  pose proof (Z.div_mod M (2 ^ n) ltac:(lia)) as HM.
  pose proof (Z.mod_pos_bound M (2 ^ n) Hh) as Hrho.
  set (h := 2 ^ n) in *. set (q := M / h) in *. set (rho := M mod h) in *.
  destruct (Z.compare_spec (2 * rho) h); [destruct (Z.even q)| |]; nia.
Qed.

Lemma nearest_even_near c k delta :
  0 <= k -> Z.even c = true -> 2 * Z.abs delta <= 2 ^ k ->
  nearest_even (c * 2 ^ k + delta) k = c.
Proof.
  intros Hk Hc Hd. unfold nearest_even.
  assert (Hh : 0 < 2 ^ k) by (apply Z.pow_pos_nonneg; lia).
  set (h := 2 ^ k) in *.
  destruct (Z.le_gt_cases 0 delta) as [Hpos|Hneg].
  - destruct (Z.eq_dec h 1) as [H1|H1].
    { assert (delta = 0) as -> by lia. rewrite H1, Z.add_0_r, Z.mul_1_r.
      by rewrite Z.mod_1_r, Z.div_1_r. }
    assert (Hq : (c * h + delta) / h = c).
    { symmetry. apply (Z.div_unique_pos _ _ _ delta); lia. }
    assert (Hr : (c * h + delta) mod h = delta).
    { symmetry. apply (Z.mod_unique_pos _ _ c); lia. }
    rewrite Hq, Hr, Hc.
    destruct (Z.compare_spec (2 * delta) h); [done|done|lia].
  - assert (Hq : (c * h + delta) / h = c - 1).
    { symmetry. apply (Z.div_unique_pos _ _ _ (h + delta)); lia. }
    assert (Hr : (c * h + delta) mod h = h + delta).
    { symmetry. apply (Z.mod_unique_pos _ _ (c - 1)); lia. }
    rewrite Hq, Hr.
    assert (Ho : Z.even (c - 1) = false).
    { rewrite Z.even_sub, Hc. done. }
    rewrite Ho.
    destruct (Z.compare_spec (2 * (h + delta)) h); [f_equal; lia|lia|f_equal; lia].
Qed.

(** ** Rounding a positive integer mantissa to [float64] *)

Lemma fexp_normal x : -1074 <= x - 53 -> fexp prec emax x = x - 53.
Proof. intros H. unfold fexp, emin, prec, emax. lia. Qed.

Lemma pos_iter_xO p d : Zpos (Pos.iter xO p d) = Zpos p * 2 ^ Zpos d.
Proof.
  induction d as [|d IH] using Pos.peano_ind.
  - simpl. lia.
  - rewrite Pos.iter_succ, Pos2Z.inj_succ, Z.pow_succ_r by lia.
    rewrite Pos2Z.inj_xO, IH. lia.
Qed.

Lemma shl_align_value m e e' :
  e' <= e -> Zpos (shl_align m e e').1 = Zpos m * 2 ^ (e - e').
Proof.
  intros He. unfold shl_align.
  destruct (e' - e) as [|d|d] eqn:Hd; [|lia|].
  - replace (e - e') with 0 by lia. simpl. lia.
  - simpl. rewrite pos_iter_xO. f_equal. f_equal. lia.
Qed.

Lemma shr_fexp_normal M e :
  let D := Zpos (digits2_pos M) in
  -1074 <= D + e - 53 ->
  shr_fexp prec emax (Zpos M) e loc_Exact
  = shr (Build_shr_record (Zpos M) false false) e (D - 53).
Proof.
  intros D HD. unfold shr_fexp. cbn [Zdigits2 shr_record_of_loc].
  fold D. rewrite fexp_normal by done. f_equal. lia.
Qed.

(** A mantissa of exactly 53 digits is kept as it is. *)
Lemma binary_round_aux_exact M e :
  Zpos (digits2_pos M) = 53 -> -1074 <= e <= 971 ->
  binary_round_aux prec emax false (Zpos M) e loc_Exact = S754_finite false M e.
Proof.
  intros HD He. unfold binary_round_aux.
  rewrite shr_fexp_normal by lia. rewrite HD.
  change (53 - 53) with 0. cbn [shr shr_m loc_of_shr_record round_nearest_even].
  rewrite shr_fexp_normal by lia. rewrite HD.
  change (53 - 53) with 0. cbn [shr shr_m].
  replace (e <=? emax - prec) with true; [done|].
  symmetry. apply Z.leb_le. unfold emax, prec. lia.
Qed.

(** A longer mantissa is shifted right and rounded to nearest even; when
    rounding carries to [2 ^ 53], one more bit is shifted out. *)
Lemma binary_round_aux_normal M e :
  let n := Zpos (digits2_pos M) - 53 in
  let N := nearest_even (Zpos M) n in
  0 <= n -> -1074 <= e -> e + n < 971 ->
  binary_round_aux prec emax false (Zpos M) e loc_Exact
  = if N =? 2 ^ 53
    then S754_finite false (Z.to_pos (2 ^ 52)) (e + n + 1)
    else S754_finite false (Z.to_pos N) (e + n).
Proof.
  intros n N Hn He Hen.
  pose proof (digits_bounds M) as HM.
  destruct (Z.eq_dec n 0) as [Hz|Hz].
  { assert (HD : Zpos (digits2_pos M) = 53) by lia.
    unfold N. rewrite Hz, nearest_even_0, Z.add_0_r.
    rewrite HD in HM.
    replace (Zpos M =? 2 ^ 53) with false by (symmetry; apply Z.eqb_neq; lia).
    rewrite Pos2Z.id. apply binary_round_aux_exact; [done|lia]. }
  assert (Hp : exists p, n = Zpos p).
  { destruct n as [|p|p] eqn:E; [done|by exists p|lia]. }
  destruct Hp as [p Hp].
  unfold binary_round_aux. rewrite shr_fexp_normal by (fold n; lia).
  fold n. rewrite Hp. cbn [shr]. rewrite shr_round by lia.
  rewrite <- Hp. fold N.
  pose proof (nearest_even_error (Zpos M) n Hn) as [[HNlo HNhi] _]. fold N in HNlo, HNhi.
  assert (Hq : 2 ^ 52 <= Zpos M / 2 ^ n < 2 ^ 53).
  { assert (0 < 2 ^ n) by (apply Z.pow_pos_nonneg; lia).
    replace (Zpos (digits2_pos M) - 1) with (52 + n) in HM by lia.
    replace (Zpos (digits2_pos M)) with (53 + n) in HM by lia.
    rewrite !Z.pow_add_r in HM by lia.
    split.
    - apply Z.div_le_lower_bound; lia.
    - apply Z.div_lt_upper_bound; lia. }
  destruct (Z.eqb_spec N (2 ^ 53)) as [HN|HN].
  - rewrite HN.
    change (shr_fexp prec emax (2 ^ 53) (e + n) loc_Exact)
      with (shr (Build_shr_record (2 ^ 53) false false) (e + n)
              (fexp prec emax (54 + (e + n)) - (e + n))).
    rewrite fexp_normal by lia.
    replace (54 + (e + n) - 53 - (e + n)) with 1 by lia.
    cbn [shr SpecFloat.iter_pos]. 
    change (shr_1 (Build_shr_record (2 ^ 53) false false))
      with (Build_shr_record (2 ^ 52) false false).
    cbn [shr_m]. change (2 ^ 52) with (Zpos (Z.to_pos (2 ^ 52))).
    cbv iota beta.
    replace (e + n + 1 <=? emax - prec) with true; [done|].
    symmetry. apply Z.leb_le. unfold emax, prec. lia.
  - assert (HNpos : 0 < N) by lia.
    destruct N as [|N0|N0] eqn:EN; [lia| |lia].
    assert (HD : Zpos (digits2_pos N0) = 53) by (apply digits_unique; lia).
    change (match shr_fexp prec emax (Zpos N0) (e + n) loc_Exact with
            | (mrs'', e'') => match shr_m mrs'' with
                              | 0 => S754_zero false
                              | Zpos m => if e'' <=? emax - prec
                                          then S754_finite false m e''
                                          else S754_infinity false
                              | Zneg _ => S754_nan
                              end
            end = S754_finite false (Z.to_pos (Zpos N0)) (e + n)).
    rewrite shr_fexp_normal by lia. rewrite HD.
    change (53 - 53) with 0. cbn [shr shr_m]. rewrite Pos2Z.id.
    replace (e + n <=? emax - prec) with true; [done|].
    symmetry. apply Z.leb_le. unfold emax, prec. lia.
Qed.


Lemma binary_round_long M e :
  let D := Zpos (digits2_pos M) in
  53 <= D -> -1074 <= e ->
  binary_round prec emax false M e
  = binary_round_aux prec emax false (Zpos M) e loc_Exact.
Proof.
  intros D HD He. unfold binary_round. fold D.
  rewrite fexp_normal by lia. unfold shl_align.
  destruct (D + e - 53 - e) eqn:E; [done|done|lia].
Qed.

Lemma binary_round_short M e :
  let D := Zpos (digits2_pos M) in
  D <= 53 -> -1074 <= D + e - 53 <= 971 ->
  binary_round prec emax false M e
  = S754_finite false (Z.to_pos (Zpos M * 2 ^ (53 - D))) (D + e - 53).
Proof.
  intros D HD He. unfold binary_round. fold D.
  rewrite fexp_normal by lia.
  pose proof (shl_align_value M e (D + e - 53) ltac:(lia)) as Hv.
  replace (e - (D + e - 53)) with (53 - D) in Hv by lia.
  pose proof (digits_bounds M) as HM. fold D in HM.
  assert (Hd : 0 < D) by (unfold D; lia).
  destruct (shl_align M e (D + e - 53)) as [mz ez] eqn:E.
  assert (Hez : ez = D + e - 53).
  { unfold shl_align in E. destruct (D + e - 53 - e) eqn:E'; inversion E; lia. }
  simpl in Hv. rewrite <- Hv, Pos2Z.id, Hez.
  apply binary_round_aux_exact; [|lia].
  apply digits_unique. rewrite Hv.
  assert (Hp : 0 < 2 ^ (53 - D)) by (apply Z.pow_pos_nonneg; lia).
  replace (2 ^ (53 - 1)) with (2 ^ (D - 1) * 2 ^ (53 - D))
    by (rewrite <- Z.pow_add_r by lia; f_equal; lia).
  replace (2 ^ 53) with (2 ^ D * 2 ^ (53 - D))
    by (rewrite <- Z.pow_add_r by lia; f_equal; lia).
  nia.
Qed.

Lemma fadd_finite m e m' e' :
  let ez := Z.min e e' in
  fadd (S754_finite false m e) (S754_finite false m' e')
  = binary_normalize prec emax
      (Zpos m * 2 ^ (e - ez) + Zpos m' * 2 ^ (e' - ez)) ez false.
Proof.
  intros ez. unfold fadd, SFadd. fold ez. cbn [cond_Zopp].
  by rewrite !shl_align_value by lia.
Qed.

Lemma fsub_finite m e m' e' :
  let ez := Z.min e e' in
  fsub (S754_finite false m e) (S754_finite false m' e')
  = binary_normalize prec emax
      (Zpos m * 2 ^ (e - ez) - Zpos m' * 2 ^ (e' - ez)) ez false.
Proof.
  intros ez. unfold fsub, SFsub. fold ez. cbn [cond_Zopp].
  by rewrite !shl_align_value by lia.
Qed.

(** ** Adding back what was subtracted from 100 *)

Lemma of_Z_100 : of_Z 100 = S754_finite false hundred_mantissa (-46).
Proof. vm_compute. reflexivity. Qed.

Lemma hundred_mantissa_even : Z.even (Zpos hundred_mantissa) = true.
Proof. reflexivity. Qed.

(** Any integer within half a unit of [100 * 2 ^ (46 + j)] rounds to [100.0]. *)
Lemma round_to_hundred j delta :
  0 <= j <= 1028 -> 2 * Z.abs delta <= 2 ^ j ->
  binary_normalize prec emax (Zpos hundred_mantissa * 2 ^ j + delta) (-46 - j) false
  = S754_finite false hundred_mantissa (-46).
Proof.
  intros Hj Hd.
  assert (Hh : 0 < 2 ^ j) by (apply Z.pow_pos_nonneg; lia).
  assert (HC : Zpos hundred_mantissa = 7036874417766400) by reflexivity.
  assert (Hb : 2 ^ 52 * 2 ^ j <= Zpos hundred_mantissa * 2 ^ j + delta < 2 ^ 53 * 2 ^ j).
  { rewrite HC. lia. }
  destruct (Zpos hundred_mantissa * 2 ^ j + delta) as [|S0|S0] eqn:ES; [lia| |lia].
  assert (HD : Zpos (digits2_pos S0) = 53 + j).
  { apply digits_unique. replace (53 + j - 1) with (52 + j) by lia.
    rewrite !Z.pow_add_r by lia. lia. }
  cbn [binary_normalize].
  rewrite binary_round_long by lia.
  rewrite binary_round_aux_normal by lia.
  rewrite HD. replace (53 + j - 53) with j by lia.
  rewrite <- ES, nearest_even_near by (done || lia).
  rewrite Pos2Z.id. replace (-46 - j + j) with (-46) by lia.
  reflexivity.
Qed.

Lemma valid_finite s m e :
  valid_binary prec emax (S754_finite s m e) = true ->
  Zpos m < 2 ^ 53 /\ -1074 <= e.
Proof.
  unfold valid_binary, bounded, canonical_mantissa, fexp, emin, prec, emax.
  intros [H1 H2]%andb_true_iff. apply Z.eqb_eq in H1.
  pose proof (digits_bounds m) as [_ Hm].
  split; [|lia].
  assert (Zpos (digits2_pos m) <= 53) by lia.
  assert (2 ^ Zpos (digits2_pos m) <= 2 ^ 53) by (apply Z.pow_le_mono_r; lia).
  lia.
Qed.

Lemma below_hundred m e :
  fleb (S754_finite false m e) (S754_finite false hundred_mantissa (-46)) = true ->
  e < -46 \/ e = -46 /\ Zpos m <= Zpos hundred_mantissa.
Proof.
  unfold fleb, SFleb, SFcompare.
  destruct (Z.compare_spec e (-46)) as [->|Hlt|Hgt]; [|by left|done].
  intros H. right. split; [done|].
  apply Pos2Z.pos_le_pos. unfold Pos.le, Pos.compare.
  by destruct (Pos.compare_cont Eq m hundred_mantissa).
Qed.

(** For a finite [f] with [0 <= f <= 100], [f + (100 - f)] is [100]. *)
Theorem hundred_minus_plus f :
  valid_binary prec emax f = true ->
  fleb (of_Z 0) f = true -> fleb f (of_Z 100) = true ->
  fadd f (fsub (of_Z 100) f) = of_Z 100.
Proof.
  intros Hv H0 H100. rewrite of_Z_100 in *.
  destruct f as [s|s| |s m e].
  { by destruct s. }
  { destruct s; [vm_compute in H0|vm_compute in H100]; discriminate. }
  { vm_compute in H0. discriminate. }
  destruct s; [cbv in H0; discriminate|].
  apply valid_finite in Hv as [Hm He].
  apply below_hundred in H100.
  assert (HC : Zpos hundred_mantissa = 7036874417766400) by reflexivity.
  rewrite fsub_finite. rewrite Z.min_r by lia.
  replace (e - e) with 0 by lia. rewrite Z.pow_0_r, Z.mul_1_r.
  set (k := -46 - e).
  assert (Hk : 0 <= k <= 1028) by lia.
  assert (Hh : 0 < 2 ^ k) by (apply Z.pow_pos_nonneg; lia).
  assert (Hh1 : k = 0 \/ 2 <= 2 ^ k).
  { destruct (Z.eq_dec k 0) as [|Hne]; [by left|right].
    change 2 with (2 ^ 1) at 1. apply Z.pow_le_mono_r; lia. }
  assert (Hk0 : k = 0 -> 2 ^ k = 1) by (intros ->; done).
  destruct (Zpos hundred_mantissa * 2 ^ k - Zpos m) as [|M|M] eqn:EM.
  - (* f is 100 *)
    cbn [binary_normalize]. unfold fadd. cbn [SFadd].
    assert (k = 0) as Hz by nia. rewrite (Hk0 Hz) in EM.
    f_equal; [|lia]. apply Pos2Z.inj. lia.
  - cbn [binary_normalize].
    pose proof (digits_bounds M) as HM.
    set (D := Zpos (digits2_pos M)) in *.
    assert (HD0 : 0 < D) by (unfold D; lia).
    destruct (Z.le_gt_cases 53 D) as [Hlong|Hshort].
    + (* the difference is rounded *)
      assert (HDk : D <= 53 + k).
      { destruct (Z.le_gt_cases D (53 + k)) as [|Hgt]; [done|].
        assert (2 ^ (53 + k) <= 2 ^ (D - 1)) by (apply Z.pow_le_mono_r; lia).
        rewrite Z.pow_add_r in * by lia. nia. }
      rewrite binary_round_long by (fold D; lia).
      rewrite binary_round_aux_normal by (fold D; lia). fold D.
      set (n := D - 53).
      pose proof (nearest_even_error (Zpos M) n ltac:(lia)) as [[HNlo HNhi] Herr].
      set (N := nearest_even (Zpos M) n) in *.
      assert (Hn : 0 < 2 ^ n) by (apply Z.pow_pos_nonneg; lia).
      assert (Hnk : 2 ^ n <= 2 ^ k) by (apply Z.pow_le_mono_r; lia).
      assert (Hq : 2 ^ 52 <= Zpos M / 2 ^ n).
      { apply Z.div_le_lower_bound; [lia|].
        replace (D - 1) with (n + 52) in HM by lia.
        rewrite Z.pow_add_r in HM by lia. lia. }
      assert (Hsum : Zpos m + N * 2 ^ n
                     = Zpos hundred_mantissa * 2 ^ k + (N * 2 ^ n - Zpos M)) by lia.
      destruct (Z.eqb_spec N (2 ^ 53)) as [HN|HN].
      * rewrite fadd_finite. rewrite Z.min_l by lia.
        replace (e - e) with 0 by lia. rewrite Z.pow_0_r, Z.mul_1_r.
        replace (e + n + 1 - e) with (1 + n) by lia.
        rewrite Z.pow_add_r, Z.mul_assoc by lia.
        change (Zpos (Z.to_pos (2 ^ 52)) * 2 ^ 1) with (2 ^ 53).
        rewrite <- HN, Hsum.
        replace e with (-46 - k) by lia.
        apply round_to_hundred; lia.
      * rewrite fadd_finite. rewrite Z.min_l by lia.
        replace (e - e) with 0 by lia. rewrite Z.pow_0_r, Z.mul_1_r.
        replace (e + n - e) with n by lia.
        rewrite Z2Pos.id by lia. rewrite Hsum.
        replace e with (-46 - k) by lia.
        apply round_to_hundred; lia.
    + (* the difference is exact *)
      assert (Hz : k = 0).
      { destruct Hh1 as [|Hh1]; [done|].
        assert (2 ^ D <= 2 ^ 52) by (apply Z.pow_le_mono_r; lia). lia. }
      rewrite (Hk0 Hz) in EM.
      rewrite binary_round_short by (fold D; lia). fold D.
      set (j := 53 - D).
      assert (Hj : 0 < 2 ^ j) by (apply Z.pow_pos_nonneg; lia).
      rewrite fadd_finite. rewrite Z.min_r by lia.
      replace (D + e - 53 - (D + e - 53)) with 0 by lia.
      rewrite Z.pow_0_r, Z.mul_1_r.
      replace (e - (D + e - 53)) with j by lia.
      rewrite Z2Pos.id by lia.
      replace (Zpos m * 2 ^ j + Zpos M * 2 ^ j)
        with (Zpos hundred_mantissa * 2 ^ j + 0) by lia.
      replace (D + e - 53) with (-46 - j) by lia.
      apply round_to_hundred; lia.
  - (* f <= 100 *)
    destruct H100 as [Hlt|[Heq Hle]]; [|rewrite Hk0 in EM by lia; lia].
    destruct Hh1 as [|Hh1]; [lia|]. nia.
Qed.

End RoundingFacts.

(* ===================================================================== *)
(** * The Concentration Selector *)
(* ===================================================================== *)

Module DonutFacts.
Import Py Np Pd App Spec ConcSpec.

Lemma column_values_lookup name df i v :
  column_values name df !! i = Some v ->
  exists j, positions name (columns df) 0 = [j]
            /\ column_values name df = map (cell j) (rows df)
            /\ i < length (rows df).
Proof.
  unfold column_values.
  destruct (positions name (columns df) 0) as [|j [|??]]; try done.
  intros H. exists j. split_and!; [done..|].
  apply lookup_lt_Some in H. by rewrite length_map in H.
Qed.

Lemma getitem_column_values dup name df j :
  positions name (columns df) 0 = [j] ->
  getitem dup name df = Ok (column_values name df).
Proof. unfold getitem, column_values. by intros ->. Qed.

(** [.iloc[0]] of a boolean selection is the entry at the first [True]. *)
Lemma select_first (mask : list bool) (l : list scalar) i x :
  mask !! i = Some true ->
  (forall i' b, i' < i -> mask !! i' = Some b -> b = false) ->
  l !! i = Some x ->
  iloc0 (select mask l) = Ok x.
Proof.
  revert mask l. induction i as [|i IH]; intros [|b mask] [|a l] Hm Hbefore Hl;
    simplify_eq/=; try done.
  rewrite (Hbefore 0 b) by (done || lia).
  apply IH; [done| |done].
  intros i' b' Hi' Hb'. apply (Hbefore (S i') b'); [lia|done].
Qed.

Lemma first_match_mask conc year i ycol :
  first_match conc year i -> ycol = column_values "year" conc ->
  let mask := map (fun v => eq_int v year) ycol in
  mask !! i = Some true
  /\ forall i' b, i' < i -> mask !! i' = Some b -> b = false.
Proof.
  intros [(y & Hy & Heq) Hbefore] -> mask. unfold mask. split.
  - by rewrite list_lookup_fmap, Hy; simpl; rewrite Heq.
  - intros i' b Hi'. rewrite list_lookup_fmap.
    destruct (column_values "year" conc !! i') as [y'|] eqn:Hy'; [|done].
    simpl. intros [= <-]. by eapply Hbefore.
Qed.

Lemma wrap64_small z :
  (- 2 ^ 63 <= z < 2 ^ 63)%Z -> wrap64 z = z.
Proof. intros H. unfold wrap64. rewrite Z.mod_small; lia. Qed.

(** Wrapping commutes with the sum. *)
Lemma wrap64_add_r a b : wrap64 (a + wrap64 b) = wrap64 (a + b).
Proof.
  unfold wrap64. f_equal.
  replace (a + ((b + 2 ^ 63) mod 2 ^ 64 - 2 ^ 63) + 2 ^ 63)%Z
    with (a + (b + 2 ^ 63) mod 2 ^ 64)%Z by lia.
  rewrite Z.add_mod_idemp_r by lia. f_equal. lia.
Qed.

(** The complement of an integer, and of a float between 0 and 100, adds
    back to 100. *)
Lemma complement_adds_to_100 p :
  int_or_percentage p ->
  exists other, rsub 100 p = Ok other /\ sum_is_100 p other.
Proof.
  destruct p as [s|z|f]; simpl; [done| |].
  - intros _. eexists. split; [done|]. eexists. split; [done|]. simpl.
    rewrite wrap64_add_r. replace (z + (100 - z))%Z with 100%Z by lia.
    reflexivity.
  - intros (Hv & H0 & H100). eexists. split; [done|]. eexists. split; [done|].
    simpl. rewrite RoundingFacts.hundred_minus_plus by done.
    vm_compute. reflexivity.
Qed.

(** With a matching row, the section draws the donut on the two
    proportions the [try] block derived, and its caption. *)
Lemma concentration_section_draws_the_split
  (R : Runtime) (S : St.Session) (conc : DataFrame) (ycol : list scalar)
  (year_min year_max : Z) (p other source : scalar) :
  read_csv R (DATA_DIR +:+ "crypto_concentration.csv") = Ok conc ->
  empty conc = false ->
  has_column "year" conc = true ->
  getitem TypeError "year" conc = Ok ycol ->
  (m <-r series_min ycol ; py_int R m) = Ok year_min ->
  (m <-r series_max ycol ; py_int R m) = Ok year_max ->
  (year_min < year_max)%Z ->
  select_year conc (St.pick_year S year_min year_max) = Ok (p, other, source) ->
  exists hover caption,
    concentration_section R S =
      ([St.Markdown "The New House: Who Holds the power?";
        St.Markdown "_Explore how Bitcoin ownership concentration changed over time._";
        St.Slider "Select a year" year_min year_max
                  (St.pick_year S year_min year_max);
        St.PlotlyChart (St.Pie donut_groups [p; other] hover);
        St.Caption caption],
       St.Done tt).
Proof.
  intros Hread Hne Hcol Hy Hmin Hmax Hlt Hsel. eexists _, _.
  apply Z.ltb_lt in Hlt.
  unfold concentration_section, load_concentration.
  rewrite Hread. simpl. rewrite Hne, Hcol. simpl. rewrite Hy. simpl.
  rewrite Hmin. simpl. rewrite Hmax. simpl. unfold St.slider. rewrite Hlt. simpl.
  rewrite Hsel. simpl. reflexivity.
Qed.

End DonutFacts.

Module DonutClaims.
Import Py Np Pd App Spec ConcSpec DonutFacts.

(** C4, as the code has it. For every concentration table with one
    [source] column and every selected year that has a matching row with
    top percentage [p], an integer or a float between 0 and 100, the
    [try] block succeeds with the two proportions [p] and [100 - p], and
    [p + (100 - p) == 100] holds in the arithmetic of the values:
    [int64], which wraps around, for an integer column, [float64] (round
    to nearest, ties to even) for a float column. *)
Theorem donut_split_sums_to_100 (conc : DataFrame) (year : Z) (p : scalar) :
  length (positions "source" (columns conc) 0) = 1 ->
  matching_row conc year p ->
  int_or_percentage p ->
  exists other source,
    select_year conc year = Ok (p, other, source)
    /\ rsub 100 p = Ok other
    /\ sum_is_100 p other.
Proof.
  intros Hsrc (i & Hfirst & Hp) Hpct.
  destruct (complement_adds_to_100 p Hpct) as (other & Hother & Hsum).
  pose proof Hfirst as [(y & Hy & _) _].
  apply column_values_lookup in Hy as (jy & Hjy & _ & Hi).
  pose proof Hp as Hp'.
  apply column_values_lookup in Hp' as (jt & Hjt & _ & _).
  destruct (positions "source" (columns conc) 0) as [|js [|??]] eqn:Hjs;
    simplify_eq/=.
  destruct (first_match_mask conc year i _ Hfirst eq_refl) as [Hm Hbefore].
  destruct (lookup_lt_is_Some_2 (column_values "source" conc) i) as [s Hs].
  { unfold column_values. rewrite Hjs. by rewrite length_map. }
  exists other, s. split; [|done].
  unfold select_year.
  rewrite (getitem_column_values _ _ _ _ Hjy). cbn [rbind].
  rewrite (getitem_column_values _ _ _ _ Hjt). cbn [rbind].
  rewrite (select_first _ _ i p) by done. cbn [rbind].
  rewrite Hother. cbn [rbind].
  rewrite (getitem_column_values _ _ _ _ Hjs). cbn [rbind].
  rewrite (select_first _ _ i s) by done. reflexivity.
Qed.

Lemma donut_split_sums_to_100_witness :
  exists other source,
    select_year Examples.conc_2015_2024 2015 = Ok (Ref.ratio 55 2, other, source)
    /\ rsub 100 (Ref.ratio 55 2) = Ok other
    /\ sum_is_100 (Ref.ratio 55 2) other.
Proof.
  apply donut_split_sums_to_100.
  - reflexivity.
  - exists 0. split; [split|].
    + exists (SInt 2015). split; reflexivity.
    + intros i' y' Hi'. lia.
    + vm_compute. reflexivity.
  - vm_compute. repeat split.
Defined.

(** C4, as stated, fails: in a file whose row for 2015 has a blank top
    percentage the year has a matching row, the [try] block succeeds, the
    donut is drawn on the two proportions, and they do not add up to
    100. *)
Lemma blank_percentage_does_not_sum_to_100 :
  let R := Ref.runtime [(Examples.conc_path, conc_blank_share)] in
  matching_row conc_blank_share 2015 NaN
  /\ exists other source hover,
       select_year conc_blank_share 2015 = Ok (NaN, other, source)
       /\ rsub 100 NaN = Ok other
       /\ St.PlotlyChart (St.Pie donut_groups [NaN; other] hover)
            ∈ St.elements (concentration_section R (Ref.session 2015))
       /\ ~ sum_is_100 NaN other.
Proof.
  split.
  - exists 0. split; [split|].
    + exists (SInt 2015). split; reflexivity.
    + intros i' y' Hi'. lia.
    + reflexivity.
  - eexists _, _, _. split; [reflexivity|]. split; [reflexivity|]. split.
    + apply list_elem_of_In. vm_compute. do 3 right. left. reflexivity.
    + intros (s & Hs & Heq). vm_compute in Hs. injection Hs as <-.
      vm_compute in Heq. discriminate.
Qed.

(** The range matters for floats: far above 100 the two proportions do
    not add back to 100 either. *)
Remark outside_the_range_the_sum_differs :
  let big := SFloat (of_Z (10 ^ 17)) in
  exists other s, rsub 100 big = Ok other /\ add big other = Ok s
                  /\ eq_int s 100 = false.
Proof.
  eexists _, _; split_and!; try reflexivity; vm_compute; reflexivity.
Qed.

End DonutClaims.

(* ===================================================================== *)
(** * Looking a column up by a part of its name *)
(* ===================================================================== *)

Module ColumnFacts.
Import Py App ColumnSpec.

Lemma prefix_spec key s :
  String.prefix key s = true <-> exists b, s = key +:+ b.
Proof.
  revert key. induction s as [|a' s IH]; intros [|a key]; simpl.
  - split; [by exists ""|done].
  - split; [done|]. by intros [b Hb].
  - split; [by eexists|done].
  - destruct (Ascii.ascii_dec a a') as [->|Hne].
    + rewrite IH. split; intros [b Hb]; exists b; [by rewrite Hb|by injection Hb].
    + split; [done|]. intros [b Hb]. injection Hb as ? ?. congruence.
Qed.

Lemma str_contains_spec s key :
  str_contains s key = true <-> occurs_in key s.
Proof.
  unfold occurs_in. induction s as [|c s IH]; cbn [str_contains].
  - rewrite orb_false_r, prefix_spec. split.
    + intros [b Hb]. by exists "", b.
    + intros (a & b & H). destruct a; [by exists b|done].
  - rewrite orb_true_iff, prefix_spec, IH. split.
    + intros [[b Hb]|(a & b & Hab)].
      * by exists "", b.
      * exists (String c a), b. simpl. by rewrite Hab.
    + intros (a & b & Hab). destruct a as [|c' a]; simpl in Hab.
      * left. by exists b.
      * injection Hab as _ ->. right. by exists a, b.
Qed.

Lemma hit_spec keys c :
  existsb (fun key => str_contains (lower c) key) keys = true <-> hit keys c.
Proof.
  unfold hit. rewrite existsb_exists. split; intros (key & Hk & H); exists key.
  - split; [by apply list_elem_of_In|by apply str_contains_spec].
  - split; [by apply list_elem_of_In|by apply str_contains_spec].
Qed.

Lemma lower_char_idem a : lower_char (lower_char a) = lower_char a.
Proof. destruct a as [[] [] [] [] [] [] [] []]; reflexivity. Qed.

Lemma lower_no_capital c a :
  a ∈ list_ascii_of_string (lower c) -> lower_char a = a.
Proof.
  induction c as [|b c IH]; simpl; [by intros ?%elem_of_nil|].
  intros [->|H]%elem_of_cons; [apply lower_char_idem|auto].
Qed.

Lemma chars_app a b :
  list_ascii_of_string (a +:+ b)
  = list_ascii_of_string a ++ list_ascii_of_string b.
Proof. induction a as [|c a IH]; simpl; [done|by rewrite IH]. Qed.

Lemma capital_never_occurs key c : has_capital key -> ~ occurs_in key (lower c).
Proof.
  intros (a & Ha & Hcap) (x & y & Hxy). apply Hcap.
  apply (lower_no_capital c). rewrite Hxy, !chars_app. set_solver.
Qed.

Lemma find_column_Some cols keys c :
  find_column cols keys = Some c <-> first_hit cols keys c.
Proof.
  unfold find_column, first_hit. induction cols as [|c0 cols IH]; simpl.
  - split; [done|]. intros (before & after & H & _). by destruct before.
  - destruct (existsb _ keys) eqn:E.
    + apply hit_spec in E. split.
      * intros [= <-]. by exists [], cols.
      * intros (before & after & H & Hc & Hb).
        destruct before as [|c1 before]; simpl in H; [congruence|].
        injection H as <- _. by apply Forall_cons in Hb as [? _].
    + assert (Hno : ~ hit keys c0).
      { intros H%hit_spec. cbv zeta in E. congruence. }
      rewrite IH. split.
      * intros (before & after & -> & Hc & Hb).
        exists (c0 :: before), after. by rewrite Forall_cons.
      * intros (before & after & H & Hc & Hb).
        destruct before as [|c1 before]; simpl in H.
        -- injection H as <- _. done.
        -- injection H as <- ->. apply Forall_cons in Hb as [_ Hb].
           by exists before, after.
Qed.

Lemma find_column_None cols keys :
  find_column cols keys = None <-> Forall (fun c => ~ hit keys c) cols.
Proof.
  unfold find_column. induction cols as [|c0 cols IH]; simpl; [done|].
  destruct (existsb _ keys) eqn:E.
  - apply hit_spec in E. split; [done|]. by intros [H _]%Forall_cons.
  - assert (Hno : ~ hit keys c0).
    { intros H%hit_spec. cbv zeta in E. congruence. }
    rewrite IH, Forall_cons. tauto.
Qed.

End ColumnFacts.

Module ColumnClaims.
Import Py App ColumnSpec ColumnFacts.

(** X1. [find_column] returns the first name whose lower-case form holds
    one of the keys, and [None] exactly when no name does. *)
Theorem find_column_first_hit (cols keys : list string) :
  (forall c, find_column cols keys = Some c <-> first_hit cols keys c)
  /\ (find_column cols keys = None <-> Forall (fun c => ~ hit keys c) cols).
Proof.
  split; [intros c; apply find_column_Some|apply find_column_None].
Qed.

(** X2. The keys are compared with lower-case names and are not made
    lower case themselves: when every key holds a capital letter,
    [find_column] finds nothing, whatever the names. *)
Theorem find_column_capital_keys (cols keys : list string) :
  Forall has_capital keys -> find_column cols keys = None.
Proof.
  intros Hk. apply find_column_None, Forall_forall.
  intros c _ (key & Hkey & Hocc).
  eapply Forall_forall in Hk; [|exact Hkey].
  by apply (capital_never_occurs key c).
Qed.

Lemma find_column_capital_keys_witness :
  find_column ["Year"; "year"; "Source"] ["Year"; "YEAR"] = None.
Proof.
  apply find_column_capital_keys.
  repeat constructor.
  - exists "Y"%char. split; [|by vm_compute].
    apply list_elem_of_In. vm_compute. by left.
  - exists "Y"%char. split; [|by vm_compute].
    apply list_elem_of_In. vm_compute. by left.
Defined.

(** X3. Only the lower-case forms of the names matter: on two lists of
    names that agree up to case, [find_column] stops at the same
    position. *)
Theorem find_column_ignores_case (cols1 cols2 keys : list string) :
  map lower cols1 = map lower cols2 ->
  lower <$> find_column cols1 keys = lower <$> find_column cols2 keys.
Proof.
  unfold find_column. revert cols2.
  induction cols1 as [|c1 cols1 IH]; intros [|c2 cols2] H; simplify_eq/=;
    [done|].
  rewrite <- H. destruct (existsb _ keys); simpl; [by f_equal|by apply IH].
Qed.

Lemma find_column_ignores_case_witness :
  lower <$> find_column ["Source"; "YEAR "; "Under30"] ["year"; "yr"]
  = lower <$> find_column ["source"; "Year "; "UNDER30"] ["year"; "yr"].
Proof. by apply find_column_ignores_case. Defined.

End ColumnClaims.

(* ===================================================================== *)
(** * The loaders on readable and unreadable files *)
(* ===================================================================== *)

Module StripFacts.
Import Py Np Pd St App Spec LoaderSpec.

Lemma lstrip_spec s :
  exists l, blank l /\ s = l +:+ lstrip s
            /\ forall a, head (chars (lstrip s)) = Some a -> is_space a = false.
Proof.
  induction s as [|a s (l & Hl & Hs & Hh)]; simpl.
  - exists "". split; [constructor|]. split; [done|]. done.
  - destruct (is_space a) eqn:E.
    + exists (String a l). split; [by constructor|]. split; [|done].
      change (String a s = String a (l +:+ lstrip s)). by f_equal.
    + exists "". split; [constructor|]. split; [done|].
      simpl. by intros ? [= <-].
Qed.

Lemma rstrip_spec s :
  exists r, blank r /\ s = rstrip s +:+ r
            /\ (forall a, last (chars (rstrip s)) = Some a -> is_space a = false)
            /\ head (chars (rstrip s))
               = match rstrip s with
                 | EmptyString => None
                 | _ => head (chars s)
                 end.
Proof.
  induction s as [|a s (r & Hr & Hs & Hl & Hh)]; simpl.
  - exists "". split; [constructor|]. done.
  - destruct (rstrip s) as [|b t] eqn:E.
    + destruct (is_space a) eqn:Ea.
      * exists (String a r). split; [by constructor|].
        change ("" +:+ r) with r in Hs. subst s. done.
      * exists r. split; [done|].
        change ("" +:+ r) with r in Hs. subst s.
        split; [done|]. split; [|done]. by intros ? [= <-].
    + exists r. split; [done|].
      split; [change (String a s = String a (String b t +:+ r)); by f_equal|].
      split; [|done]. intros a'. exact (Hl a').
Qed.

Lemma strip_spec c : stripped_of c (strip c).
Proof.
  unfold stripped_of, trimmed, strip.
  destruct (lstrip_spec c) as (l & Hl & Hc & Hhead).
  destruct (rstrip_spec (lstrip c)) as (r & Hr & Hs & Hlast & Hh).
  split; [split; [|done]|].
  - intros a. rewrite Hh. destruct (rstrip (lstrip c)); [done|]. apply Hhead.
  - exists l, r. split; [done|]. split; [done|]. by rewrite <- Hs.
Qed.

End StripFacts.

Module LoaderClaims.
Import Py Np Pd St App Spec LoaderSpec StripFacts.

(** X4. On a file that reads, [load_csv_safe] shows nothing and returns
    the rows of the file under the stripped names: each name is the
    original one without the whitespace around it, and neither starts nor
    ends with a whitespace character. *)
Theorem load_csv_safe_strips_names (R : Runtime) (path : string) (df : DataFrame) :
  read_csv R path = Ok df ->
  exists names,
    load_csv_safe R path = ([], Done (Frame names (rows df)))
    /\ Forall2 stripped_of (columns df) names.
Proof.
  intros H. exists (map strip (columns df)). unfold load_csv_safe. rewrite H.
  split; [done|]. rewrite ListFacts.map_fmap. apply Forall2_fmap_r, Forall_Forall2_diag.
  apply Forall_forall. intros c _. apply strip_spec.
Qed.

Lemma load_csv_safe_strips_names_witness :
  exists names,
    load_csv_safe (Ref.runtime [(Examples.conc_path, Examples.conc_spaced)])
                  Examples.conc_path
    = ([], Done (Frame names (rows Examples.conc_spaced)))
    /\ Forall2 stripped_of (columns Examples.conc_spaced) names.
Proof.
  apply load_csv_safe_strips_names. reflexivity.
Defined.

(** X5. When none of the four files can be read, the script still runs to
    its end: it draws no chart, no slider and no download button, and
    shows five warnings (one per section, and the one of
    [load_concentration]). *)
Theorem page_without_data (R : Runtime) (S : Session) :
  (forall path, exists e, read_csv R path = Raise e) ->
  result_of (page R S) = Done tt
  /\ Forall (fun e => is_chart e || is_download e || is_slider e = false)
            (elements (page R S))
  /\ length (List.filter is_warning (elements (page R S))) = 5.
Proof.
  intros H.
  unfold page, page_top, concentration_section, load_concentration, load_csv_safe.
  destruct (H (DATA_DIR +:+ "crypto_under30.csv")) as [e1 ->].
  destruct (H (DATA_DIR +:+ "lottery_under30.csv")) as [e2 ->].
  destruct (H (DATA_DIR +:+ "lottery_age_spend_bls_2018.csv")) as [e3 ->].
  destruct (H (DATA_DIR +:+ "crypto_concentration.csv")) as [e4 ->].
  split; [reflexivity|]. split; [|reflexivity].
  cbn. repeat constructor.
Qed.

Lemma page_without_data_witness :
  result_of (page Examples.no_files (Ref.session 2020)) = Done tt
  /\ Forall (fun e => is_chart e || is_download e || is_slider e = false)
            (elements (page Examples.no_files (Ref.session 2020)))
  /\ length (List.filter is_warning
               (elements (page Examples.no_files (Ref.session 2020)))) = 5.
Proof.
  apply page_without_data. intros path. eexists. reflexivity.
Defined.

End LoaderClaims.

(* ===================================================================== *)
(** * More on the percent-series shapers and their sections *)
(* ===================================================================== *)

Module ShaperFacts.
Import Py Np Pd St App Spec SeriesSpec ShaperSpec Contract Pipeline.
Import ListFacts FloatFacts FrameFacts.

Lemma select_sublist {A} mask (l : list A) : sublist (select mask l) l.
Proof.
  revert l. induction mask as [|b mask IH]; intros [|x l]; simpl;
    try apply sublist_nil_l.
  destruct b; [apply sublist_skip|apply sublist_cons]; apply IH.
Qed.

Lemma length_one {A} (l : list A) : length l = 1 -> exists x, l = [x].
Proof. destruct l as [|x [|??]]; try done. by exists x. Qed.

Section Shaper.
Variables (R : Runtime) (src dst : string).
Hypothesis ok : RuntimeOk R.
Hypothesis dst_year : dst <> "Year".

Local Abbreviation renamed lot :=
(rename {[ "year" := "Year"; src := dst; "source" := "Source" ]} lot).

(** The two ways [to_numeric] settles a column: on integers, or on
floats. *)
Local Abbreviation numeric_fn g :=
(g = coerce R \/ g = (fun v => SFloat (as_f64 (coerce R v)))).

Lemma to_numeric_how s : exists g, numeric_fn g /\ to_numeric R s = map g s.
Proof.
unfold to_numeric. destruct (dtype_of (map (coerce R) s)).
- exists (fun v => SFloat (as_f64 (coerce R v))). by rewrite map_map; auto.
- exists (coerce R). auto.
- exists (fun v => SFloat (as_f64 (coerce R v))). by rewrite map_map; auto.
Qed.

Lemma numeric_fn_isna g v : numeric_fn g -> isna (g v) = isna (coerce R v).
Proof. intros [->| ->]; [done|]. exact (isna_as_f64 R v). Qed.

Lemma numeric_fn_not_str g v : numeric_fn g -> is_str (g v) = false.
Proof.
intros [->| ->]; [|done].
destruct (coerce R v) as [x| |] eqn:E; [|done..].
by destruct (coerce_not_str R v x).
Qed.

Lemma argsort_perm (k : list scalar) :
Forall (fun v => is_str v = false) k -> argsort R k ≡ₚ seq 0 (length k).
Proof.
intros Hk. unfold argsort, dtype_of.
assert (Hs : existsb is_str k = false).
{ apply not_true_is_false. rewrite existsb_exists. intros (v & Hv & Hstr).
  apply list_elem_of_In in Hv. eapply Forall_forall in Hk; [|done]. congruence. }
rewrite Hs. destruct (forallb is_int k).
- rewrite (argsort_int_perm R ok). by rewrite length_map.
- rewrite (argsort_f64_perm R ok). by rewrite length_map.
Qed.

(** The shaper as a pipeline over rows. *)
Lemma prep_series_pipeline lot out :
empty lot = false ->
prep_series R src dst lot = Ok out ->
exists jy jd g1 g2,
  positions "Year" (columns (renamed lot)) 0 = [jy]
  /\ positions dst (columns (renamed lot)) 0 = [jd]
  /\ numeric_fn g1 /\ numeric_fn g2
  /\ let rows2 := map (coerced jy jd g1 g2) (rows lot) in
     let rows3 := select (map (complete jy jd) rows2) rows2 in
     out = Frame (columns (renamed lot))
             (itake (nargsort (argsort R)
                              (map isna (map (cell jy) rows3))
                              (map (cell jy) rows3))
                    rows3).
Proof.
intros Hne H. unfold prep_series in H. rewrite Hne in H.
set (df0 := renamed lot) in *.
destruct (getitem TypeError "Year" df0) as [y|e] eqn:Hy; [|done].
cbn [rbind] in H.
apply getitem_Ok in Hy as (jy & Hjy & ->).
destruct (to_numeric_how (map (cell jy) (rows df0))) as (g1 & Hn1 & Hg1).
rewrite Hg1, map_map in H.
rewrite (setitem_at "Year" (fun r => g1 (cell jy r)) df0 jy Hjy) in H.
set (df1 := Frame _ _) in H.
destruct (getitem TypeError dst df1) as [p|e] eqn:Hp; [|done].
cbn [rbind] in H.
apply getitem_Ok in Hp as (jd & Hjd & ->).
destruct (to_numeric_how (map (cell jd) (rows df1))) as (g2 & Hn2 & Hg2).
rewrite Hg2, map_map in H.
rewrite (setitem_at dst (fun r => g2 (cell jd r)) df1 jd Hjd) in H.
set (df2 := Frame _ _) in H.
rewrite (dropna_two "Year" dst df2 jy jd Hjy Hjd) in H.
cbn [rbind] in H.
set (df3 := Frame _ _) in H.
rewrite (sort_values_one R "Year" df3 jy Hjy) in H.
injection H as <-.
exists jy, jd, g1, g2. split; [done|]. split; [done|].
split; [done|]. split; [done|].
subst df3 df2 df1. cbn [rows columns]. change (rows df0) with (rows lot).
rewrite (map_map (fun r => Row (label r) (<[jy := g1 (cell jy r)]> (cells r)))
                 (fun r => Row (label r) (<[jd := g2 (cell jd r)]> (cells r)))).
reflexivity.
Qed.

(** The output holds the rows that are complete after coercion, in some
order, under the renamed columns. *)
Lemma prep_series_shape lot out :
rectangular lot ->
empty lot = false ->
prep_series R src dst lot = Ok out ->
exists jy jd g1 g2,
  positions "Year" (columns (renamed lot)) 0 = [jy]
  /\ positions dst (columns (renamed lot)) 0 = [jd]
  /\ numeric_fn g1 /\ numeric_fn g2
  /\ jy <> jd
  /\ jy < length (columns lot) /\ jd < length (columns lot)
  /\ columns out = columns (renamed lot)
  /\ let rows2 := map (coerced jy jd g1 g2) (rows lot) in
     rows out ≡ₚ select (map (complete jy jd) rows2) rows2.
Proof.
intros Hrect Hne H.
destruct (prep_series_pipeline lot out Hne H)
  as (jy & jd & g1 & g2 & Hjy & Hjd & Hn1 & Hn2 & Hout).
pose proof (positions_apart _ _ _ _ _ (not_eq_sym dst_year) Hjy Hjd) as Hneq.
pose proof (positions_one _ _ _ Hjy) as [_ Hly].
pose proof (positions_one _ _ _ Hjd) as [_ Hld].
rewrite SeriesFacts.length_renamed in Hly, Hld.
exists jy, jd, g1, g2. repeat (split; [done|]).
cbv zeta in Hout. subst out. split; [done|]. cbn [rows].
set (rows2 := map (coerced jy jd g1 g2) (rows lot)).
set (rows3 := select (map (complete jy jd) rows2) rows2).
apply nargsort_rows_perm; rewrite ?length_map; try done.
apply argsort_perm, Forall_select.
rewrite map_fmap, Forall_fmap. apply Forall_forall. intros r3 Hr3.
apply elem_of_select in Hr3 as [Hr3 _].
unfold rows2 in Hr3. rewrite map_fmap in Hr3.
apply list_elem_of_fmap in Hr3 as (r0 & -> & Hr0).
destruct (SeriesFacts.coerced_cells lot jy jd g1 g2 r0 Hrect Hr0 Hly Hld Hneq)
  as (_ & Hcy & _).
simpl. rewrite Hcy. by apply numeric_fn_not_str.
Qed.


Lemma raw_value_cell lot r name j v :
positions name (columns (renamed lot)) 0 = [j] ->
raw_value src dst name lot r = Some v -> cell j r = v.
Proof. unfold raw_value, value_of. intros ->. apply cell_lookup. Qed.

Lemma prep_series_total lot :
named_once src dst "Year" lot -> named_once src dst dst lot ->
exists out, prep_series R src dst lot = Ok out.
Proof.
intros [jy Hjy]%length_one [jd Hjd]%length_one.
by eapply SeriesFacts.prep_series_returns.
Qed.

Lemma prep_series_keeps lot out :
rectangular lot -> NoDup (labels lot) ->
prep_series R src dst lot = Ok out ->
keeps_coercible R src dst lot out.
Proof.
intros Hrect Hnd H.
destruct (empty lot) eqn:Hempty.
{ unfold prep_series in H. rewrite Hempty in H. injection H as <-.
  split; [|by split]. intros r Hr (vy & _ & Hvy & _).
  apply empty_true in Hempty as [Hc|Hrows].
  - unfold raw_value, value_of in Hvy. simpl in Hvy. by rewrite Hc in Hvy.
  - rewrite Hrows in Hr. by apply elem_of_nil in Hr. }
destruct (prep_series_shape lot out Hrect Hempty H)
  as (jy & jd & g1 & g2 & Hjy & Hjd & Hn1 & Hn2 & Hneq & Hly & Hld & _ & Hperm).
cbv zeta in Hperm.
set (rows2 := map (coerced jy jd g1 g2) (rows lot)) in *.
assert (Hlab : map label rows2 = labels lot).
{ unfold rows2, labels. rewrite map_map. apply map_ext_in. intros r Hr.
  apply list_elem_of_In in Hr.
  by destruct (SeriesFacts.coerced_cells lot jy jd g1 g2 r Hrect Hr Hly Hld Hneq). }
assert (exists l, labels out ≡ₚ l /\ sublist l (labels lot))
  as (l & Hl & Hsub).
{ exists (map label (select (map (complete jy jd) rows2) rows2)). split.
  - unfold labels. rewrite !map_fmap. by apply fmap_Permutation.
  - rewrite <- select_map, Hlab. apply select_sublist. }
split; [|split].
- intros r Hr (vy & vd & Hvy & Hvd & Hy & Hd).
  apply (raw_value_cell lot r "Year" jy vy Hjy) in Hvy.
  apply (raw_value_cell lot r dst jd vd Hjd) in Hvd.
  destruct (SeriesFacts.coerced_cells lot jy jd g1 g2 r Hrect Hr Hly Hld Hneq)
    as (Hl0 & Hcy & Hcd).
  rewrite <- Hl0. unfold labels. rewrite map_fmap. apply list_elem_of_fmap.
  exists (coerced jy jd g1 g2 r). split; [done|].
  rewrite Hperm. apply elem_of_select. split.
  + unfold rows2. rewrite map_fmap. apply list_elem_of_fmap. by exists r.
  + unfold complete. rewrite Hcy, Hcd, Hvy, Hvd.
    rewrite (numeric_fn_isna g1 vy Hn1), (numeric_fn_isna g2 vd Hn2), Hy, Hd.
    done.
- rewrite Hl. by eapply sublist_NoDup.
- intros x Hx. rewrite Hl in Hx. by eapply sublist_subseteq.
Qed.


(** What a row of the output is: a row of the input whose coerced year and
metric are not missing. *)
Lemma prep_series_row lot out jy jd g1 g2 r' :
rectangular lot ->
jy <> jd -> jy < length (columns lot) -> jd < length (columns lot) ->
rows out ≡ₚ (let rows2 := map (coerced jy jd g1 g2) (rows lot) in
             select (map (complete jy jd) rows2) rows2) ->
r' ∈ rows out ->
exists r, r ∈ rows lot /\ r' = coerced jy jd g1 g2 r
          /\ label r' = label r
          /\ cell jy r' = g1 (cell jy r) /\ cell jd r' = g2 (cell jd r)
          /\ isna (cell jy r') = false /\ isna (cell jd r') = false.
Proof.
intros Hrect Hneq Hly Hld Hperm Hr'. cbv zeta in Hperm.
rewrite Hperm in Hr'. apply elem_of_select in Hr' as [Hr' Hc].
rewrite map_fmap in Hr'. apply list_elem_of_fmap in Hr' as (r & -> & Hr).
destruct (SeriesFacts.coerced_cells lot jy jd g1 g2 r Hrect Hr Hly Hld Hneq)
  as (Hl0 & Hcy & Hcd).
exists r. repeat (split; [done|]).
unfold complete in Hc. apply andb_prop in Hc as [Hc1 Hc2].
apply andb_prop in Hc2 as [Hc2 _].
by apply negb_true_iff in Hc1, Hc2.
Qed.

Lemma prep_series_numbers lot out :
rectangular lot -> empty lot = false ->
prep_series R src dst lot = Ok out ->
numbers_only "Year" out /\ numbers_only dst out.
Proof.
intros Hrect Hempty H.
destruct (prep_series_shape lot out Hrect Hempty H)
  as (jy & jd & g1 & g2 & Hjy & Hjd & Hn1 & Hn2 & Hneq & Hly & Hld & Hcols & Hperm).
unfold numbers_only, column_values. rewrite Hcols, Hjy, Hjd.
split; (split; [done|]); rewrite map_fmap, Forall_fmap; apply Forall_forall;
  intros r' Hr';
  destruct (prep_series_row lot out jy jd g1 g2 r' Hrect Hneq Hly Hld Hperm Hr')
    as (r & _ & _ & _ & Hcy & Hcd & Hy & Hd); split; simpl; try done.
- rewrite Hcy. by apply numeric_fn_not_str.
- rewrite Hcd. by apply numeric_fn_not_str.
Qed.

Lemma prep_series_others lot out :
rectangular lot -> empty lot = false ->
prep_series R src dst lot = Ok out ->
other_cells_kept src dst lot out.
Proof.
intros Hrect Hempty H.
destruct (prep_series_shape lot out Hrect Hempty H)
  as (jy & jd & g1 & g2 & Hjy & Hjd & Hn1 & Hn2 & Hneq & Hly & Hld & Hcols & Hperm).
split; [done|]. intros r' Hr'.
destruct (prep_series_row lot out jy jd g1 g2 r' Hrect Hneq Hly Hld Hperm Hr')
  as (r & Hr & -> & Hlab & _).
exists r. split; [done|]. split; [done|].
intros j name Hj Hny Hnd. rewrite Hcols in Hj.
apply positions_one in Hjy as [Hjy _], Hjd as [Hjd _].
unfold coerced. cbn [cells label].
rewrite !list_lookup_insert_ne; [done|congruence|congruence].
Qed.

Lemma prep_series_nothing lot out :
rectangular lot -> empty lot = false ->
nothing_coercible R src dst lot ->
prep_series R src dst lot = Ok out ->
rows out = [] /\ columns out <> [].
Proof.
intros Hrect Hempty Hnone H.
destruct (prep_series_shape lot out Hrect Hempty H)
  as (jy & jd & g1 & g2 & Hjy & Hjd & Hn1 & Hn2 & Hneq & Hly & Hld & Hcols & Hperm).
split.
- assert (Hall : forall r', r' ∈ rows out -> False);
    [|destruct (rows out) as [|r' rs]; [done|destruct (Hall r'); left]].
  intros r' Hr'.
  destruct (prep_series_row lot out jy jd g1 g2 r' Hrect Hneq Hly Hld Hperm Hr')
    as (r & Hr & _ & _ & Hcy & Hcd & Hy & Hd).
  destruct (Hnone r Hr) as (name & v & Hname & Hv & Hfail).
  unfold fails_coercion in Hfail.
  apply elem_of_cons in Hname as [->|Hname].
  + apply (raw_value_cell lot r "Year" jy v Hjy) in Hv.
    rewrite Hcy, Hv, (numeric_fn_isna g1 v Hn1) in Hy. congruence.
  + apply list_elem_of_singleton in Hname as ->.
    apply (raw_value_cell lot r dst jd v Hjd) in Hv.
    rewrite Hcd, Hv, (numeric_fn_isna g2 v Hn2) in Hd. congruence.
- rewrite Hcols. intros Hnil. simpl in Hnil. apply fmap_nil_inv in Hnil.
  apply empty_false in Hempty as [Hc _]. done.
Qed.

Lemma prep_series_some lot out r :
rectangular lot -> NoDup (labels lot) ->
r ∈ rows lot -> coercible R src dst lot r ->
prep_series R src dst lot = Ok out ->
empty out = false.
Proof.
intros Hrect Hnd Hr Hco H.
destruct (prep_series_keeps lot out Hrect Hnd H) as (Hkeep & _).
specialize (Hkeep r Hr Hco).
destruct (empty lot) eqn:Hempty.
{ apply empty_true in Hempty as [Hc|Hrows].
  - destruct Hco as (vy & _ & Hvy & _).
    unfold raw_value, value_of in Hvy. simpl in Hvy. by rewrite Hc in Hvy.
  - rewrite Hrows in Hr. by apply elem_of_nil in Hr. }
destruct (prep_series_shape lot out Hrect Hempty H)
  as (jy & jd & g1 & g2 & Hjy & _ & _ & _ & _ & _ & _ & Hcols & _).
unfold empty. rewrite Hcols.
apply empty_false in Hempty as [Hc _]. simpl.
destruct (columns lot) as [|c cs]; [done|]. simpl.
unfold labels in Hkeep. destruct (rows out); [|done].
by apply elem_of_nil in Hkeep.
Qed.

Lemma prep_series_no_year lot :
empty lot = false -> unnamed src dst "Year" lot ->
prep_series R src dst lot = Raise (KeyError "Year").
Proof.
intros Hempty Hno. unfold prep_series, getitem. rewrite Hempty.
unfold unnamed in Hno. by rewrite Hno.
Qed.

End Shaper.

(** ** The two chart sections *)

Section Sections.
Variables (R : Runtime) (title warning caption metric button file_name : string).
Variable style : string.

Local Abbreviation section line :=
(series_section title warning caption metric button file_name R line style).

Lemma series_section_raises e :
section (Raise e) = ([Markdown title], Uncaught e).
Proof. reflexivity. Qed.

Lemma series_section_warns line :
empty line = true ->
section (Ok line) = ([Markdown title; Warning warning], Done tt).
Proof. intros H. unfold series_section. simpl. by rewrite H. Qed.

Lemma series_section_no_source line jy jd :
empty line = false ->
positions "Year" (columns line) 0 = [jy] ->
positions metric (columns line) 0 = [jd] ->
positions "Source" (columns line) 0 = [] ->
section (Ok line)
= ([Markdown title;
    PlotlyChart (Scatter (map (cell jy) (rows line)) (map (cell jd) (rows line))
                         (mode_choice style));
    Caption caption],
   Uncaught (KeyError "['Source'] not in index")).
Proof.
intros He Hy Hd Hs. unfold series_section. simpl. rewrite He.
rewrite (getitem_one _ _ _ jy Hy). simpl.
rewrite (getitem_one _ _ _ jd Hd). simpl.
unfold getitem_list, missing. simpl.
rewrite (has_column_here _ _ _ Hy), (has_column_here _ _ _ Hd),
  (has_column_nowhere _ _ Hs).
reflexivity.
Qed.

End Sections.
End ShaperFacts.

Module ShaperClaims.
Import Py Np Pd St App Spec SeriesSpec ShaperSpec Contract Samples Cases.
Import ShaperFacts.

Local Abbreviation lottery_pct := "under30_lottery_pct".
Local Abbreviation LotteryPct := "Under30LotteryPct".
Local Abbreviation crypto_pct := "under30_crypto_pct".
Local Abbreviation CryptoPct := "Under30CryptoPct".

(** X6. Given one year column and one metric column, [prep_lottery] and
    [prep_crypto] return, and lose no row they should keep: every row of
    the input whose year and metric both coerce to a number is in the
    output, which holds rows of the input only, none of them twice (rows
    are told apart by their index labels). *)
Theorem shapers_keep_numeric_rows (R : Runtime) (lot : DataFrame) :
  RuntimeOk R -> rectangular lot -> NoDup (labels lot) ->
  (named_once lottery_pct LotteryPct "Year" lot ->
   named_once lottery_pct LotteryPct LotteryPct lot ->
   exists out, prep_lottery R lot = Ok out
               /\ keeps_coercible R lottery_pct LotteryPct lot out)
  /\ (named_once crypto_pct CryptoPct "Year" lot ->
      named_once crypto_pct CryptoPct CryptoPct lot ->
      exists out, prep_crypto R lot = Ok out
                  /\ keeps_coercible R crypto_pct CryptoPct lot out).
Proof.
  intros ok Hrect Hnd. split; intros Hy Hd.
  - destruct (prep_series_total R _ _ lot Hy Hd) as [out Hout].
    exists out. split; [done|]. eapply prep_series_keeps; eauto; done.
  - destruct (prep_series_total R _ _ lot Hy Hd) as [out Hout].
    exists out. split; [done|]. eapply prep_series_keeps; eauto; done.
Qed.

Lemma shapers_keep_numeric_rows_witness :
  exists out, prep_lottery (Ref.runtime []) gallup_raw = Ok out
              /\ keeps_coercible (Ref.runtime []) lottery_pct LotteryPct
                                 gallup_raw out.
Proof.
  apply (proj1 (shapers_keep_numeric_rows (Ref.runtime []) gallup_raw
                  (RefFacts.runtime_ok [])
                  ltac:(repeat constructor)
                  ltac:(apply (bool_decide_unpack _); vm_compute; reflexivity)));
    reflexivity.
Defined.

(** X7. On a table that is not empty, the year and the metric columns of
    what [prep_lottery] and [prep_crypto] return hold numbers only:
    no text and no missing value reaches the chart. *)
Theorem shapers_return_numbers (R : Runtime) (lot : DataFrame) :
  RuntimeOk R -> rectangular lot -> empty lot = false ->
  (named_once lottery_pct LotteryPct "Year" lot ->
   named_once lottery_pct LotteryPct LotteryPct lot ->
   exists out, prep_lottery R lot = Ok out
               /\ numbers_only "Year" out /\ numbers_only LotteryPct out)
  /\ (named_once crypto_pct CryptoPct "Year" lot ->
      named_once crypto_pct CryptoPct CryptoPct lot ->
      exists out, prep_crypto R lot = Ok out
                  /\ numbers_only "Year" out /\ numbers_only CryptoPct out).
Proof.
  intros ok Hrect Hne. split; intros Hy Hd.
  - destruct (prep_series_total R _ _ lot Hy Hd) as [out Hout].
    exists out. split; [done|]. eapply prep_series_numbers; eauto; done.
  - destruct (prep_series_total R _ _ lot Hy Hd) as [out Hout].
    exists out. split; [done|]. eapply prep_series_numbers; eauto; done.
Qed.

Lemma shapers_return_numbers_witness :
  exists out, prep_lottery (Ref.runtime []) gallup_raw = Ok out
              /\ numbers_only "Year" out /\ numbers_only LotteryPct out.
Proof.
  apply (proj1 (shapers_return_numbers (Ref.runtime []) gallup_raw
                  (RefFacts.runtime_ok [])
                  ltac:(repeat constructor) eq_refl));
    reflexivity.
Defined.

(** X8. On a table that is not empty, [prep_lottery] and [prep_crypto]
    return the columns of the input under their new names, and change
    no cell outside the year and the metric: every row of the output has,
    under every other column, the cell of the input row it comes from. *)
Theorem shapers_leave_other_cells (R : Runtime) (lot : DataFrame) :
  RuntimeOk R -> rectangular lot -> empty lot = false ->
  (named_once lottery_pct LotteryPct "Year" lot ->
   named_once lottery_pct LotteryPct LotteryPct lot ->
   exists out, prep_lottery R lot = Ok out
               /\ other_cells_kept lottery_pct LotteryPct lot out)
  /\ (named_once crypto_pct CryptoPct "Year" lot ->
      named_once crypto_pct CryptoPct CryptoPct lot ->
      exists out, prep_crypto R lot = Ok out
                  /\ other_cells_kept crypto_pct CryptoPct lot out).
Proof.
  intros ok Hrect Hne. split; intros Hy Hd.
  - destruct (prep_series_total R _ _ lot Hy Hd) as [out Hout].
    exists out. split; [done|]. eapply prep_series_others; eauto; done.
  - destruct (prep_series_total R _ _ lot Hy Hd) as [out Hout].
    exists out. split; [done|]. eapply prep_series_others; eauto; done.
Qed.

Lemma shapers_leave_other_cells_witness :
  exists out, prep_lottery (Ref.runtime []) gallup_raw = Ok out
              /\ other_cells_kept lottery_pct LotteryPct gallup_raw out.
Proof.
  apply (proj1 (shapers_leave_other_cells (Ref.runtime []) gallup_raw
                  (RefFacts.runtime_ok [])
                  ltac:(repeat constructor) eq_refl));
    reflexivity.
Defined.

(** X9. A table that is not empty and has no year column makes
    [prep_lottery] and [prep_crypto] raise [KeyError: 'Year']; nothing
    catches it, so the run ends right after the heading of the section,
    without the section's warning. *)
Theorem shapers_without_year_column (R : Runtime) (lot : DataFrame)
  (style : string) :
  empty lot = false ->
  (unnamed lottery_pct LotteryPct "Year" lot ->
   prep_lottery R lot = Raise (KeyError "Year")
   /\ exists title,
        gallup_section R lot style = ([Markdown title], Uncaught (KeyError "Year")))
  /\ (unnamed crypto_pct CryptoPct "Year" lot ->
      prep_crypto R lot = Raise (KeyError "Year")
      /\ exists title,
           crypto_section R lot style
           = ([Markdown title], Uncaught (KeyError "Year"))).
Proof.
  intros Hne. split; intros Hno.
  - pose proof (prep_series_no_year R _ _ lot Hne Hno) as H.
    split; [done|]. eexists. unfold gallup_section, prep_lottery. rewrite H.
    apply series_section_raises.
  - pose proof (prep_series_no_year R _ _ lot Hne Hno) as H.
    split; [done|]. eexists. unfold crypto_section, prep_crypto. rewrite H.
    apply series_section_raises.
Qed.

Lemma shapers_without_year_column_witness :
  prep_lottery (Ref.runtime []) gallup_no_year = Raise (KeyError "Year")
  /\ exists title,
       gallup_section (Ref.runtime []) gallup_no_year "Markers only"
       = ([Markdown title], Uncaught (KeyError "Year")).
Proof.
  apply (proj1 (shapers_without_year_column (Ref.runtime []) gallup_no_year
                  "Markers only" eq_refl)).
  reflexivity.
Defined.

(** X10. When every row has a year or a metric that does not coerce to a
    number, the section shows its heading and its warning and no chart:
    a table emptied by the shaper is treated like a missing file. *)
Theorem sections_warn_when_nothing_is_left (R : Runtime) (lot : DataFrame)
  (style : string) :
  RuntimeOk R -> rectangular lot ->
  (named_once lottery_pct LotteryPct "Year" lot ->
   named_once lottery_pct LotteryPct LotteryPct lot ->
   nothing_coercible R lottery_pct LotteryPct lot ->
   exists title warning,
     gallup_section R lot style = ([Markdown title; Warning warning], Done tt))
  /\ (named_once crypto_pct CryptoPct "Year" lot ->
      named_once crypto_pct CryptoPct CryptoPct lot ->
      nothing_coercible R crypto_pct CryptoPct lot ->
      exists title warning,
        crypto_section R lot style = ([Markdown title; Warning warning], Done tt)).
Proof.
  intros ok Hrect.
  assert (Hempty : forall src dst out,
            dst <> "Year" -> nothing_coercible R src dst lot ->
            prep_series R src dst lot = Ok out -> empty out = true).
  { intros src dst out Hdst Hnone Hout. destruct (empty lot) eqn:He.
    - unfold prep_series in Hout. rewrite He in Hout. by injection Hout as <-.
    - destruct (prep_series_nothing R src dst ok Hdst lot out Hrect He Hnone Hout)
        as [Hrows _].
      unfold empty. rewrite Hrows. by destruct (columns out). }
  split; intros Hy Hd Hnone.
  - destruct (prep_series_total R _ _ lot Hy Hd) as [out Hout].
    eexists _, _. unfold gallup_section, prep_lottery. rewrite Hout.
    apply series_section_warns. by apply (Hempty lottery_pct LotteryPct out).
  - destruct (prep_series_total R _ _ lot Hy Hd) as [out Hout].
    eexists _, _. unfold crypto_section, prep_crypto. rewrite Hout.
    apply series_section_warns. by apply (Hempty crypto_pct CryptoPct out).
Qed.


Lemma sections_warn_when_nothing_is_left_witness :
  exists title warning,
    gallup_section (Ref.runtime []) gallup_all_text "Lines + markers"
    = ([Markdown title; Warning warning], Done tt).
Proof.
  apply (proj1 (sections_warn_when_nothing_is_left (Ref.runtime [])
                  gallup_all_text "Lines + markers" (RefFacts.runtime_ok [])
                  ltac:(repeat constructor)));
    [reflexivity|reflexivity|].
  intros r Hr. apply list_elem_of_In in Hr. vm_compute in Hr.
  destruct Hr as [<-|[<-|[]]].
  - exists "Year", (SStr "n/a"). split; [left|]. split; reflexivity.
  - exists LotteryPct, (SStr "?"). split; [right; left|]. split; reflexivity.
Defined.

(** X11. With a year and a metric column but no source column, and at
    least one row whose year and metric are numbers, the section draws
    its chart and its caption, and then the run ends on an uncaught
    [KeyError] where the columns of the download are selected: no
    download button is shown, and nothing that follows in the script. *)
Theorem sections_without_source_column (R : Runtime) (lot : DataFrame)
  (style : string) (r : row) :
  RuntimeOk R -> rectangular lot -> NoDup (labels lot) -> r ∈ rows lot ->
  (named_once lottery_pct LotteryPct "Year" lot ->
   named_once lottery_pct LotteryPct LotteryPct lot ->
   unnamed lottery_pct LotteryPct "Source" lot ->
   coercible R lottery_pct LotteryPct lot r ->
   exists title x y caption,
     gallup_section R lot style
     = ([Markdown title; PlotlyChart (Scatter x y (mode_choice style));
         Caption caption],
        Uncaught (KeyError "['Source'] not in index")))
  /\ (named_once crypto_pct CryptoPct "Year" lot ->
      named_once crypto_pct CryptoPct CryptoPct lot ->
      unnamed crypto_pct CryptoPct "Source" lot ->
      coercible R crypto_pct CryptoPct lot r ->
      exists title x y caption,
        crypto_section R lot style
        = ([Markdown title; PlotlyChart (Scatter x y (mode_choice style));
            Caption caption],
           Uncaught (KeyError "['Source'] not in index"))).
Proof.
  intros ok Hrect Hnd Hr.
  assert (Hgen : forall src dst out,
            dst <> "Year" -> unnamed src dst "Source" lot ->
            coercible R src dst lot r ->
            prep_series R src dst lot = Ok out ->
            empty out = false
            /\ exists jy jd,
                 positions "Year" (columns out) 0 = [jy]
                 /\ positions dst (columns out) 0 = [jd]
                 /\ positions "Source" (columns out) 0 = []).
  { intros src dst out Hdst Hno Hco Hout.
    pose proof (prep_series_some R src dst ok Hdst lot out r Hrect Hnd Hr Hco Hout)
      as He.
    split; [done|]. destruct (empty lot) eqn:Hel.
    { unfold prep_series in Hout. rewrite Hel in Hout. injection Hout as <-.
      congruence. }
    destruct (prep_series_shape R src dst ok Hdst lot out Hrect Hel Hout)
      as (jy & jd & _ & _ & Hjy & Hjd & _ & _ & _ & _ & _ & Hcols & _).
    exists jy, jd. by rewrite Hcols. }
  split; intros Hy Hd Hno Hco.
  - destruct (prep_series_total R _ _ lot Hy Hd) as [out Hout].
    destruct (Hgen lottery_pct LotteryPct out ltac:(done) Hno Hco Hout)
      as (He & jy & jd & Hjy & Hjd & Hjs).
    eexists _, _, _, _. unfold gallup_section, prep_lottery. rewrite Hout.
    by apply series_section_no_source.
  - destruct (prep_series_total R _ _ lot Hy Hd) as [out Hout].
    destruct (Hgen crypto_pct CryptoPct out ltac:(done) Hno Hco Hout)
      as (He & jy & jd & Hjy & Hjd & Hjs).
    eexists _, _, _, _. unfold crypto_section, prep_crypto. rewrite Hout.
    by apply series_section_no_source.
Qed.

Lemma sections_without_source_column_witness :
  exists title x y caption,
    gallup_section (Ref.runtime []) gallup_no_source "Markers only"
    = ([Markdown title; PlotlyChart (Scatter x y (mode_choice "Markers only"));
        Caption caption],
       Uncaught (KeyError "['Source'] not in index")).
Proof.
  apply (proj1 (sections_without_source_column (Ref.runtime [])
                  gallup_no_source "Markers only"
                  (Row 0 [SInt 2016; SInt 61])
                  (RefFacts.runtime_ok [])
                  ltac:(repeat constructor)
                  ltac:(apply (bool_decide_unpack _); vm_compute; reflexivity)
                  ltac:(left)));
    [reflexivity|reflexivity|reflexivity|].
  exists (SInt 2016), (SInt 61). repeat split.
Defined.

End ShaperClaims.

(* ===================================================================== *)
(** * More on the Spend Shaper and its section *)
(* ===================================================================== *)

Module SpendFacts.
Import Py Np Pd St App Spec BlsSpec SpendSpec Contract BlsPipeline.
Import ListFacts FloatFacts FrameFacts BlsFacts ShaperFacts.

Lemma StronglySorted_lookup {A} (le : A -> A -> Prop) (l : list A) i j x y :
  StronglySorted le l -> i < j -> l !! i = Some x -> l !! j = Some y -> le x y.
Proof.
  intros H. revert i j. induction H as [|a l Hl IH Ha]; intros i j Hij Hi Hj;
    [done|].
  destruct j as [|j]; [lia|]. simpl in Hj. destruct i as [|i]; simpl in Hi.
  - injection Hi as <-. eapply Forall_forall in Ha; [done|].
    by eapply list_elem_of_lookup_2.
  - apply (IH i j); [lia|done|done].
Qed.

Lemma index_of_Some x l i : index_of x l = Some i -> x ∈ l.
Proof.
  revert i. induction l as [|y l IH]; intros i; simpl; [done|].
  case_bool_decide as E; [subst; intros _; left|].
  destruct (index_of x l) as [k|] eqn:Ek; [|done]. intros _. right. by eapply IH.
Qed.

Section Spend.
Variable R : Runtime.

Local Abbreviation renamed bls_in :=
(rename {[ "age_group" := "AgeGroup";
           "avg_annual_spend_usd" := "AvgAnnualSpend" ]} bls_in).

Lemma has_column_one name df j :
positions name (columns df) 0 = [j] -> has_column name df = true.
Proof. intros H. apply has_column_positions. by rewrite H. Qed.

Lemma has_column_none name df :
positions name (columns df) 0 = [] -> has_column name df = false.
Proof.
intros H. apply not_true_is_false. rewrite has_column_positions, H.
intros Hn. by apply Hn.
Qed.

Lemma text_labels_dtype bls_in jg :
positions "AgeGroup" (columns (renamed bls_in)) 0 = [jg] ->
text_labels bls_in -> dtype_of (map (cell jg) (rows bls_in)) = Object.
Proof.
intros Hjg (r & x & Hr & Hx). unfold age_label, value_of in Hx.
rewrite Hjg in Hx. apply cell_lookup in Hx.
unfold dtype_of.
replace (existsb is_str (map (cell jg) (rows bls_in))) with true; [done|].
symmetry. apply existsb_exists. exists (SStr x). split; [|done].
rewrite <- Hx. apply in_map. by apply list_elem_of_In.
Qed.

Lemma no_text_labels_dtype bls_in jg :
positions "AgeGroup" (columns (renamed bls_in)) 0 = [jg] ->
no_text_labels bls_in -> dtype_of (map (cell jg) (rows bls_in)) <> Object.
Proof.
intros Hjg Hno. unfold dtype_of.
replace (existsb is_str (map (cell jg) (rows bls_in))) with false;
  [by destruct (forallb _ _)|].
symmetry. apply not_true_is_false. rewrite existsb_exists.
intros (v & Hv & Hstr). apply in_map_iff in Hv as (r & <- & Hr).
apply list_elem_of_In in Hr. unfold cell in Hstr.
destruct (cells r !! jg) as [v|] eqn:E; [|done]. simpl in Hstr.
assert (is_str v = false); [|congruence].
apply (Hno r v Hr). unfold age_label, value_of. by rewrite Hjg.
Qed.

(** With one text column of age groups and one column of annual spend
the shaper returns. *)
Lemma prep_bls_total bls_in jg ja :
positions "AgeGroup" (columns (renamed bls_in)) 0 = [jg] ->
positions "AvgAnnualSpend" (columns (renamed bls_in)) 0 = [ja] ->
text_labels bls_in ->
exists out, prep_bls R bls_in = Ok out.
Proof.
intros Hjg Hja Htext. unfold prep_bls. destruct (empty bls_in); [by eexists|].
set (df0 := renamed bls_in) in *.
rewrite (has_column_one _ df0 jg Hjg), (getitem_one _ _ df0 jg Hjg). cbn [rbind].
unfold str_lower. change (rows df0) with (rows bls_in).
rewrite (text_labels_dtype bls_in jg Hjg Htext). cbn [rbind].
set (df1 := getitem_mask _ df0).
rewrite (has_column_one _ df1 ja Hja), (getitem_one _ _ df1 ja Hja). cbn [rbind].
destruct (to_numeric_cellwise R (map (cell ja) (rows df1))) as (g & -> & _).
rewrite !map_map.
rewrite (setitem_rows "AvgMonthlySpend"
           (fun r => truediv (g (cell ja r)) twelve) df1).
set (df2 := Frame _ _).
assert (Hjg2 : positions "AgeGroup" (columns df2) 0 = [jg]).
{ unfold df2. cbn [columns]. by rewrite positions_put_other. }
rewrite (has_column_one _ df2 jg Hjg2), (getitem_one _ _ df2 jg Hjg2).
cbn [rbind]. unfold categorical. rewrite map_map.
rewrite (setitem_at "AgeGroup" _ df2 jg Hjg2).
set (df3 := Frame (columns df2) _).
rewrite (sort_values_categorical_one R "AgeGroup" df3 jg Hjg2). by eexists.
Qed.


(** With an age-group column: the rows of the output are the kept rows
with their bucket; the rows with a bucket come first, by rank, those
without one come last. *)
Lemma prep_bls_by_rank bls_in out jg :
RuntimeOk R -> rectangular bls_in ->
empty bls_in = false ->
positions "AgeGroup" (columns (renamed bls_in)) 0 = [jg] ->
prep_bls R bls_in = Ok out ->
exists (image : row -> row) (first : list row),
  (forall r, label (image r) = label r)
  /\ (forall r, r ∈ rows bls_in -> cell jg (image r) = bucket (cell jg r))
  /\ let rows3 := map image (select (map (kept jg) (rows bls_in)) (rows bls_in)) in
     let unmapped := fun r3 => eq_int (code age_order (cell jg r3)) (-1) in
     first ≡ₚ select (map (fun r3 => negb (unmapped r3)) rows3) rows3
     /\ rows out = first ++ select (map unmapped rows3) rows3
     /\ Sorted Z.le (map (fun r3 => as_i64 (code age_order (cell jg r3))) first).
Proof.
intros ok Hrect Hempty Hjg H.
destruct (prep_bls_rows R bls_in out Hempty H)
  as (rows1 & F2 & cols2 & H1 & H2 & Hg & H3).
set (cols0 := columns (renamed bls_in)) in *.
destruct H1 as [[Hno _]|(jg' & Hjg' & ->)]; [congruence|].
assert (jg' = jg) as -> by congruence.
rewrite Hjg in Hg.
destruct H3 as [[Hno _]|(jg2 & Hjg2 & ->)]; [congruence|].
assert (jg2 = jg) as -> by congruence.
pose proof (positions_one _ _ _ Hjg) as [Hcol Hlt].
assert (HF2 : (forall r, label (F2 r) = label r)
              /\ forall r, r ∈ rows bls_in ->
                           cells (F2 r) !! jg = cells r !! jg
                           /\ jg < length (cells (F2 r))).
{ assert (Hlen : forall r, r ∈ rows bls_in -> length (cells r) = length cols0).
  { intros r Hr. eapply Forall_forall in Hrect; [|exact Hr]. simpl in Hrect.
    by rewrite <- (length_renamed_bls bls_in) in Hrect. }
  destruct H2 as [(_ & -> & _)|(ja & g & _ & _ & -> & _)].
  - split; [done|]. intros r Hr. split; [done|]. by rewrite (Hlen r Hr).
  - split; [done|]. intros r Hr.
    assert (Hsame : cells (with_monthly g ja (positions "AvgMonthlySpend" cols0 0) r) !! jg
                    = cells r !! jg)
      by (by eapply (with_monthly_other cols0); eauto).
    split; [done|]. apply lookup_lt_is_Some. rewrite Hsame.
    apply lookup_lt_is_Some. by rewrite (Hlen r Hr). }
destruct HF2 as [HF2l HF2c].
set (image := fun r => with_bucket jg (F2 r)).
set (rows3 := map image (select (map (kept jg) (rows bls_in)) (rows bls_in))).
set (codes := map (code age_order) (map (cell jg) rows3)).
set (mask := map (fun c => eq_int c (-1)) codes).
assert (Hmask : mask = map (fun r3 => eq_int (code age_order (cell jg r3)) (-1))
                           rows3).
{ unfold mask, codes. by rewrite !map_map. }
exists image,
  (itake (argsort R (select (map negb mask) codes))
         (select (map negb mask) rows3)).
split; [done|]. split.
{ intros r Hr. destruct (HF2c r Hr) as [Hsame Hlen].
  unfold image, with_bucket. rewrite cell_insert_eq by done.
  f_equal. unfold cell. by rewrite Hsame. }
cbv zeta. fold rows3. split; [|split].
- rewrite <- (map_map (fun r3 => eq_int (code age_order (cell jg r3)) (-1)) negb).
  rewrite <- Hmask. apply itake_perm. unfold codes.
  rewrite (argsort_codes_perm R ok) by done.
  rewrite (length_select_negb (map negb mask)
             (map (code age_order) (map (cell jg) rows3)) rows3)
    by (by rewrite !length_map).
  done.
- cbn [rows]. rewrite (map_map F2 (with_bucket jg)). fold image. fold rows3.
  unfold sorted_by_bucket. fold codes. fold mask.
  rewrite itake_nargsort by (unfold mask, codes; by rewrite !length_map).
  by rewrite Hmask.
- rewrite <- itake_map.
  assert (Hcodes : map (fun r3 => as_i64 (code age_order (cell jg r3)))
                       (select (map negb mask) rows3)
                   = map as_i64 (select (map negb mask) codes)).
  { unfold codes. rewrite !select_map, !map_map. done. }
  rewrite Hcodes. unfold argsort. rewrite dtype_ints.
  + apply (argsort_int_sorted R ok).
  + apply Forall_select. unfold codes.
    rewrite !map_fmap, !Forall_fmap. apply Forall_forall.
    intros r3 _. unfold compose, code.
    destruct (cell jg r3) as [x| |]; [destruct (index_of x age_order)| |];
      reflexivity.
Qed.


Lemma empty_vacuous bls_in r v :
empty bls_in = true -> r ∈ rows bls_in -> age_label bls_in r = Some v -> False.
Proof.
intros Hempty Hr Hv. apply empty_true in Hempty as [Hc|Hrows].
- unfold age_label, value_of in Hv. simpl in Hv. by rewrite Hc in Hv.
- rewrite Hrows in Hr. by apply elem_of_nil in Hr.
Qed.

Lemma prep_bls_in_order bls_in out :
RuntimeOk R -> rectangular bls_in -> NoDup (labels bls_in) ->
prep_bls R bls_in = Ok out ->
in_bucket_order bls_in out.
Proof.
intros ok Hrect Hnd H r1 r2 v1 v2 i1 i2 Hr1 Hr2 Hv1 Hv2 Hi1 Hi2 Hlt.
destruct (empty bls_in) eqn:Hempty; [by destruct (empty_vacuous bls_in r1 v1)|].
unfold age_label, value_of in Hv1, Hv2.
destruct (positions "AgeGroup" (columns (renamed bls_in)) 0)
  as [|jg [|??]] eqn:Hjg; try done.
destruct (prep_bls_by_rank bls_in out jg ok Hrect Hempty Hjg H)
  as (image & first & Hlab & Hcell & Hfirst & Hout & Hsorted).
cbv zeta in Hfirst, Hout.
set (rows3 := map image (select (map (kept jg) (rows bls_in)) (rows bls_in))) in *.
assert (Himage : forall r v i, r ∈ rows bls_in -> cells r !! jg = Some v ->
          bucket_index v = Some i ->
          exists p, first !! p = Some (image r)
                    /\ as_i64 (code age_order (cell jg (image r))) = Z.of_nat i).
{ intros r v i Hr Hv Hi. destruct v as [x| |]; try done. cbn [bucket_index] in Hi.
  pose proof (index_of_Some x age_order i Hi) as Hx.
  assert (Hin : image r ∈ first).
  { rewrite Hfirst. apply elem_of_select. split.
    - unfold rows3. rewrite map_fmap. apply list_elem_of_fmap_2.
      apply elem_of_select. split; [done|].
      eapply kept_not_all_ages; [done|]. intros (y & [= <-] & Hy).
      by apply (bucket_is_no_all_ages x).
    - rewrite (Hcell r Hr), (cell_lookup _ _ _ Hv).
      rewrite bucket_code_in; [done|]. by exists x. }
  apply list_elem_of_lookup in Hin as [p Hp]. exists p. split; [done|].
  rewrite (Hcell r Hr), (cell_lookup _ _ _ Hv). unfold bucket.
  rewrite bool_decide_eq_true_2 by done. unfold code. by rewrite Hi. }
destruct (Himage r1 v1 i1 Hr1 Hv1 Hi1) as (p1 & Hp1 & Hc1).
destruct (Himage r2 v2 i2 Hr2 Hv2 Hi2) as (p2 & Hp2 & Hc2).
apply Sorted_StronglySorted in Hsorted; [|intros ???; lia].
set (f := fun r3 => as_i64 (code age_order (cell jg r3))) in *.
assert (Hf : forall p r, first !! p = Some r -> map f first !! p = Some (f r)).
{ intros p r Hp. by rewrite map_fmap, list_lookup_fmap, Hp. }
assert (Hp12 : p1 < p2).
{ destruct (Nat.lt_trichotomy p1 p2) as [?|[->|Hgt]]; [done| |].
  - assert (image r1 = image r2) as Heq by congruence.
    rewrite Heq in Hc1. lia.
  - pose proof (StronglySorted_lookup Z.le (map f first) p2 p1 _ _ Hsorted Hgt
                  (Hf _ _ Hp2) (Hf _ _ Hp1)) as Hle.
    unfold f in Hle. lia. }
assert (Hl : forall p r, first !! p = Some (image r) ->
                         labels out !! p = Some (label r)).
{ intros p r Hp. unfold labels. rewrite Hout, map_fmap, list_lookup_fmap.
  rewrite lookup_app_l by (by eapply lookup_lt_Some).
  by rewrite Hp, <- Hlab. }
exists p1, p2. split; [by apply Hl|]. split; [by apply Hl|done].
Qed.

Lemma prep_bls_keeps bls_in out :
RuntimeOk R -> rectangular bls_in -> NoDup (labels bls_in) ->
prep_bls R bls_in = Ok out ->
keeps_all_but_all_ages bls_in out.
Proof.
intros ok Hrect Hnd H.
destruct (empty bls_in) eqn:Hempty.
{ unfold prep_bls in H. rewrite Hempty in H. injection H as <-.
  split; [|by split]. intros r Hr _. unfold labels. rewrite map_fmap.
  by apply list_elem_of_fmap_2. }
destruct (positions "AgeGroup" (columns (renamed bls_in)) 0)
  as [|jg [|??]] eqn:Hjg.
- (* no age-group column: every row is kept, in its place *)
  destruct (prep_bls_rows R bls_in out Hempty H)
    as (rows1 & F2 & cols2 & H1 & H2 & Hg & H3).
  rewrite Hjg in Hg.
  destruct H1 as [[_ ->]|(jg & Hjg' & _)]; [|congruence].
  destruct H3 as [[_ ->]|(jg & Hjg' & _)]; [|congruence].
  assert (Hl : labels (Frame cols2 (map F2 (rows bls_in))) = labels bls_in).
  { unfold labels. cbn [rows]. rewrite map_map. apply map_ext. intros r.
    by destruct H2 as [(_ & -> & _)|(ja & g & _ & _ & -> & _)]. }
  unfold keeps_all_but_all_ages. rewrite Hl. split; [|by split].
  intros r Hr _. unfold labels. rewrite map_fmap. by apply list_elem_of_fmap_2.
- destruct (prep_bls_by_rank bls_in out jg ok Hrect Hempty Hjg H)
    as (image & first & Hlab & Hcell & Hfirst & Hout & _).
  cbv zeta in Hfirst, Hout.
  set (rows3 := map image (select (map (kept jg) (rows bls_in)) (rows bls_in))) in *.
  assert (Hperm : rows out ≡ₚ rows3).
  { rewrite Hout, Hfirst.
    rewrite <- (map_map (fun r3 => eq_int (code age_order (cell jg r3)) (-1)) negb).
    apply select_partition. by rewrite length_map. }
  assert (Hl : labels out ≡ₚ select (map (kept jg) (rows bls_in)) (labels bls_in)).
  { unfold labels. rewrite !map_fmap, Hperm. unfold rows3.
    rewrite <- !map_fmap, map_map.
    rewrite (map_ext _ label) by (intros; apply Hlab).
    by rewrite select_map. }
  assert (Hsub : sublist (select (map (kept jg) (rows bls_in)) (labels bls_in))
                         (labels bls_in)) by apply select_sublist.
  split; [|split].
  + intros r Hr Hna. rewrite Hl. unfold labels. rewrite select_map, map_fmap.
    apply list_elem_of_fmap_2, elem_of_select. split; [done|].
    destruct (cells r !! jg) as [v|] eqn:Ev.
    * eapply kept_not_all_ages; [done|]. apply Hna.
      unfold age_label, value_of. by rewrite Hjg.
    * unfold kept, cell. by rewrite Ev.
  + rewrite Hl. by eapply sublist_NoDup.
  + intros x Hx. rewrite Hl in Hx. by eapply sublist_subseteq.
- destruct (prep_bls_rows R bls_in out Hempty H)
    as (rows1 & F2 & cols2 & H1 & _).
  destruct H1 as [[? _]|(jg' & ? & _)]; congruence.
Qed.


Lemma bls_section_raises bls_raw e :
prep_bls R bls_raw = Raise e ->
exists title, bls_section R bls_raw = ([Markdown title], Uncaught e).
Proof. intros H. eexists. unfold bls_section. rewrite H. reflexivity. Qed.

Lemma prep_bls_numeric_labels bls_in :
empty bls_in = false ->
spend_columns "AgeGroup" bls_in = 1 ->
no_text_labels bls_in ->
prep_bls R bls_in = Raise AttributeError.
Proof.
intros Hempty [jg Hjg]%length_one Hno. unfold prep_bls. rewrite Hempty.
set (df0 := renamed bls_in) in *.
rewrite (has_column_one _ df0 jg Hjg), (getitem_one _ _ df0 jg Hjg). cbn [rbind].
unfold str_lower. change (rows df0) with (rows bls_in).
pose proof (no_text_labels_dtype bls_in jg Hjg Hno) as Hd.
by destruct (dtype_of (map (cell jg) (rows bls_in))).
Qed.

(** Without an age-group column nothing is filtered and nothing is
ordered. *)
Lemma prep_bls_no_age_group bls_in :
empty bls_in = false ->
spend_columns "AgeGroup" bls_in = 0 ->
spend_columns "AvgAnnualSpend" bls_in <= 1 ->
exists out, prep_bls R bls_in = Ok out
            /\ labels out = labels bls_in
            /\ empty out = false
            /\ positions "AgeGroup" (columns out) 0 = [].
Proof.
intros Hempty Hg Ha. unfold spend_columns in Hg, Ha.
apply length_zero_iff_nil in Hg.
unfold prep_bls. rewrite Hempty.
set (df0 := renamed bls_in) in *.
assert (He0 : empty df0 = false).
{ apply empty_false in Hempty as [Hc Hr]. unfold empty, df0. simpl.
  destruct (columns bls_in); [done|]. by destruct (rows bls_in). }
rewrite (has_column_none _ df0 Hg). cbn [rbind].
destruct (positions "AvgAnnualSpend" (columns df0) 0) as [|ja [|??]] eqn:Hja;
  [| |simpl in Ha; lia].
- rewrite (has_column_none _ df0 Hja). cbn [rbind].
  rewrite (has_column_none _ df0 Hg). by exists df0.
- rewrite (has_column_one _ df0 ja Hja), (getitem_one _ _ df0 ja Hja).
  cbn [rbind].
  destruct (to_numeric_cellwise R (map (cell ja) (rows df0))) as (g & -> & _).
  rewrite !map_map.
  rewrite (setitem_rows "AvgMonthlySpend"
             (fun r => truediv (g (cell ja r)) twelve) df0).
  set (df2 := Frame _ _).
  assert (Hg2 : positions "AgeGroup" (columns df2) 0 = []).
  { unfold df2. cbn [columns]. by rewrite positions_put_other. }
  rewrite (has_column_none _ df2 Hg2). exists df2. split; [done|].
  split; [|split; [|done]].
  + unfold labels, df2. cbn [rows]. by rewrite map_map.
  + apply empty_false in He0 as [Hc Hr]. unfold empty, df2. cbn [columns rows].
    unfold put_columns.
    destruct (rows df0); [done|].
    destruct (positions "AvgMonthlySpend" (columns df0) 0);
      by destruct (columns df0).
Qed.

Lemma bls_section_no_age_group bls_raw out :
prep_bls R bls_raw = Ok out ->
empty out = false ->
positions "AgeGroup" (columns out) 0 = [] ->
exists title,
  bls_section R bls_raw = ([Markdown title], Uncaught (KeyError "AgeGroup")).
Proof.
intros H He Hg. eexists. unfold bls_section. rewrite H. simpl. rewrite He.
unfold getitem. rewrite Hg. reflexivity.
Qed.


(** The columns of the output, when the age groups and the annual spend
are there once. *)
Lemma prep_bls_columns bls_in out jg ja name :
empty bls_in = false ->
positions "AgeGroup" (columns (renamed bls_in)) 0 = [jg] ->
positions "AvgAnnualSpend" (columns (renamed bls_in)) 0 = [ja] ->
prep_bls R bls_in = Ok out ->
positions "AgeGroup" (columns out) 0 = [jg]
/\ positions "AvgAnnualSpend" (columns out) 0 = [ja]
/\ (name <> "AvgMonthlySpend" ->
    positions name (columns out) 0
    = positions name (columns (renamed bls_in)) 0)
/\ (length (positions "AvgMonthlySpend" (columns (renamed bls_in)) 0) <= 1 ->
    exists jm, positions "AvgMonthlySpend" (columns out) 0 = [jm]).
Proof.
intros Hempty Hjg Hja H.
destruct (prep_bls_rows R bls_in out Hempty H)
  as (rows1 & F2 & cols2 & _ & H2 & Hg & H3).
set (cols0 := columns (renamed bls_in)) in *.
assert (Hcols : columns out = cols2).
{ by destruct H3 as [[_ ->]|(jg' & _ & ->)]. }
destruct H2 as [(Hno & _)|(ja' & g & _ & _ & _ & ->)]; [congruence|].
rewrite Hcols. split; [by rewrite positions_put_other|].
split; [by rewrite positions_put_other|]. split.
- intros Hname. by rewrite positions_put_other.
- intros Hle. unfold put_columns.
  destruct (positions "AvgMonthlySpend" cols0 0) as [|jm [|??]] eqn:Hjm;
    [| |simpl in Hle; lia].
  + exists (length cols0). by apply positions_snoc_new.
  + exists jm. done.
Qed.

Lemma bls_section_no_year bls_raw out jg jm :
prep_bls R bls_raw = Ok out ->
empty out = false ->
positions "AgeGroup" (columns out) 0 = [jg] ->
positions "AvgMonthlySpend" (columns out) 0 = [jm] ->
positions "AvgAnnualSpend" (columns out) 0 <> [] ->
positions "year" (columns out) 0 = [] ->
exists title caption,
  bls_section R bls_raw
  = ([Markdown title;
      PlotlyChart (Bar (map (astype_str R) (map (cell jg) (rows out)))
                       (map (cell jm) (rows out)));
      Caption caption],
     Uncaught (KeyError
                 (if bool_decide (positions "source" (columns out) 0 = [])
                  then "['year', 'source'] not in index"
                  else "['year'] not in index"))).
Proof.
intros H He Hg Hm Ha Hy. eexists _, _. unfold bls_section. rewrite H. simpl.
rewrite He.
rewrite (getitem_one _ _ _ jg Hg). simpl.
rewrite (getitem_one _ _ _ jm Hm). simpl.
unfold getitem_list, missing. simpl.
rewrite (has_column_here _ _ _ Hg), (has_column_here _ _ _ Hm),
  (has_column_nowhere _ _ Hy).
apply has_column_positions in Ha. rewrite Ha.
case_bool_decide as Hs.
- rewrite (has_column_nowhere _ _ Hs). reflexivity.
- apply has_column_positions in Hs. rewrite Hs. reflexivity.
Qed.

End Spend.
End SpendFacts.

Module SpendClaims.
Import Py Np Pd St App Spec BlsSpec SpendSpec Contract Samples SpendCases.
Import ShaperFacts SpendFacts.

(** X12. Given one text column of age groups and one column of annual
    spend, [prep_bls] returns, and the rows labelled with buckets stand
    in the order of [age_order]: a row whose bucket comes earlier in the
    list stands above every row whose bucket comes later. *)
Theorem spend_shaper_orders_buckets (R : Runtime) (bls_in : DataFrame) :
  RuntimeOk R -> rectangular bls_in -> NoDup (labels bls_in) ->
  spend_columns "AgeGroup" bls_in = 1 ->
  spend_columns "AvgAnnualSpend" bls_in = 1 ->
  text_labels bls_in ->
  exists out, prep_bls R bls_in = Ok out /\ in_bucket_order bls_in out.
Proof.
  intros ok Hrect Hnd [jg Hjg]%length_one [ja Hja]%length_one Htext.
  destruct (prep_bls_total R bls_in jg ja Hjg Hja Htext) as [out Hout].
  exists out. split; [done|]. by apply (prep_bls_in_order R).
Qed.

Lemma spend_shaper_orders_buckets_witness :
  exists out, prep_bls (Ref.runtime []) bls_raw = Ok out
              /\ in_bucket_order bls_raw out.
Proof.
  apply (spend_shaper_orders_buckets (Ref.runtime []) bls_raw
           (RefFacts.runtime_ok [])
           ltac:(repeat constructor)
           ltac:(apply (bool_decide_unpack _); vm_compute; reflexivity)
           eq_refl eq_refl).
  exists (Row 0 [SStr "25-34"; Ref.ratio 48384 100; SInt 2018; SStr "BLS"]),
         "25-34".
  split; [left|reflexivity].
Defined.

(** X13. Under the same conditions [prep_bls] loses no row but those
    labelled 'All ages': every other row of the input is in the output,
    which holds rows of the input only, none of them twice (rows are told
    apart by their index labels). *)
Theorem spend_shaper_keeps_the_rest (R : Runtime) (bls_in : DataFrame) :
  RuntimeOk R -> rectangular bls_in -> NoDup (labels bls_in) ->
  spend_columns "AgeGroup" bls_in = 1 ->
  spend_columns "AvgAnnualSpend" bls_in = 1 ->
  text_labels bls_in ->
  exists out, prep_bls R bls_in = Ok out /\ keeps_all_but_all_ages bls_in out.
Proof.
  intros ok Hrect Hnd [jg Hjg]%length_one [ja Hja]%length_one Htext.
  destruct (prep_bls_total R bls_in jg ja Hjg Hja Htext) as [out Hout].
  exists out. split; [done|]. by apply (prep_bls_keeps R).
Qed.

Lemma spend_shaper_keeps_the_rest_witness :
  exists out, prep_bls (Ref.runtime []) bls_raw = Ok out
              /\ keeps_all_but_all_ages bls_raw out.
Proof.
  apply (spend_shaper_keeps_the_rest (Ref.runtime []) bls_raw
           (RefFacts.runtime_ok [])
           ltac:(repeat constructor)
           ltac:(apply (bool_decide_unpack _); vm_compute; reflexivity)
           eq_refl eq_refl).
  exists (Row 0 [SStr "25-34"; Ref.ratio 48384 100; SInt 2018; SStr "BLS"]),
         "25-34".
  split; [left|reflexivity].
Defined.

(** X14. When the age-group column holds no text (numbers, or nothing),
    the [.str] accessor of the 'All ages' filter raises [AttributeError]:
    [prep_bls] fails, nothing catches it, and the run ends right after the
    heading of the section. *)
Theorem spend_shaper_needs_text_labels (R : Runtime) (bls_in : DataFrame) :
  empty bls_in = false ->
  spend_columns "AgeGroup" bls_in = 1 ->
  no_text_labels bls_in ->
  prep_bls R bls_in = Raise AttributeError
  /\ exists title,
       bls_section R bls_in = ([Markdown title], Uncaught AttributeError).
Proof.
  intros Hne Hg Hno.
  pose proof (prep_bls_numeric_labels R bls_in Hne Hg Hno) as H.
  split; [done|]. by apply bls_section_raises.
Qed.

Lemma spend_shaper_needs_text_labels_witness :
  prep_bls (Ref.runtime []) bls_numbers = Raise AttributeError
  /\ exists title,
       bls_section (Ref.runtime []) bls_numbers
       = ([Markdown title], Uncaught AttributeError).
Proof.
  apply spend_shaper_needs_text_labels; [reflexivity|reflexivity|].
  intros r v Hr Hv. apply list_elem_of_In in Hr. vm_compute in Hr.
  destruct Hr as [<-|[<-|[]]]; vm_compute in Hv; by injection Hv as <-.
Defined.

(** X15. Without an age-group column [prep_bls] filters and orders
    nothing: it returns every row, in the order of the input. The section
    then asks for the column it does not have: the run ends on an uncaught
    [KeyError: 'AgeGroup'] right after the heading, without the section's
    warning. *)
Theorem spend_section_without_age_group (R : Runtime) (bls_in : DataFrame) :
  empty bls_in = false ->
  spend_columns "AgeGroup" bls_in = 0 ->
  spend_columns "AvgAnnualSpend" bls_in <= 1 ->
  exists out title,
    prep_bls R bls_in = Ok out
    /\ labels out = labels bls_in
    /\ bls_section R bls_in = ([Markdown title], Uncaught (KeyError "AgeGroup")).
Proof.
  intros Hne Hg Ha.
  destruct (prep_bls_no_age_group R bls_in Hne Hg Ha)
    as (out & Hout & Hl & He & Hno).
  destruct (bls_section_no_age_group R bls_in out Hout He Hno) as [title Ht].
  by exists out, title.
Qed.

Lemma spend_section_without_age_group_witness :
  exists out title,
    prep_bls (Ref.runtime []) bls_no_age = Ok out
    /\ labels out = labels bls_no_age
    /\ bls_section (Ref.runtime []) bls_no_age
       = ([Markdown title], Uncaught (KeyError "AgeGroup")).
Proof.
  apply spend_section_without_age_group; [reflexivity|reflexivity|].
  vm_compute. lia.
Defined.

(** X16. With its age groups and its annual spend but no [year] column,
    the spend file gets its bar chart and its caption; the run then ends
    on an uncaught [KeyError] where the columns of the download are
    selected, before the download button.  The message of the error
    lists the columns of the selection that the file lacks: [year], and
    [source] after it when the file has no [source] column either. *)
Theorem spend_section_without_year (R : Runtime) (bls_in : DataFrame) (r : row) :
  RuntimeOk R -> rectangular bls_in -> NoDup (labels bls_in) ->
  spend_columns "AgeGroup" bls_in = 1 ->
  spend_columns "AvgAnnualSpend" bls_in = 1 ->
  spend_columns "AvgMonthlySpend" bls_in <= 1 ->
  spend_columns "year" bls_in = 0 ->
  text_labels bls_in ->
  r ∈ rows bls_in ->
  (forall v, age_label bls_in r = Some v -> ~ is_all_ages v) ->
  exists title x y caption,
    bls_section R bls_in
    = ([Markdown title; PlotlyChart (Bar x y); Caption caption],
       Uncaught (KeyError
                   (if bool_decide (spend_columns "source" bls_in = 0)
                    then "['year', 'source'] not in index"
                    else "['year'] not in index"))).
Proof.
  intros ok Hrect Hnd [jg Hjg]%length_one [ja Hja]%length_one Hm Hy Htext Hr Hna.
  apply length_zero_iff_nil in Hy.
  destruct (prep_bls_total R bls_in jg ja Hjg Hja Htext) as [out Hout].
  destruct (prep_bls_keeps R bls_in out ok Hrect Hnd Hout) as (Hkeep & _).
  specialize (Hkeep r Hr Hna).
  assert (Hne : empty bls_in = false).
  { destruct (empty bls_in) eqn:E; [|done].
    apply FrameFacts.empty_true in E as [Hc|Hrows].
    - unfold spend_columns in *. simpl in Hjg. by rewrite Hc in Hjg.
    - rewrite Hrows in Hr. by apply elem_of_nil in Hr. }
  destruct (prep_bls_columns R bls_in out jg ja "year" Hne Hjg Hja Hout)
    as (Hg' & Ha' & Hy' & Hm').
  destruct (Hm' Hm) as [jm Hjm].
  assert (He : empty out = false).
  { unfold empty. unfold labels in Hkeep.
    destruct (rows out); [by apply elem_of_nil in Hkeep|].
    destruct (columns out); [done|done]. }
  destruct (prep_bls_columns R bls_in out jg ja "source" Hne Hjg Hja Hout)
    as (_ & _ & Hs' & _).
  destruct (bls_section_no_year R bls_in out jg jm Hout He Hg' Hjm)
    as (title & caption & Hs).
  - by rewrite Ha'.
  - rewrite Hy' by done. exact Hy.
  - exists title, (map (astype_str R) (map (cell jg) (rows out))),
           (map (cell jm) (rows out)), caption.
    assert (E : bool_decide (positions "source" (columns out) 0 = [])
                = bool_decide (spend_columns "source" bls_in = 0)).
    { rewrite Hs' by done. unfold spend_columns. apply bool_decide_ext.
      by rewrite length_zero_iff_nil. }
    by rewrite Hs, E.
Qed.

Lemma spend_section_without_year_witness :
  exists title x y caption,
    bls_section (Ref.runtime []) bls_no_year
    = ([Markdown title; PlotlyChart (Bar x y); Caption caption],
       Uncaught (KeyError "['year'] not in index")).
Proof.
  apply (spend_section_without_year (Ref.runtime []) bls_no_year
           (Row 0 [SStr "25-34"; SInt 900; SStr "BLS"])
           (RefFacts.runtime_ok [])
           ltac:(repeat constructor)
           ltac:(apply (bool_decide_unpack _); vm_compute; reflexivity)
           eq_refl eq_refl).
  - vm_compute. lia.
  - reflexivity.
  - exists (Row 0 [SStr "25-34"; SInt 900; SStr "BLS"]), "25-34".
    split; [left|reflexivity].
  - left.
  - intros v Hv (x & -> & Hx). vm_compute in Hv. injection Hv as <-.
    vm_compute in Hx. discriminate.
Defined.

End SpendClaims.

(* ===================================================================== *)
(** * More on the Concentration Selector *)
(* ===================================================================== *)

Module SelectorFacts.
Import Py Np Pd St App Spec ConcSpec SelectorSpec.
Import ListFacts FrameFacts BlsFacts ShaperFacts DonutFacts.

Local Open Scope Z_scope.

(** The least and the greatest entry of an integer column. *)
Lemma extremum_ints (better : Z -> Z -> bool) (pref : Z -> Z -> Prop)
  (l : list scalar) :
  (forall a b, better a b = true -> pref a b) ->
  (forall a b, better a b = false -> pref b a) ->
  (forall a, pref a a) ->
  (forall a b c, pref a b -> pref b c -> pref a c) ->
  Forall (fun v => is_int v = true) l -> l <> [] ->
  exists m,
    extremum (fun a b => better (as_i64 a) (as_i64 b)) l = SInt m
    /\ SInt m ∈ l
    /\ Forall (fun v => exists z, v = SInt z /\ pref m z) l.
Proof.
  intros Hyes Hno Hrefl Htrans Hint Hne.
  induction Hint as [|v l Hv Hl IH]; [done|].
  destruct v as [|z|]; try done.
  destruct l as [|w l'].
  - exists z. split; [done|]. split; [left|]. repeat constructor. by exists z.
  - destruct (IH ltac:(done)) as (m & Hm & Hin & Hall).
    change (extremum ?b (SInt z :: ?t))
      with (if isna (SInt z) then extremum b t
            else if isna (extremum b t) then SInt z
            else if b (SInt z) (extremum b t) then SInt z else extremum b t).
    rewrite Hm. cbn [isna as_i64].
    destruct (better z m) eqn:E.
    + exists z. split; [done|]. split; [left|]. constructor; [by exists z|].
      eapply Forall_impl; [exact Hall|]. intros v (y & -> & Hy). exists y.
      split; [done|]. eapply Htrans; [|exact Hy]. by apply Hyes.
    + exists m. split; [done|]. split; [by right|]. constructor; [|done].
      exists z. split; [done|]. by apply Hno.
Qed.

Lemma slider_bounds_ints (R : Runtime) (conc : DataFrame) :
  int_column "year" conc -> rows conc <> [] ->
  exists lo hi,
    slider_bounds R conc lo hi
    /\ SInt lo ∈ column_values "year" conc
    /\ SInt hi ∈ column_values "year" conc
    /\ Forall (fun v => exists z, v = SInt z /\ lo <= z <= hi)
              (column_values "year" conc).
Proof.
  intros [[jy Hjy]%length_one Hint] Hrows.
  set (ycol := column_values "year" conc) in *.
  assert (Hne : ycol <> []).
  { unfold ycol, column_values. rewrite Hjy. by destruct (rows conc). }
  destruct (extremum_ints Z.leb Z.le ycol) as (lo & Hlo & Hlin & Hlall);
    try done; try (intros; lia).
  destruct (extremum_ints (fun a b => Z.leb b a) Z.ge ycol)
    as (hi & Hhi & Hhin & Hhall); try done; try (intros; lia).
  exists lo, hi. split; [|split; [done|split; [done|]]].
  - exists ycol. split; [by apply (getitem_column_values _ _ _ jy)|].
    unfold series_min, series_max, series_extremum.
    rewrite (dtype_ints ycol Hint). cbn [rbind]. by rewrite Hlo, Hhi.
  - apply Forall_forall. intros v Hv.
    eapply Forall_forall in Hlall, Hhall; [|exact Hv..].
    destruct Hlall as (z & -> & Hz), Hhall as (z' & [= <-] & Hz').
    exists z. split; [done|lia].
Qed.

(** Two different years set the bounds apart. *)
Lemma slider_bounds_apart (R : Runtime) (conc : DataFrame) :
  int_column "year" conc -> rows conc <> [] -> several_years conc ->
  exists lo hi,
    slider_bounds R conc lo hi
    /\ SInt lo ∈ column_values "year" conc
    /\ SInt hi ∈ column_values "year" conc
    /\ lo < hi.
Proof.
  intros Hint Hrows (a & b & Ha & Hb & Hab).
  destruct (slider_bounds_ints R conc Hint Hrows)
    as (lo & hi & Hbounds & Hlo & Hhi & Hall).
  exists lo, hi. split; [done|]. split; [done|]. split; [done|].
  pose proof (proj1 (Forall_forall _ _) Hall _ Ha) as (za & [= <-] & Hza).
  pose proof (proj1 (Forall_forall _ _) Hall _ Hb) as (zb & [= <-] & Hzb).
  lia.
Qed.

(** One year only leaves the slider without a range. *)
Lemma slider_bounds_single (R : Runtime) (conc : DataFrame) (y : Z) :
  single_year conc y -> rows conc <> [] -> slider_bounds R conc y y.
Proof.
  intros [Honce Hall] Hrows.
  assert (Hint : int_column "year" conc).
  { split; [done|]. eapply Forall_impl; [exact Hall|]. by intros v ->. }
  destruct (slider_bounds_ints R conc Hint Hrows)
    as (lo & hi & Hbounds & Hlo & Hhi & _).
  pose proof (proj1 (Forall_forall _ _) Hall _ Hlo) as [= ->].
  pose proof (proj1 (Forall_forall _ _) Hall _ Hhi) as [= ->].
  done.
Qed.

Lemma select_nonempty {A} (mask : list bool) (l : list A) (i : nat) x :
  mask !! i = Some true -> l !! i = Some x ->
  exists y ys, select mask l = y :: ys /\ y ∈ l.
Proof.
  revert mask l. induction i as [|i IH]; intros [|b mask] [|a l] Hm Hl;
    simplify_eq/=.
  - eexists _, _. split; [done|left].
  - destruct b.
    + eexists _, _. split; [done|left].
    + destruct (IH mask l Hm Hl) as (y & ys & -> & Hy). eexists _, _.
      split; [done|by right].
Qed.


Local Close Scope Z_scope.

Lemma once_getitem dup name conc :
  once name conc -> getitem dup name conc = Ok (column_values name conc).
Proof. intros [j Hj]%length_one. by apply (getitem_column_values _ _ _ j). Qed.

Lemma length_column_values name conc :
  once name conc -> length (column_values name conc) = length (rows conc).
Proof.
  intros [j Hj]%length_one. unfold column_values. rewrite Hj. apply length_map.
Qed.

(** A year of the table whose top percentage is a number is selected
    without an error. *)
Lemma select_year_present conc year :
  once "year" conc -> numeric_column "top_0_01_pct_ownership" conc ->
  once "source" conc ->
  SInt year ∈ column_values "year" conc ->
  exists p other source, select_year conc year = Ok (p, other, source).
Proof.
  intros Hy [Ht Hnum] Hs Hin. apply list_elem_of_lookup in Hin as [i Hi].
  assert (Hlt : i < length (rows conc)).
  { apply lookup_lt_Some in Hi. by rewrite length_column_values in Hi. }
  assert (Hm : map (fun v => eq_int v year) (column_values "year" conc) !! i
               = Some true).
  { rewrite map_fmap, list_lookup_fmap, Hi. simpl. by rewrite Z.eqb_refl. }
  destruct (lookup_lt_is_Some_2 (column_values "top_0_01_pct_ownership" conc) i)
    as [t Hti]; [by rewrite length_column_values|].
  destruct (lookup_lt_is_Some_2 (column_values "source" conc) i)
    as [s Hsi]; [by rewrite length_column_values|].
  destruct (select_nonempty _ _ i t Hm Hti) as (p & ps & Hp & Hpin).
  destruct (select_nonempty _ _ i s Hm Hsi) as (src & srcs & Hsrc & _).
  eapply Forall_forall in Hnum; [|exact Hpin].
  assert (exists other, rsub 100 p = Ok other) as [other Hother].
  { destruct p; [done|by eexists..]. }
  exists p, other, src. unfold select_year.
  rewrite (once_getitem _ _ _ Hy). cbn [rbind].
  rewrite (once_getitem _ _ _ Ht). cbn [rbind].
  rewrite Hp. cbn [iloc0 rbind]. rewrite Hother. cbn [rbind].
  rewrite (once_getitem _ _ _ Hs). cbn [rbind].
  rewrite Hsrc. reflexivity.
Qed.

(** Without the top-percentage column, or without the source column, the
    [try] block fails for every year. *)
Lemma select_year_missing conc year :
  positions "top_0_01_pct_ownership" (columns conc) 0 = []
  \/ positions "source" (columns conc) 0 = [] ->
  exists e, select_year conc year = Raise e.
Proof.
  intros H. unfold select_year.
  destruct (getitem TypeError "year" conc) as [y|e]; [|by eexists].
  cbn [rbind].
  destruct (getitem TypeError "top_0_01_pct_ownership" conc) as [top|e] eqn:Et;
    [|by eexists].
  cbn [rbind]. destruct (iloc0 _) as [pct|e]; [|by eexists]. cbn [rbind].
  destruct (rsub 100 pct) as [other|e]; [|by eexists]. cbn [rbind].
  destruct H as [H|H].
  - unfold getitem in Et. by rewrite H in Et.
  - unfold getitem. rewrite H. by eexists.
Qed.

Lemma blank_column_min conc :
  blank_column "year" conc -> rows conc <> [] ->
  series_min (column_values "year" conc) = Ok NaN.
Proof.
  intros [[jy Hjy]%length_one Hblank] Hrows.
  set (ycol := column_values "year" conc) in *.
  assert (Hne : ycol <> []).
  { unfold ycol, column_values. rewrite Hjy. by destruct (rows conc). }
  assert (Hd : dtype_of ycol = Float64).
  { unfold dtype_of.
    replace (existsb is_str ycol) with false.
    - replace (forallb is_int ycol) with false; [done|].
      destruct Hblank as [|v l Hv _]; [done|]. simpl. by destruct v.
    - symmetry. apply not_true_is_false. rewrite existsb_exists.
      intros (v & Hv & Hstr). apply list_elem_of_In in Hv.
      eapply Forall_forall in Hblank; [|exact Hv]. by destruct v. }
  unfold series_min, series_extremum. rewrite Hd. f_equal.
  clear Hne Hd. induction Hblank as [|v l Hv _ IH]; [done|].
  simpl. by rewrite Hv.
Qed.

End SelectorFacts.

Module SelectorClaims.
Import Py Np Pd St App Spec ConcSpec SelectorSpec SelectorFacts.

(** X17. For a concentration table with rows and one [year] column of
    integers, the script finds the bounds of the slider, both bounds are
    years of the table, and every year of the table lies between them. *)
Theorem slider_bounds_are_years (R : Runtime) (conc : DataFrame) :
  int_column "year" conc -> rows conc <> [] ->
  exists lo hi,
    slider_bounds R conc lo hi
    /\ SInt lo ∈ column_values "year" conc
    /\ SInt hi ∈ column_values "year" conc
    /\ Forall (fun v => exists z, v = SInt z /\ (lo <= z <= hi)%Z)
              (column_values "year" conc).
Proof. apply slider_bounds_ints. Qed.

Lemma slider_bounds_are_years_witness :
  exists lo hi,
    slider_bounds (Ref.runtime []) conc_three lo hi
    /\ SInt lo ∈ column_values "year" conc_three
    /\ SInt hi ∈ column_values "year" conc_three
    /\ Forall (fun v => exists z, v = SInt z /\ (lo <= z <= hi)%Z)
              (column_values "year" conc_three).
Proof.
  apply slider_bounds_are_years; [|done].
  split; [reflexivity|]. repeat constructor.
Defined.

(** X18. With the slider where the script puts it, on the last year, a
    concentration file with integer years, two of them different at
    least, numbers as top percentages and its source column gets its
    donut: the slider runs from the least year up to the greatest, and
    the section ends with the chart and the caption, not with the
    error. *)
Theorem donut_at_the_default_year (R : Runtime) (S : Session) (conc : DataFrame) :
  read_csv R (DATA_DIR +:+ "crypto_concentration.csv") = Ok conc ->
  rows conc <> [] ->
  int_column "year" conc ->
  several_years conc ->
  numeric_column "top_0_01_pct_ownership" conc ->
  once "source" conc ->
  untouched S ->
  exists lo hi p other hover caption,
    concentration_section R S =
      ([Markdown "The New House: Who Holds the power?";
        Markdown "_Explore how Bitcoin ownership concentration changed over time._";
        Slider "Select a year" lo hi hi;
        PlotlyChart (Pie donut_groups [p; other] hover);
        Caption caption],
       Done tt)
    /\ (lo < hi)%Z.
Proof.
  intros Hread Hrows Hint Hsev Hnum Hsrc Hdef.
  destruct (slider_bounds_apart R conc Hint Hrows Hsev)
    as (lo & hi & (ycol & Hy & Hmin & Hmax) & _ & Hhi & Hlt).
  destruct Hint as [Honce _].
  destruct (select_year_present conc hi Honce Hnum Hsrc Hhi)
    as (p & other & source & Hsel).
  pose proof Honce as [jy Hjy]%ShaperFacts.length_one.
  assert (Hcol : has_column "year" conc = true).
  { apply FrameFacts.has_column_positions. by rewrite Hjy. }
  assert (Hne : empty conc = false).
  { unfold empty. destruct (columns conc); [done|]. by destruct (rows conc). }
  rewrite <- (Hdef lo hi) in Hsel.
  destruct (DonutFacts.concentration_section_draws_the_split
              R S conc ycol lo hi p other source
              Hread Hne Hcol Hy Hmin Hmax Hlt Hsel) as (hover & caption & Hs).
  exists lo, hi, p, other, hover, caption. by rewrite Hs, Hdef.
Qed.

Lemma donut_at_the_default_year_witness :
  exists lo hi p other hover caption,
    concentration_section (Ref.runtime [(Examples.conc_path, conc_three)])
                          first_visit =
      ([Markdown "The New House: Who Holds the power?";
        Markdown "_Explore how Bitcoin ownership concentration changed over time._";
        Slider "Select a year" lo hi hi;
        PlotlyChart (Pie donut_groups [p; other] hover);
        Caption caption],
       Done tt)
    /\ (lo < hi)%Z.
Proof.
  apply (donut_at_the_default_year _ _ conc_three).
  - reflexivity.
  - done.
  - split; [reflexivity|]. repeat constructor.
  - exists 2019%Z, 2015%Z. split; [left|]. split; [right; left|done].
  - split; [reflexivity|]. repeat constructor.
  - reflexivity.
  - intros lo hi. reflexivity.
Defined.

(** X19. When the [year] column of the concentration file holds missing
    values only, the least year is NaN and [int] raises [ValueError]
    outside the [try] block: the run ends after the two headings of the
    section, with no slider, no error message and nothing of what
    follows. *)
Theorem blank_years_end_the_run (R : Runtime) (S : Session) (conc : DataFrame) :
  read_csv R (DATA_DIR +:+ "crypto_concentration.csv") = Ok conc ->
  rows conc <> [] ->
  blank_column "year" conc ->
  concentration_section R S =
    ([Markdown "The New House: Who Holds the power?";
      Markdown "_Explore how Bitcoin ownership concentration changed over time._"],
     Uncaught ValueError)
  /\ result_of (page R S) <> Done tt.
Proof.
  intros Hread Hrows Hblank.
  pose proof (blank_column_min conc Hblank Hrows) as Hmin.
  destruct Hblank as [Honce _].
  pose proof Honce as [jy Hjy]%ShaperFacts.length_one.
  assert (Hcol : has_column "year" conc = true).
  { apply FrameFacts.has_column_positions. by rewrite Hjy. }
  assert (Hne : empty conc = false).
  { unfold empty. destruct (columns conc); [done|]. by destruct (rows conc). }
  assert (Hs : concentration_section R S =
    ([Markdown "The New House: Who Holds the power?";
      Markdown "_Explore how Bitcoin ownership concentration changed over time._"],
     Uncaught ValueError)).
  { unfold concentration_section, load_concentration. rewrite Hread. simpl.
    rewrite Hne, Hcol. simpl. rewrite (once_getitem _ _ _ Honce). simpl.
    rewrite Hmin. reflexivity. }
  split; [done|]. unfold page. rewrite Hs.
  destruct (page_top R S) as [out [[]| |e]]; done.
Qed.

Lemma blank_years_end_the_run_witness :
  concentration_section (Ref.runtime [(Examples.conc_path, conc_blank_years)])
                        first_visit =
    ([Markdown "The New House: Who Holds the power?";
      Markdown "_Explore how Bitcoin ownership concentration changed over time._"],
     Uncaught ValueError)
  /\ result_of (page (Ref.runtime [(Examples.conc_path, conc_blank_years)])
                     first_visit)
     <> Done tt.
Proof.
  apply (blank_years_end_the_run _ _ conc_blank_years).
  - reflexivity.
  - done.
  - split; [reflexivity|]. repeat constructor.
Defined.

(** X20. A concentration file with integer years, two of them different
    at least, that lacks its top-percentage column, or its source column,
    ends in the error of the [try] block wherever the slider stands: the
    section shows the slider and the error, no chart, and the script
    stops there. *)
Theorem missing_column_stops_the_script (R : Runtime) (S : Session)
  (conc : DataFrame) :
  read_csv R (DATA_DIR +:+ "crypto_concentration.csv") = Ok conc ->
  rows conc <> [] ->
  int_column "year" conc ->
  several_years conc ->
  positions "top_0_01_pct_ownership" (columns conc) 0 = []
  \/ positions "source" (columns conc) 0 = [] ->
  exists lo hi,
    concentration_section R S =
      ([Markdown "The New House: Who Holds the power?";
        Markdown "_Explore how Bitcoin ownership concentration changed over time._";
        Slider "Select a year" lo hi (pick_year S lo hi);
        Error "Your CSV must have columns: year, top_0_01_pct_ownership, source"],
       Stopped)
    /\ (lo < hi)%Z.
Proof.
  intros Hread Hrows Hint Hsev Hmiss.
  destruct (slider_bounds_apart R conc Hint Hrows Hsev)
    as (lo & hi & (ycol & Hy & Hmin & Hmax) & _ & _ & Hlt).
  destruct Hint as [Honce _].
  pose proof Honce as [jy Hjy]%ShaperFacts.length_one.
  assert (Hcol : has_column "year" conc = true).
  { apply FrameFacts.has_column_positions. by rewrite Hjy. }
  assert (Hne : empty conc = false).
  { unfold empty. destruct (columns conc); [done|]. by destruct (rows conc). }
  destruct (select_year_missing conc (pick_year S lo hi) Hmiss) as [e He].
  exists lo, hi. split; [|done]. pose proof Hlt as Hltb. apply Z.ltb_lt in Hltb.
  unfold concentration_section, load_concentration. rewrite Hread. simpl.
  rewrite Hne, Hcol. simpl. rewrite Hy. simpl.
  rewrite Hmin. simpl. rewrite Hmax. simpl. unfold slider. rewrite Hltb. simpl.
  rewrite He. reflexivity.
Qed.

Lemma missing_column_stops_the_script_witness :
  exists lo hi,
    concentration_section (Ref.runtime [(Examples.conc_path, conc_no_source)])
                          first_visit =
      ([Markdown "The New House: Who Holds the power?";
        Markdown "_Explore how Bitcoin ownership concentration changed over time._";
        Slider "Select a year" lo hi (pick_year first_visit lo hi);
        Error "Your CSV must have columns: year, top_0_01_pct_ownership, source"],
       Stopped)
    /\ (lo < hi)%Z.
Proof.
  apply (missing_column_stops_the_script _ _ conc_no_source).
  - reflexivity.
  - done.
  - split; [reflexivity|]. repeat constructor.
  - exists 2015%Z, 2021%Z. split; [left|]. split; [right; left|done].
  - right. reflexivity.
Defined.

(** X27. A concentration file whose rows are all for the same year leaves
    the slider without a range: Streamlit refuses the widget, outside the
    [try] block, and the run ends after the two headings of the section,
    with no slider, no chart, no error message of the script and nothing
    of what follows, whatever the other columns hold. *)
Theorem single_year_ends_the_run (R : Runtime) (S : Session) (conc : DataFrame)
  (y : Z) :
  read_csv R (DATA_DIR +:+ "crypto_concentration.csv") = Ok conc ->
  rows conc <> [] ->
  single_year conc y ->
  concentration_section R S =
    ([Markdown "The New House: Who Holds the power?";
      Markdown "_Explore how Bitcoin ownership concentration changed over time._"],
     Uncaught StreamlitInvalidMinMaxError)
  /\ result_of (page R S) <> Done tt.
Proof.
  intros Hread Hrows Hone.
  destruct (slider_bounds_single R conc y Hone Hrows) as (ycol & Hy & Hmin & Hmax).
  destruct Hone as [Honce _].
  pose proof Honce as [jy Hjy]%ShaperFacts.length_one.
  assert (Hcol : has_column "year" conc = true).
  { apply FrameFacts.has_column_positions. by rewrite Hjy. }
  assert (Hne : empty conc = false).
  { unfold empty. destruct (columns conc); [done|]. by destruct (rows conc). }
  assert (Hs : concentration_section R S =
    ([Markdown "The New House: Who Holds the power?";
      Markdown "_Explore how Bitcoin ownership concentration changed over time._"],
     Uncaught StreamlitInvalidMinMaxError)).
  { unfold concentration_section, load_concentration. rewrite Hread. simpl.
    rewrite Hne, Hcol. simpl. rewrite Hy. simpl.
    rewrite Hmin. simpl. rewrite Hmax. simpl. unfold slider.
    rewrite Z.ltb_irrefl. reflexivity. }
  split; [done|]. unfold page. rewrite Hs.
  destruct (page_top R S) as [out [[]| |e]]; done.
Qed.

Lemma single_year_ends_the_run_witness :
  concentration_section (Ref.runtime [(Examples.conc_path, conc_one_year)])
                        first_visit =
    ([Markdown "The New House: Who Holds the power?";
      Markdown "_Explore how Bitcoin ownership concentration changed over time._"],
     Uncaught StreamlitInvalidMinMaxError)
  /\ result_of (page (Ref.runtime [(Examples.conc_path, conc_one_year)])
                     first_visit)
     <> Done tt.
Proof.
  apply (single_year_ends_the_run _ _ conc_one_year 2021).
  - reflexivity.
  - done.
  - split; [reflexivity|]. repeat constructor.
Defined.

End SelectorClaims.

(* ===================================================================== *)
(** * The chart sections on well-formed files *)
(* ===================================================================== *)

Module SectionFacts.
Import Py Np Pd St App Spec SeriesSpec ShaperSpec SectionSpec Contract.
Import ListFacts FrameFacts ShaperFacts.

Section Sections.
Variables (R : Runtime) (title warning caption metric button file_name : string).
Variable style : string.

Local Abbreviation section line :=
(series_section title warning caption metric button file_name R line style).

(** The section on a shaped table with rows and its three columns. *)
Lemma series_section_runs line jy jd js :
empty line = false ->
positions "Year" (columns line) 0 = [jy] ->
positions metric (columns line) 0 = [jd] ->
positions "Source" (columns line) 0 = [js] ->
section (Ok line)
= ([Markdown title;
    PlotlyChart (Scatter (column_values "Year" line) (column_values metric line)
                         (mode_choice style));
    Caption caption;
    DownloadButton button (df_csv_bytes R (download_table metric line)) file_name],
   Done tt).
Proof.
intros He Hy Hd Hs. unfold series_section. simpl. rewrite He.
rewrite (getitem_one _ _ _ jy Hy). simpl.
rewrite (getitem_one _ _ _ jd Hd). simpl.
unfold getitem_list, missing, locate_all. simpl.
rewrite (has_column_here _ _ _ Hy), (has_column_here _ _ _ Hd),
  (has_column_here _ _ _ Hs). simpl. rewrite Hy, Hd, Hs. simpl.
unfold column_values, download_table, picked, value_of. cbn [map].
rewrite Hy, Hd, Hs.
pose proof (positions_one _ _ _ Hy) as [-> _].
pose proof (positions_one _ _ _ Hd) as [-> _].
pose proof (positions_one _ _ _ Hs) as [-> _].
reflexivity.
Qed.

End Sections.

(** ** The bar chart section *)

Section Bars.
Import BlsSpec SpendSpec BlsPipeline BlsFacts SpendFacts.
Variable R : Runtime.

Local Abbreviation renamed bls_in :=
(rename {[ "age_group" := "AgeGroup";
           "avg_annual_spend_usd" := "AvgAnnualSpend" ]} bls_in).

Lemma bls_section_runs bls_raw out jg ja jm jy js :
prep_bls R bls_raw = Ok out ->
empty out = false ->
positions "AgeGroup" (columns out) 0 = [jg] ->
positions "AvgAnnualSpend" (columns out) 0 = [ja] ->
positions "AvgMonthlySpend" (columns out) 0 = [jm] ->
positions "year" (columns out) 0 = [jy] ->
positions "source" (columns out) 0 = [js] ->
exists title caption button file,
  bls_section R bls_raw
  = ([Markdown title;
      PlotlyChart (Bar (map (astype_str R) (column_values "AgeGroup" out))
                       (column_values "AvgMonthlySpend" out));
      Caption caption;
      DownloadButton button (df_csv_bytes R (spend_download_table out)) file],
     Done tt).
Proof.
intros H He Hg Ha Hm Hy Hs. eexists _, _, _, _. unfold bls_section.
rewrite H. simpl. rewrite He.
rewrite (getitem_one _ _ _ jg Hg). simpl.
rewrite (getitem_one _ _ _ jm Hm). simpl.
unfold getitem_list, missing, locate_all. simpl.
rewrite (has_column_here _ _ _ Hg), (has_column_here _ _ _ Ha),
  (has_column_here _ _ _ Hm), (has_column_here _ _ _ Hy),
  (has_column_here _ _ _ Hs). simpl. rewrite Hg, Ha, Hm, Hy, Hs. simpl.
unfold column_values, spend_download_table, picked, value_of. cbn [map].
rewrite Hg, Ha, Hm, Hy, Hs.
pose proof (positions_one _ _ _ Hg) as [-> _].
pose proof (positions_one _ _ _ Ha) as [-> _].
pose proof (positions_one _ _ _ Hm) as [-> _].
pose proof (positions_one _ _ _ Hy) as [-> _].
pose proof (positions_one _ _ _ Hs) as [-> _].
reflexivity.
Qed.

(** The labels of the output are buckets or missing values. *)
Lemma prep_bls_ticks bls_in out jg :
RuntimeOk R -> rectangular bls_in ->
empty bls_in = false ->
positions "AgeGroup" (columns (renamed bls_in)) 0 = [jg] ->
prep_bls R bls_in = Ok out ->
Forall is_tick (map (astype_str R) (map (cell jg) (rows out))).
Proof.
intros ok Hrect Hempty Hjg H.
destruct (prep_bls_by_rank R bls_in out jg ok Hrect Hempty Hjg H)
  as (image & first & Hlab & Hcell & Hfirst & Hout & _).
cbv zeta in Hfirst, Hout.
set (rows3 := map image (select (map (kept jg) (rows bls_in)) (rows bls_in))) in *.
assert (Hperm : rows out ≡ₚ rows3).
{ rewrite Hout, Hfirst.
  rewrite <- (map_map (fun r3 => eq_int (code age_order (cell jg r3)) (-1)) negb).
  apply select_partition. by rewrite length_map. }
rewrite !map_fmap, !Forall_fmap. apply Forall_forall. intros r' Hr'.
rewrite Hperm in Hr'. unfold rows3 in Hr'. rewrite map_fmap in Hr'.
apply list_elem_of_fmap in Hr' as (r & -> & Hr).
apply elem_of_select in Hr as [Hr _].
unfold compose. rewrite (Hcell r Hr). unfold bucket, is_tick.
destruct (cell jg r) as [x| |]; [|by right..].
case_bool_decide; [by left|by right].
Qed.

End Bars.
End SectionFacts.

Module SpendRowFacts.
Import Py Np Pd St App Spec BlsSpec SpendSpec Contract BlsPipeline.
Import ListFacts FloatFacts FrameFacts BlsFacts ShaperFacts SpendFacts.

Section Rows.
Variable R : Runtime.

Local Abbreviation renamed bls_in :=
(rename {[ "age_group" := "AgeGroup";
           "avg_annual_spend_usd" := "AvgAnnualSpend" ]} bls_in).

(** Every row of the output is a row of the input with the same label
and the same annual spend. *)
Lemma prep_bls_annual bls_in out r' :
rectangular bls_in ->
prep_bls R bls_in = Ok out ->
r' ∈ rows out ->
exists r, r ∈ rows bls_in /\ label r = label r'
          /\ value_of "AvgAnnualSpend" out r' = annual_spend bls_in r.
Proof.
intros Hrect H Hr'. unfold annual_spend.
destruct (empty bls_in) eqn:Hempty.
{ unfold prep_bls in H. rewrite Hempty in H. injection H as <-.
  exists r'. split; [done|]. split; [done|].
  apply empty_true in Hempty as [Hc|Hrows].
  - unfold value_of. simpl. by rewrite Hc.
  - rewrite Hrows in Hr'. by apply elem_of_nil in Hr'. }
destruct (prep_bls_rows R bls_in out Hempty H)
  as (rows1 & F2 & cols2 & H1 & H2 & Hg & H3).
pose proof (filtered_rows bls_in rows1 H1) as Hsub.
set (cols0 := columns (renamed bls_in)) in *.
assert (Hcols : columns out = cols2).
{ by destruct H3 as [[_ ->]|(jg & _ & ->)]. }
unfold value_of. rewrite Hcols. fold cols0.
assert (HF2 : forall r1, r1 ∈ rows1 ->
          label (F2 r1) = label r1
          /\ match positions "AvgAnnualSpend" cols2 0 with
             | [j] => cells (F2 r1) !! j
             | _ => None
             end
             = match positions "AvgAnnualSpend" cols0 0 with
               | [j] => cells r1 !! j
               | _ => None
               end).
{ intros r1 Hr1.
  destruct H2 as [(Hno & -> & ->)|(ja & g & Hja & Hf & -> & ->)]; [done|].
  split; [done|]. rewrite positions_put_other, Hja by done.
  apply Hsub in Hr1. eapply Forall_forall in Hrect; [|exact Hr1].
  simpl in Hrect. rewrite <- length_renamed_bls in Hrect.
  apply positions_one in Hja as [Hja _].
  by eapply (with_monthly_other cols0). }
destruct H3 as [[_ ->]|(jg & Hjg & ->)]; cbn [rows] in Hr'.
- rewrite map_fmap in Hr'. apply list_elem_of_fmap in Hr' as (r1 & -> & Hr1).
  destruct (HF2 r1 Hr1) as [Hl Hc]. exists r1. split; [by apply Hsub|].
  split; [done|]. exact Hc.
- unfold sorted_by_bucket in Hr'. apply elem_of_itake in Hr'.
  rewrite !map_fmap in Hr'. apply list_elem_of_fmap in Hr' as (r2 & -> & Hr2).
  apply list_elem_of_fmap in Hr2 as (r1 & -> & Hr1).
  destruct (HF2 r1 Hr1) as [Hl Hc]. exists r1. split; [by apply Hsub|].
  split; [done|]. rewrite <- Hc.
  destruct (positions "AvgAnnualSpend" cols2 0) as [|j [|??]] eqn:Hj; try done.
  unfold with_bucket. cbn [cells]. apply list_lookup_insert_ne.
  intros ->. apply positions_one in Hjg as [Hjg _].
  apply positions_one in Hj as [Hj _]. congruence.
Qed.

(** A row that is kept and whose annual spend does not coerce to a number
is in the output with a missing monthly spend. *)
Lemma prep_bls_unparsed bls_in out r a :
RuntimeOk R -> rectangular bls_in -> NoDup (labels bls_in) ->
prep_bls R bls_in = Ok out ->
r ∈ rows bls_in ->
(forall v, age_label bls_in r = Some v -> ~ is_all_ages v) ->
annual_spend bls_in r = Some a -> fails_coercion R a ->
kept_without_monthly bls_in out r.
Proof.
intros ok Hrect Hnd Hout Hr Hna Ha Hfail.
destruct (prep_bls_keeps R bls_in out ok Hrect Hnd Hout) as (Hkeep & _).
specialize (Hkeep r Hr Hna). unfold labels in Hkeep. rewrite map_fmap in Hkeep.
apply list_elem_of_fmap in Hkeep as (r' & Hl & Hr').
destruct (prep_bls_annual bls_in out r' Hrect Hout Hr') as (r0 & Hr0 & Hl0 & Ha0).
assert (r0 = r) as ->.
{ apply (label_inj (rows bls_in)); [done..|congruence]. }
exists r'. split; [done|]. split; [done|]. split; [done|].
rewrite Ha in Ha0.
pose proof (prep_bls_monthly R bls_in out Hrect Hout r' a Hr' Ha0) as H.
replace (truediv (coerce R a) twelve) with NaN in H; [done|].
unfold fails_coercion in Hfail. unfold truediv, NaN.
destruct (coerce R a) as [|z|f]; try done. simpl in Hfail.
by destruct f.
Qed.

End Rows.
End SpendRowFacts.

Module SectionClaims.
Import Py Np Pd St App Spec SeriesSpec ShaperSpec BlsSpec SpendSpec SectionSpec.
Import Contract Samples.
Import ShaperFacts SpendFacts SectionFacts SpendRowFacts.

Local Abbreviation lottery_pct := "under30_lottery_pct".
Local Abbreviation LotteryPct := "Under30LotteryPct".
Local Abbreviation crypto_pct := "under30_crypto_pct".
Local Abbreviation CryptoPct := "Under30CryptoPct".

(** X21. With one year, one metric and one source column and at least
    one row whose year and metric are numbers, the Gallup section and the
    crypto section run to their end: the heading, the chart of the year
    and metric columns of the shaped table, the caption, and a download
    button whose data is the export of the year, the metric and the
    source of every shaped row, in that order. *)
Theorem sections_run_to_the_download (R : Runtime) (lot : DataFrame)
  (style : string) (r : row) :
  RuntimeOk R -> rectangular lot -> NoDup (labels lot) -> r ∈ rows lot ->
  (named_once lottery_pct LotteryPct "Year" lot ->
   named_once lottery_pct LotteryPct LotteryPct lot ->
   named_once lottery_pct LotteryPct "Source" lot ->
   coercible R lottery_pct LotteryPct lot r ->
   exists out title caption button file,
     prep_lottery R lot = Ok out
     /\ gallup_section R lot style
        = ([Markdown title;
            PlotlyChart (Scatter (column_values "Year" out)
                                 (column_values LotteryPct out)
                                 (mode_choice style));
            Caption caption;
            DownloadButton button
              (df_csv_bytes R (download_table LotteryPct out)) file],
           Done tt))
  /\ (named_once crypto_pct CryptoPct "Year" lot ->
      named_once crypto_pct CryptoPct CryptoPct lot ->
      named_once crypto_pct CryptoPct "Source" lot ->
      coercible R crypto_pct CryptoPct lot r ->
      exists out title caption button file,
        prep_crypto R lot = Ok out
        /\ crypto_section R lot style
           = ([Markdown title;
               PlotlyChart (Scatter (column_values "Year" out)
                                    (column_values CryptoPct out)
                                    (mode_choice style));
               Caption caption;
               DownloadButton button
                 (df_csv_bytes R (download_table CryptoPct out)) file],
              Done tt)).
Proof.
  intros ok Hrect Hnd Hr.
  assert (Hgen : forall src dst out,
            dst <> "Year" -> named_once src dst "Source" lot ->
            coercible R src dst lot r ->
            prep_series R src dst lot = Ok out ->
            empty out = false
            /\ exists jy jd js,
                 positions "Year" (columns out) 0 = [jy]
                 /\ positions dst (columns out) 0 = [jd]
                 /\ positions "Source" (columns out) 0 = [js]).
  { intros src dst out Hdst [js Hjs]%length_one Hco Hout.
    pose proof (prep_series_some R src dst ok Hdst lot out r Hrect Hnd Hr Hco Hout)
      as He.
    split; [done|]. destruct (empty lot) eqn:Hel.
    { unfold prep_series in Hout. rewrite Hel in Hout. injection Hout as <-.
      congruence. }
    destruct (prep_series_shape R src dst ok Hdst lot out Hrect Hel Hout)
      as (jy & jd & _ & _ & Hjy & Hjd & _ & _ & _ & _ & _ & Hcols & _).
    exists jy, jd, js. by rewrite Hcols. }
  split; intros Hy Hd Hs Hco.
  - destruct (prep_series_total R _ _ lot Hy Hd) as [out Hout].
    destruct (Hgen lottery_pct LotteryPct out ltac:(done) Hs Hco Hout)
      as (He & jy & jd & js & Hjy & Hjd & Hjs).
    exists out. eexists _, _, _, _. split; [done|].
    unfold gallup_section. unfold prep_lottery in *. rewrite Hout.
    by apply (series_section_runs _ _ _ _ _ _ _ _ out jy jd js).
  - destruct (prep_series_total R _ _ lot Hy Hd) as [out Hout].
    destruct (Hgen crypto_pct CryptoPct out ltac:(done) Hs Hco Hout)
      as (He & jy & jd & js & Hjy & Hjd & Hjs).
    exists out. eexists _, _, _, _. split; [done|].
    unfold crypto_section. unfold prep_crypto in *. rewrite Hout.
    by apply (series_section_runs _ _ _ _ _ _ _ _ out jy jd js).
Qed.

Lemma sections_run_to_the_download_witness :
  exists out title caption button file,
    prep_lottery (Ref.runtime []) gallup_raw = Ok out
    /\ gallup_section (Ref.runtime []) gallup_raw "Markers only"
       = ([Markdown title;
           PlotlyChart (Scatter (column_values "Year" out)
                                (column_values LotteryPct out)
                                (mode_choice "Markers only"));
           Caption caption;
           DownloadButton button
             (df_csv_bytes (Ref.runtime []) (download_table LotteryPct out))
             file],
          Done tt).
Proof.
  apply (proj1 (sections_run_to_the_download (Ref.runtime []) gallup_raw
                  "Markers only"
                  (Row 0 [SStr "2016"; SStr "61"; SStr "Gallup"])
                  (RefFacts.runtime_ok [])
                  ltac:(repeat constructor)
                  ltac:(apply (bool_decide_unpack _); vm_compute; reflexivity)
                  ltac:(left)));
    [reflexivity|reflexivity|reflexivity|].
  exists (SStr "2016"), (SStr "61"). repeat split.
Defined.

(** X22. With one text column of age groups, one column each of annual
    spend, year and source, and at least one row that is not labelled
    'All ages', the bar chart section runs to its end: heading, bar chart,
    caption, download button. The ticks of the chart are the labels of
    the shaped table as text: a bucket, or [nan] for a label outside the
    seven buckets; the data of the download is the export of the age
    group, the annual spend, the monthly spend, the year and the source
    of every shaped row, in that order, under the names AgeGroup,
    AvgAnnualSpend, AvgMonthlySpend, Year, Source. *)
Theorem spend_section_runs (R : Runtime) (bls_in : DataFrame) (r : row) :
  RuntimeOk R -> rectangular bls_in -> NoDup (labels bls_in) ->
  spend_columns "AgeGroup" bls_in = 1 ->
  spend_columns "AvgAnnualSpend" bls_in = 1 ->
  spend_columns "AvgMonthlySpend" bls_in <= 1 ->
  spend_columns "year" bls_in = 1 ->
  spend_columns "source" bls_in = 1 ->
  text_labels bls_in ->
  r ∈ rows bls_in ->
  (forall v, age_label bls_in r = Some v -> ~ is_all_ages v) ->
  exists out title ticks caption button file,
    prep_bls R bls_in = Ok out
    /\ bls_section R bls_in
       = ([Markdown title;
           PlotlyChart (Bar ticks (column_values "AvgMonthlySpend" out));
           Caption caption;
           DownloadButton button
             (df_csv_bytes R (spend_download_table out)) file],
          Done tt)
    /\ ticks = map (astype_str R) (column_values "AgeGroup" out)
    /\ Forall is_tick ticks.
Proof.
  intros ok Hrect Hnd [jg Hjg]%length_one [ja Hja]%length_one Hm
         [jy Hjy]%length_one [js Hjs]%length_one Htext Hr Hna.
  destruct (prep_bls_total R bls_in jg ja Hjg Hja Htext) as [out Hout].
  destruct (prep_bls_keeps R bls_in out ok Hrect Hnd Hout) as (Hkeep & _).
  specialize (Hkeep r Hr Hna).
  assert (Hne : empty bls_in = false).
  { destruct (empty bls_in) eqn:E; [|done].
    apply FrameFacts.empty_true in E as [Hc|Hrows].
    - simpl in Hjg. by rewrite Hc in Hjg.
    - rewrite Hrows in Hr. by apply elem_of_nil in Hr. }
  destruct (prep_bls_columns R bls_in out jg ja "year" Hne Hjg Hja Hout)
    as (Hg' & Ha' & Hy' & Hm').
  destruct (prep_bls_columns R bls_in out jg ja "source" Hne Hjg Hja Hout)
    as (_ & _ & Hs' & _).
  destruct (Hm' Hm) as [jm Hjm].
  rewrite Hjy in Hy'. rewrite Hjs in Hs'.
  assert (He : empty out = false).
  { unfold empty. unfold labels in Hkeep.
    destruct (rows out); [by apply elem_of_nil in Hkeep|].
    destruct (columns out); [done|done]. }
  destruct (bls_section_runs R bls_in out jg ja jm jy js Hout He Hg' Ha' Hjm
              (Hy' ltac:(done)) (Hs' ltac:(done)))
    as (title & caption & button & file & Hsec).
  exists out, title, (map (astype_str R) (column_values "AgeGroup" out)),
         caption, button, file.
  split; [done|]. split; [done|]. split; [done|].
  unfold column_values. rewrite Hg'.
  by apply (prep_bls_ticks R bls_in out jg).
Qed.

Lemma spend_section_runs_witness :
  exists out title ticks caption button file,
    prep_bls (Ref.runtime []) bls_raw = Ok out
    /\ bls_section (Ref.runtime []) bls_raw
       = ([Markdown title;
           PlotlyChart (Bar ticks (column_values "AvgMonthlySpend" out));
           Caption caption;
           DownloadButton button
             (df_csv_bytes (Ref.runtime []) (spend_download_table out)) file],
          Done tt)
    /\ ticks = map (astype_str (Ref.runtime [])) (column_values "AgeGroup" out)
    /\ Forall is_tick ticks.
Proof.
  apply (spend_section_runs (Ref.runtime []) bls_raw
           (Row 0 [SStr "25-34"; Ref.ratio 48384 100; SInt 2018; SStr "BLS"])
           (RefFacts.runtime_ok [])
           ltac:(repeat constructor)
           ltac:(apply (bool_decide_unpack _); vm_compute; reflexivity)
           eq_refl eq_refl).
  - vm_compute. lia.
  - reflexivity.
  - reflexivity.
  - exists (Row 0 [SStr "25-34"; Ref.ratio 48384 100; SInt 2018; SStr "BLS"]),
           "25-34".
    split; [left|reflexivity].
  - left.
  - intros v Hv (x & -> & Hx). vm_compute in Hv. injection Hv as <-.
    vm_compute in Hx. discriminate.
Defined.

(** X23. A row whose annual spend does not coerce to a number is not
    dropped for it. With one text column of age groups and one column of
    annual spend, the Spend Shaper returns, and every row of the input
    that is not labelled 'All ages' and whose annual spend fails numeric
    coercion is in the output, with its annual spend as it was and a
    missing monthly spend. *)
Theorem unparsed_annual_gives_missing_monthly (R : Runtime) (bls_in : DataFrame) :
  RuntimeOk R -> rectangular bls_in -> NoDup (labels bls_in) ->
  spend_columns "AgeGroup" bls_in = 1 ->
  spend_columns "AvgAnnualSpend" bls_in = 1 ->
  text_labels bls_in ->
  exists out,
    prep_bls R bls_in = Ok out
    /\ forall r a,
         r ∈ rows bls_in ->
         (forall v, age_label bls_in r = Some v -> ~ is_all_ages v) ->
         annual_spend bls_in r = Some a ->
         fails_coercion R a ->
         kept_without_monthly bls_in out r.
Proof.
  intros ok Hrect Hnd [jg Hjg]%length_one [ja Hja]%length_one Htext.
  destruct (prep_bls_total R bls_in jg ja Hjg Hja Htext) as [out Hout].
  exists out. split; [done|]. intros r a Hr Hna Ha Hfail.
  by apply (prep_bls_unparsed R bls_in out r a).
Qed.

Lemma unparsed_annual_gives_missing_monthly_witness :
  exists out,
    prep_bls (Ref.runtime []) SpendCases.bls_unparsed = Ok out
    /\ forall r a,
         r ∈ rows SpendCases.bls_unparsed ->
         (forall v, age_label SpendCases.bls_unparsed r = Some v ->
                    ~ is_all_ages v) ->
         annual_spend SpendCases.bls_unparsed r = Some a ->
         fails_coercion (Ref.runtime []) a ->
         kept_without_monthly SpendCases.bls_unparsed out r.
Proof.
  apply (unparsed_annual_gives_missing_monthly (Ref.runtime [])
           SpendCases.bls_unparsed (RefFacts.runtime_ok [])
           ltac:(repeat constructor)
           ltac:(apply (bool_decide_unpack _); vm_compute; reflexivity)
           eq_refl eq_refl).
  exists (Row 0 [SStr "25-34"; SStr "n/a"]), "25-34".
  split; [left|reflexivity].
Defined.

End SectionClaims.

(* ===================================================================== *)
(** * Years in a float column *)
(* ===================================================================== *)

Module IntFloatFacts.
Import Py Np Rounding RoundingFacts.
Local Open Scope Z_scope.

(** An integer below [2 ^ 53] as a float: its mantissa shifted up to 53
    digits. *)
Lemma of_Z_small (p : positive) :
  Zpos p < 2 ^ 53 ->
  let D := Zpos (digits2_pos p) in
  D <= 53
  /\ of_Z (Zpos p)
     = S754_finite false (Z.to_pos (Zpos p * 2 ^ (53 - D))) (D - 53).
Proof.
  intros Hp D. pose proof (digits_bounds p) as [Hlo _]. fold D in Hlo.
  assert (HD : D <= 53).
  { destruct (Z.le_gt_cases D 53) as [|Hgt]; [done|].
    assert (2 ^ 53 <= 2 ^ (D - 1)) by (apply Z.pow_le_mono_r; lia). lia. }
  split; [done|]. unfold of_Z. cbn [binary_normalize].
  rewrite binary_round_short by (fold D; unfold D in *; lia).
  fold D. f_equal; lia.
Qed.

Lemma to_Z_of_Z z : 0 <= z < 2 ^ 53 -> to_Z (of_Z z) = Ok z.
Proof.
  intros [H0 Hz]. destruct z as [|p|p]; [done| |lia].
  destruct (of_Z_small p Hz) as [HD ->].
  set (D := Zpos (digits2_pos p)) in *.
  assert (HD0 : 0 < D) by (unfold D; lia).
  assert (Hpow : 0 < 2 ^ (53 - D)) by (apply Z.pow_pos_nonneg; lia).
  unfold to_Z. rewrite Z2Pos.id by lia. f_equal.
  destruct (D - 53) as [|q|q] eqn:E; [| lia |].
  - replace (53 - D) with 0 by lia. rewrite Z.shiftl_0_r. lia.
  - replace (53 - D) with (Zpos q) by lia.
    rewrite Z.shiftr_div_pow2 by lia. apply Z.div_mul. lia.
Qed.

(** On integers below [2 ^ 53] the order and the equality of floats are
    those of the integers. *)
Lemma compare_of_Z a b :
  0 <= a < 2 ^ 53 -> 0 <= b < 2 ^ 53 ->
  SFcompare (of_Z a) (of_Z b) = Some (a ?= b).
Proof.
  intros [Ha0 Ha] [Hb0 Hb].
  destruct a as [|p|p]; [| |lia]; destruct b as [|q|q]; try lia.
  - done.
  - destruct (of_Z_small q Hb) as [_ ->]. done.
  - destruct (of_Z_small p Ha) as [_ ->]. done.
  - destruct (of_Z_small p Ha) as [HDp ->].
    destruct (of_Z_small q Hb) as [HDq ->].
    pose proof (digits_bounds p) as [Hplo Hphi].
    pose proof (digits_bounds q) as [Hqlo Hqhi].
    set (Dp := Zpos (digits2_pos p)) in *.
    set (Dq := Zpos (digits2_pos q)) in *.
    assert (0 < Dp) by (unfold Dp; lia). assert (0 < Dq) by (unfold Dq; lia).
    cbn [SFcompare]. f_equal.
    destruct (Z.compare_spec (Dp - 53) (Dq - 53)) as [Heq|Hlt|Hgt].
    + assert (Dp = Dq) as Hd by lia. rewrite <- Hd.
      assert (Hpow : 0 < 2 ^ (53 - Dp)) by (apply Z.pow_pos_nonneg; lia).
      set (ma := Z.to_pos (Zpos p * 2 ^ (53 - Dp))).
      set (mb := Z.to_pos (Zpos q * 2 ^ (53 - Dp))).
      change (Pos.compare_cont Eq ma mb) with (Pos.compare ma mb).
      rewrite (Pos2Z.inj_compare ma mb). unfold ma, mb.
      rewrite !Z2Pos.id by lia.
      destruct (Z.compare_spec (Zpos p) (Zpos q)) as [->|Hl|Hg].
      * apply Z.compare_refl.
      * apply Z.compare_lt_iff. nia.
      * apply Z.compare_gt_iff. nia.
    + symmetry. apply Z.compare_lt_iff.
      assert (2 ^ Dp <= 2 ^ (Dq - 1)) by (apply Z.pow_le_mono_r; lia). lia.
    + symmetry. apply Z.compare_gt_iff.
      assert (2 ^ Dq <= 2 ^ (Dp - 1)) by (apply Z.pow_le_mono_r; lia). lia.
Qed.

Lemma fleb_of_Z a b :
  0 <= a < 2 ^ 53 -> 0 <= b < 2 ^ 53 -> fleb (of_Z a) (of_Z b) = (a <=? b).
Proof.
  intros Ha Hb. unfold fleb, SFleb, Z.leb. rewrite compare_of_Z by done.
  by destruct (a ?= b).
Qed.

Lemma feqb_of_Z a b :
  0 <= a < 2 ^ 53 -> 0 <= b < 2 ^ 53 -> feqb (of_Z a) (of_Z b) = (a =? b).
Proof.
  intros Ha Hb. unfold feqb, SFeqb. rewrite compare_of_Z, Z.eqb_compare by done.
  by destruct (a ?= b).
Qed.

End IntFloatFacts.

Module BlankYearFacts.
Import Py Np Pd St App Spec ConcSpec SelectorSpec BlankYearSpec.
Import ListFacts FrameFacts FloatFacts ShaperFacts DonutFacts SelectorFacts.
Import IntFloatFacts.

Local Open Scope Z_scope.

Lemma float_year_not_na v y : float_year v y -> isna v = false.
Proof. intros [_ ->]. apply of_Z_not_nan. Qed.

(** The least and the greatest year of a float column, blanks skipped. *)
Lemma extremum_years (fb : spec_float -> spec_float -> bool)
  (ib : Z -> Z -> bool) (pref : Z -> Z -> Prop) (l : list scalar) :
  (forall a b, 0 <= a < 2 ^ 53 -> 0 <= b < 2 ^ 53 ->
               fb (of_Z a) (of_Z b) = ib a b) ->
  (forall a b, ib a b = true -> pref a b) ->
  (forall a b, ib a b = false -> pref b a) ->
  (forall a, pref a a) ->
  (forall a b c, pref a b -> pref b c -> pref a c) ->
  Forall (fun v => v = NaN \/ exists y, float_year v y) l ->
  let best := extremum (fun a b => fb (as_f64 a) (as_f64 b)) l in
  (best = NaN /\ Forall (fun v => v = NaN) l)
  \/ exists m,
       float_year best m /\ best ∈ l
       /\ Forall (fun v => v = NaN \/ exists y, float_year v y /\ pref m y) l.
Proof.
  intros Hfb Hyes Hno Hrefl Htrans Hl. cbv zeta.
  induction Hl as [|v l Hv Hl IH]; [left; by split|].
  set (b := fun a b => fb (as_f64 a) (as_f64 b)) in *.
  change (extremum b (v :: l))
    with (if isna v then extremum b l
          else if isna (extremum b l) then v
          else if b v (extremum b l) then v else extremum b l).
  destruct Hv as [->|(y & Hy)].
  - cbn [isna NaN is_nan].
    destruct IH as [[Hb Hall]|(m & Hm & Hin & Hall)].
    + left. split; [done|]. by constructor.
    + right. exists m. split; [done|]. split; [by right|].
      constructor; [by left|done].
  - rewrite (float_year_not_na v y Hy).
    destruct IH as [[Hb Hall]|(m & Hm & Hin & Hall)].
    + rewrite Hb. right. exists y. split; [done|]. split; [left|].
      constructor; [right; by exists y|].
      eapply Forall_impl; [exact Hall|]. by left.
    + rewrite (float_year_not_na _ m Hm).
      pose proof Hy as [Hyr Hyv]. pose proof Hm as [Hmr Hmv].
      assert (Hb : b v (extremum b l) = ib y m).
      { unfold b at 1. rewrite Hmv, Hyv. cbn [as_f64]. by apply Hfb. }
      rewrite Hb.
      destruct (ib y m) eqn:E; right.
      * exists y. split; [done|]. split; [left|].
        constructor; [right; by exists y|].
        eapply Forall_impl; [exact Hall|].
        intros w [->|(z & Hz & Hp)]; [by left|]. right. exists z.
        split; [done|]. eapply Htrans; [|exact Hp]. by apply Hyes.
      * exists m. split; [done|]. split; [by right|].
        constructor; [|done]. right. exists y. split; [done|]. by apply Hno.
Qed.

Local Close Scope Z_scope.

Lemma slider_bounds_blanks (R : Runtime) (conc : DataFrame) :
  years_with_blanks conc ->
  exists lo hi vlo vhi,
    slider_bounds R conc lo hi
    /\ vlo ∈ column_values "year" conc /\ float_year vlo lo
    /\ vhi ∈ column_values "year" conc /\ float_year vhi hi
    /\ Forall (fun v => v = NaN
                        \/ exists y, float_year v y /\ (lo <= y <= hi)%Z)
              (column_values "year" conc).
Proof.
  intros (Honce & Hall & v0 & y0 & Hin0 & Hy0).
  set (ycol := column_values "year" conc) in *.
  assert (Hd : dtype_of ycol = Float64).
  { unfold dtype_of.
    replace (existsb is_str ycol) with false.
    - replace (forallb is_int ycol) with false; [done|].
      symmetry. apply not_true_is_false. rewrite forallb_forall.
      intros Hint. apply list_elem_of_In in Hin0. specialize (Hint v0 Hin0).
      destruct Hy0 as [_ ->]. done.
    - symmetry. apply not_true_is_false. rewrite existsb_exists.
      intros (v & Hv & Hstr). apply list_elem_of_In in Hv.
      eapply Forall_forall in Hall; [|exact Hv].
      destruct Hall as [->|(y & _ & ->)]; done. }
  assert (Hsome : ~ Forall (fun v => v = NaN) ycol).
  { intros Hn. eapply Forall_forall in Hn; [|exact Hin0].
    pose proof (float_year_not_na v0 y0 Hy0) as E. rewrite Hn in E. done. }
  destruct (extremum_years fleb Z.leb Z.le ycol) as [[_ ?]|(lo & Hlo & Hlin & Hlall)];
    try done; try (intros; lia); [intros; by apply fleb_of_Z|].
  destruct (extremum_years (fun a b => fleb b a) (fun a b => Z.leb b a) Z.ge ycol)
    as [[_ ?]|(hi & Hhi & Hhin & Hhall)];
    try done; try (intros; lia); [intros; by apply fleb_of_Z|].
  exists lo, hi, (extremum (fun a b => fleb (as_f64 a) (as_f64 b)) ycol),
         (extremum (fun a b => fleb (as_f64 b) (as_f64 a)) ycol).
  split; [|repeat (split; [done|])].
  - exists ycol. split; [by apply once_getitem|].
    unfold series_min, series_max, series_extremum. rewrite Hd. cbn [rbind].
    destruct Hlo as [Hlr Hlv], Hhi as [Hhr Hhv]. rewrite Hlv, Hhv.
    unfold py_int. by rewrite !to_Z_of_Z by done.
  - apply Forall_forall. intros v Hv.
    eapply Forall_forall in Hlall, Hhall; [|exact Hv..].
    destruct Hlall as [->|(y & Hy & Hly)]; [by left|].
    destruct Hhall as [->|(y' & Hy' & Hhy)].
    { pose proof (float_year_not_na _ y Hy) as E. done. }
    right. exists y. split; [done|].
    assert (y' = y) as ->.
    { destruct Hy as [Hyr Hyv], Hy' as [Hyr' Hyv'].
      assert (Heq : feqb (of_Z y) (of_Z y') = true).
      { assert (of_Z y = of_Z y') as <- by congruence.
        rewrite feqb_of_Z by done. apply Z.eqb_refl. }
      rewrite feqb_of_Z in Heq by done. symmetry. by apply Z.eqb_eq. }
    lia.
Qed.

Lemma float_year_inj v a b : float_year v a -> float_year v b -> a = b.
Proof.
  intros [Ha ->] [Hb Hv].
  assert (Heq : feqb (of_Z a) (of_Z b) = true).
  { assert (of_Z a = of_Z b) as <- by congruence.
    rewrite feqb_of_Z by done. apply Z.eqb_refl. }
  rewrite feqb_of_Z in Heq by done. by apply Z.eqb_eq.
Qed.

(** Two different years set the bounds apart. *)
Lemma slider_bounds_blanks_apart (R : Runtime) (conc : DataFrame) :
  years_with_blanks conc -> several_float_years conc ->
  exists lo hi vlo vhi,
    slider_bounds R conc lo hi
    /\ vlo ∈ column_values "year" conc /\ float_year vlo lo
    /\ vhi ∈ column_values "year" conc /\ float_year vhi hi
    /\ Forall (fun v => v = NaN
                        \/ exists y, float_year v y /\ (lo <= y <= hi)%Z)
              (column_values "year" conc)
    /\ (lo < hi)%Z.
Proof.
  intros Hyears (va & a & vb & b & Hva & Ha & Hvb & Hb & Hab).
  destruct (slider_bounds_blanks R conc Hyears)
    as (lo & hi & vlo & vhi & Hbounds & Hlin & Hlo & Hhin & Hhi & Hall).
  exists lo, hi, vlo, vhi. repeat (split; [done|]).
  assert (Hin : forall v y, v ∈ column_values "year" conc -> float_year v y ->
                            (lo <= y <= hi)%Z).
  { intros v y Hv Hy.
    pose proof (proj1 (Forall_forall _ _) Hall _ Hv) as [->|(y' & Hy' & Hr)].
    - pose proof (float_year_not_na _ _ Hy) as E. done.
    - by rewrite (float_year_inj v y y' Hy Hy'). }
  pose proof (Hin va a Hva Ha). pose proof (Hin vb b Hvb Hb). lia.
Qed.

(** The [try] block on a year that some row has, in either kind of year
    column. *)
Lemma select_year_matching conc year v :
  once "year" conc -> numeric_column "top_0_01_pct_ownership" conc ->
  once "source" conc ->
  v ∈ column_values "year" conc -> eq_int v year = true ->
  exists p other source, select_year conc year = Ok (p, other, source).
Proof.
  intros Hy [Ht Hnum] Hs Hin Heq. apply list_elem_of_lookup in Hin as [i Hi].
  assert (Hlt : (i < length (rows conc))%nat).
  { apply lookup_lt_Some in Hi. by rewrite length_column_values in Hi. }
  assert (Hm : map (fun v => eq_int v year) (column_values "year" conc) !! i
               = Some true).
  { rewrite map_fmap, list_lookup_fmap, Hi. simpl. by rewrite Heq. }
  destruct (lookup_lt_is_Some_2 (column_values "top_0_01_pct_ownership" conc) i)
    as [t Hti]; [by rewrite length_column_values|].
  destruct (lookup_lt_is_Some_2 (column_values "source" conc) i)
    as [s Hsi]; [by rewrite length_column_values|].
  destruct (select_nonempty _ _ i t Hm Hti) as (p & ps & Hp & Hpin).
  destruct (select_nonempty _ _ i s Hm Hsi) as (src & srcs & Hsrc & _).
  eapply Forall_forall in Hnum; [|exact Hpin].
  assert (exists other, rsub 100 p = Ok other) as [other Hother].
  { destruct p; [done|by eexists..]. }
  exists p, other, src. unfold select_year.
  rewrite (once_getitem _ _ _ Hy). cbn [rbind].
  rewrite (once_getitem _ _ _ Ht). cbn [rbind].
  rewrite Hp. cbn [iloc0 rbind]. rewrite Hother. cbn [rbind].
  rewrite (once_getitem _ _ _ Hs). cbn [rbind].
  rewrite Hsrc. reflexivity.
Qed.

End BlankYearFacts.

Module BlankYearClaims.
Import Py Np Pd St App Spec ConcSpec SelectorSpec BlankYearSpec.
Import SelectorFacts IntFloatFacts BlankYearFacts.

(** X24. [int(float(z))] is [z], and floats of integers compare as the
    integers do, for integers from 0 up to [2 ^ 53]: a year read into a
    float column is the year again for the slider, and [conc.year == year]
    picks the rows of that year and no other. *)
Theorem years_survive_a_float_column (R : Runtime) (y year : Z) :
  (0 <= y < 2 ^ 53)%Z -> (0 <= year < 2 ^ 53)%Z ->
  py_int R (SFloat (of_Z y)) = Ok y
  /\ eq_int (SFloat (of_Z y)) year = (y =? year)%Z.
Proof.
  intros Hy Hyear. split; [by apply to_Z_of_Z|by apply feqb_of_Z].
Qed.

Lemma years_survive_a_float_column_witness :
  py_int (Ref.runtime []) (SFloat (of_Z 2024)) = Ok 2024%Z
  /\ eq_int (SFloat (of_Z 2024)) 2015 = (2024 =? 2015)%Z.
Proof. apply years_survive_a_float_column; lia. Defined.

(** X25. Blank years do not break the selector. When the [year] column is
    a float column whose cells are years or blanks, with two different
    years at least, the slider gets the least and the greatest year as
    its bounds, and with the slider where the script puts it the section
    draws its donut, given numbers as top percentages and a source
    column. *)
Theorem donut_with_blank_years (R : Runtime) (S : Session) (conc : DataFrame) :
  read_csv R (DATA_DIR +:+ "crypto_concentration.csv") = Ok conc ->
  years_with_blanks conc ->
  several_float_years conc ->
  numeric_column "top_0_01_pct_ownership" conc ->
  once "source" conc ->
  untouched S ->
  exists lo hi p other hover caption,
    concentration_section R S =
      ([Markdown "The New House: Who Holds the power?";
        Markdown "_Explore how Bitcoin ownership concentration changed over time._";
        Slider "Select a year" lo hi hi;
        PlotlyChart (Pie donut_groups [p; other] hover);
        Caption caption],
       Done tt)
    /\ Forall (fun v => v = NaN
                        \/ exists y, float_year v y /\ (lo <= y <= hi)%Z)
              (column_values "year" conc)
    /\ (exists v, v ∈ column_values "year" conc /\ float_year v lo)
    /\ (exists v, v ∈ column_values "year" conc /\ float_year v hi)
    /\ (lo < hi)%Z.
Proof.
  intros Hread Hyears Hsev Hnum Hsrc Hdef.
  destruct (slider_bounds_blanks_apart R conc Hyears Hsev)
    as (lo & hi & vlo & vhi & (ycol & Hy & Hmin & Hmax)
        & Hlin & Hlo & Hhin & Hhi & Hall & Hlt).
  destruct Hyears as (Honce & _ & v0 & _ & Hin0 & _).
  assert (Heq : eq_int vhi hi = true).
  { destruct Hhi as [Hr ->]. cbn [eq_int]. rewrite feqb_of_Z by done.
    apply Z.eqb_refl. }
  destruct (select_year_matching conc hi vhi Honce Hnum Hsrc Hhin Heq)
    as (p & other & source & Hsel).
  pose proof Honce as [jy Hjy]%ShaperFacts.length_one.
  assert (Hcol : has_column "year" conc = true).
  { apply FrameFacts.has_column_positions. by rewrite Hjy. }
  assert (Hne : empty conc = false).
  { unfold column_values in Hin0. rewrite Hjy in Hin0.
    unfold empty. destruct (columns conc); [done|].
    destruct (rows conc); [by apply elem_of_nil in Hin0|done]. }
  rewrite <- (Hdef lo hi) in Hsel.
  destruct (DonutFacts.concentration_section_draws_the_split
              R S conc ycol lo hi p other source
              Hread Hne Hcol Hy Hmin Hmax Hlt Hsel) as (hover & caption & Hs).
  exists lo, hi, p, other, hover, caption. rewrite Hs, Hdef.
  split; [done|]. split; [done|]. split; [eauto|]. split; [eauto|done].
Qed.

Lemma donut_with_blank_years_witness :
  exists lo hi p other hover caption,
    concentration_section (Ref.runtime [(Examples.conc_path, conc_one_blank)])
                          first_visit =
      ([Markdown "The New House: Who Holds the power?";
        Markdown "_Explore how Bitcoin ownership concentration changed over time._";
        Slider "Select a year" lo hi hi;
        PlotlyChart (Pie donut_groups [p; other] hover);
        Caption caption],
       Done tt)
    /\ Forall (fun v => v = NaN
                        \/ exists y, float_year v y /\ (lo <= y <= hi)%Z)
              (column_values "year" conc_one_blank)
    /\ (exists v, v ∈ column_values "year" conc_one_blank /\ float_year v lo)
    /\ (exists v, v ∈ column_values "year" conc_one_blank /\ float_year v hi)
    /\ (lo < hi)%Z.
Proof.
  apply (donut_with_blank_years _ _ conc_one_blank).
  - reflexivity.
  - split; [reflexivity|]. split.
    + change (column_values "year" conc_one_blank)
        with [SFloat (of_Z 2019); NaN; SFloat (of_Z 2021)].
      apply Forall_cons. split.
      { right. exists 2019%Z. split; [lia|reflexivity]. }
      apply Forall_cons. split; [by left|].
      apply Forall_cons. split; [|constructor].
      right. exists 2021%Z. split; [lia|reflexivity].
    + exists (SFloat (of_Z 2019)), 2019%Z. split; [left|].
      split; [lia|reflexivity].
  - exists (SFloat (of_Z 2019)), 2019%Z, (SFloat (of_Z 2021)), 2021%Z.
    split; [left|]. split; [split; [lia|reflexivity]|].
    split; [right; right; left|]. split; [split; [lia|reflexivity]|done].
  - split; [reflexivity|]. repeat constructor.
  - reflexivity.
  - intros lo hi. reflexivity.
Defined.

End BlankYearClaims.

(* ===================================================================== *)
(** * Files with a header line and no row *)
(* ===================================================================== *)

Module HeaderOnlyClaims.
Import Py Np Pd St App Spec LoaderSpec HeaderOnlySpec.

Lemma empty_without_rows cols : empty (Frame cols []) = true.
Proof. unfold empty. simpl. by destruct cols. Qed.

(** X26. Files that hold a header line and no row are treated like
    missing files, without a load error: the sidebar reports all three as
    Missing/Empty, each of the four sections shows its warning, no chart,
    slider or download button is drawn, and the script runs to its
    end. *)
Theorem page_on_header_only_files (R : Runtime) (S : Session) :
  header_only R ->
  result_of (page R S) = Done tt
  /\ Forall (fun e => is_chart e || is_download e || is_slider e || is_error e
                      = false)
            (elements (page R S))
  /\ length (List.filter is_warning (elements (page R S))) = 4
  /\ all_missing_or_empty ⊆ elements (page R S).
Proof.
  intros H.
  unfold page, page_top, concentration_section, load_concentration, load_csv_safe.
  destruct (H (DATA_DIR +:+ "crypto_under30.csv")) as ([c1 r1] & -> & Hr1).
  destruct (H (DATA_DIR +:+ "lottery_under30.csv")) as ([c2 r2] & -> & Hr2).
  destruct (H (DATA_DIR +:+ "lottery_age_spend_bls_2018.csv"))
    as ([c3 r3] & -> & Hr3).
  destruct (H (DATA_DIR +:+ "crypto_concentration.csv")) as ([c4 r4] & -> & Hr4).
  simpl in Hr1, Hr2, Hr3, Hr4. subst r1 r2 r3 r4.
  unfold sidebar, file_status, bls_section, gallup_section, crypto_section,
    series_section, prep_bls, prep_lottery, prep_crypto, prep_series.
  do 6 (cbn -[empty has_column strip]; rewrite ?empty_without_rows).
  split; [reflexivity|]. split; [repeat constructor|]. split; [reflexivity|].
  unfold all_missing_or_empty. set_solver.
Qed.

Lemma page_on_header_only_files_witness :
  let R := headers ["year"; "under30_lottery_pct"; "source"] in
  let S := SelectorSpec.first_visit in
  header_only R
  /\ result_of (page R S) = Done tt
  /\ Forall (fun e => is_chart e || is_download e || is_slider e || is_error e
                      = false)
            (elements (page R S))
  /\ length (List.filter is_warning (elements (page R S))) = 4
  /\ all_missing_or_empty ⊆ elements (page R S).
Proof.
  intros R S.
  assert (HR : header_only R) by (intros path; eexists; split; reflexivity).
  split; [exact HR|]. exact (page_on_header_only_files R S HR).
Defined.

End HeaderOnlyClaims.

(* ===================================================================== *)
(** * The monthly spend as a quotient *)
(* ===================================================================== *)

Module QuotientFacts.
Import Py Np Pd App Spec BlsSpec Rounding RoundingFacts IntFloatFacts.
Local Open Scope Z_scope.

Lemma nearest_even_exact c n : 0 <= n -> nearest_even (c * 2 ^ n) n = c.
Proof.
  intros Hn. unfold nearest_even.
  assert (Hh : 0 < 2 ^ n) by (apply Z.pow_pos_nonneg; lia).
  rewrite Z.div_mul, Z.mod_mul by lia.
  destruct (Z.compare_spec (2 * 0) (2 ^ n)); [lia|done|lia].
Qed.

(** The digits of [12 * k]: three or four more than those of [k]. *)
Lemma digits_times_12 (k : positive) :
  let Dk := Zpos (digits2_pos k) in
  let D := Zpos (digits2_pos (12 * k)) in
  D = Dk + 3 \/ D = Dk + 4.
Proof.
  cbv zeta. pose proof (digits_bounds k) as [Hlo Hhi].
  set (Dk := Zpos (digits2_pos k)) in *.
  assert (H0 : 0 < Dk) by (unfold Dk; lia).
  assert (Hp : 2 ^ (Dk + 3) = 8 * 2 ^ Dk) by (rewrite Z.pow_add_r by lia; lia).
  assert (Hq : 2 ^ (Dk + 4) = 16 * 2 ^ Dk) by (rewrite Z.pow_add_r by lia; lia).
  assert (Hr : 2 ^ Dk = 2 * 2 ^ (Dk - 1)).
  { replace Dk with (Dk - 1 + 1) at 1 by lia. rewrite Z.pow_add_r by lia. lia. }
  destruct (Z.lt_ge_cases (Zpos (12 * k)) (2 ^ (Dk + 3))) as [Hlt|Hge].
  - left. apply digits_unique. replace (Dk + 3 - 1) with (Dk + 2) by lia.
    replace (2 ^ (Dk + 2)) with (4 * 2 ^ Dk) by (rewrite Z.pow_add_r by lia; lia).
    lia.
  - right. apply digits_unique. replace (Dk + 4 - 1) with (Dk + 3) by lia. lia.
Qed.

(** Twelve times a whole number, divided by [12.0], is the whole number:
    the quotient is exact. *)
Lemma fdiv_12_exact k :
  0 <= k -> 12 * k < 2 ^ 53 ->
  SFdiv 53 1024 (of_Z (12 * k)) f64_12 = of_Z k.
Proof.
  intros H0 Hk. destruct k as [|k|k]; [reflexivity| |lia].
  change (12 * Zpos k) with (Zpos (12 * k)) in *.
  destruct (of_Z_small (12 * k) Hk) as [HD ->].
  destruct (of_Z_small k ltac:(lia)) as [HDk ->].
  pose proof (digits_times_12 k) as HDD. cbv zeta in HDD.
  set (D := Zpos (digits2_pos (12 * k))) in *.
  set (Dk := Zpos (digits2_pos k)) in *.
  assert (HDk0 : 0 < Dk) by (unfold Dk; lia).
  assert (Hpow : 0 < 2 ^ (53 - D)) by (apply Z.pow_pos_nonneg; lia).
  assert (Hpowk : 0 < 2 ^ (53 - Dk)) by (apply Z.pow_pos_nonneg; lia).
  set (M1 := Z.pos (12 * k) * 2 ^ (53 - D)) in *.
  assert (HM1 : 0 < M1) by (unfold M1; lia).
  assert (HdM1 : Zpos (digits2_pos (Z.to_pos M1)) = 53).
  { apply digits_unique. rewrite Z2Pos.id by done. unfold M1.
    pose proof (digits_bounds (12 * k)) as [Hlo Hhi]. fold D in Hlo, Hhi.
    assert (0 < D) by (unfold D; lia).
    replace (2 ^ (53 - 1)) with (2 ^ (D - 1) * 2 ^ (53 - D))
      by (rewrite <- Z.pow_add_r by lia; f_equal; lia).
    replace (2 ^ 53) with (2 ^ D * 2 ^ (53 - D))
      by (rewrite <- Z.pow_add_r by lia; f_equal; lia).
    nia. }
  assert (Hcore : SFdiv_core_binary 53 1024 (Zpos (Z.to_pos M1)) (D - 53)
                    6755399441055744 (-49)
                  = (Zpos k * 2 ^ (57 - D), D - 57, loc_Exact)).
  { unfold SFdiv_core_binary. cbn [Zdigits2]. rewrite HdM1.
    change (Zpos (digits2_pos 6755399441055744)) with 53.
    replace (53 + (D - 53) - (53 + -49)) with (D - 4) by lia.
    change (fexp 53 1024 ?x) with (fexp prec emax x).
    rewrite (fexp_normal (D - 4)) by lia.
    replace (Z.min (D - 4 - 53) (D - 53 - -49)) with (D - 57) by lia.
    replace (D - 53 - -49 - (D - 57)) with 53 by lia.
    cbv zeta. rewrite Z2Pos.id by done.
    rewrite Z.shiftl_mul_pow2 by lia.
    assert (Hq : M1 * 2 ^ 53 = (Zpos k * 2 ^ (57 - D)) * 6755399441055744).
    { unfold M1. change 6755399441055744 with (12 * 2 ^ 49).
      replace (2 ^ (57 - D)) with (2 ^ (53 - D) * 2 ^ 4)
        by (rewrite <- Z.pow_add_r by lia; f_equal; lia).
      change (Zpos (12 * k)) with (12 * Zpos k). lia. }
    rewrite Hq.
    rewrite (surjective_pairing (Z.div_eucl _ _)).
    change (fst (Z.div_eucl ?a ?b)) with (a / b).
    change (snd (Z.div_eucl ?a ?b)) with (a mod b).
    rewrite Z.div_mul, Z.mod_mul by lia. reflexivity. }
  unfold f64_12. cbn [SFdiv xorb]. rewrite Hcore.
  assert (HQ : 0 < Zpos k * 2 ^ (57 - D))
    by (apply Z.mul_pos_pos; [lia|apply Z.pow_pos_nonneg; lia]).
  destruct (Zpos k * 2 ^ (57 - D)) as [|Q|Q] eqn:EQ; [lia| |lia].
  assert (HdQ : Zpos (digits2_pos Q) = Dk + 57 - D).
  { apply digits_unique. rewrite <- EQ.
    pose proof (digits_bounds k) as [Hlo Hhi]. fold Dk in Hlo, Hhi.
    assert (0 < 2 ^ (57 - D)) by (apply Z.pow_pos_nonneg; lia).
    replace (2 ^ (Dk + 57 - D - 1)) with (2 ^ (Dk - 1) * 2 ^ (57 - D))
      by (rewrite <- Z.pow_add_r by lia; f_equal; lia).
    replace (2 ^ (Dk + 57 - D)) with (2 ^ Dk * 2 ^ (57 - D))
      by (rewrite <- Z.pow_add_r by lia; f_equal; lia).
    nia. }
  change (binary_round_aux 53 1024) with (binary_round_aux prec emax).
  rewrite binary_round_aux_normal by (rewrite ?HdQ; lia).
  rewrite HdQ. rewrite <- EQ.
  replace (Dk + 57 - D - 53) with (Dk + 4 - D) by lia.
  replace (Zpos k * 2 ^ (57 - D))
    with ((Zpos k * 2 ^ (53 - Dk)) * 2 ^ (Dk + 4 - D)).
  2:{ rewrite <- Z.mul_assoc, <- Z.pow_add_r by lia. do 2 f_equal. lia. }
  rewrite nearest_even_exact by lia.
  replace (Zpos k * 2 ^ (53 - Dk) =? 2 ^ 53) with false.
  - f_equal. lia.
  - symmetry. apply Z.eqb_neq.
    pose proof (digits_bounds k) as [Hlo Hhi]. fold Dk in Hlo, Hhi.
    assert (Zpos k * 2 ^ (53 - Dk) < 2 ^ Dk * 2 ^ (53 - Dk)) by nia.
    rewrite <- Z.pow_add_r in H by lia.
    replace (Dk + (53 - Dk)) with 53 in H by lia. lia.
Qed.

Local Close Scope Z_scope.

(** What the shaper computes on a number is its quotient by 12. *)
Lemma truediv_number R a x :
  number_of R a = Some x ->
  truediv (coerce R a) twelve = SFloat (SFdiv 53 1024 x f64_12).
Proof.
  change twelve with f64_12. unfold number_of, truediv, fdiv, coerce.
  destruct a as [s|z|f]; simpl.
  - destruct (parse_number R s) as [[t|z|f]|]; simpl; try done.
    + by intros [= <-].
    + destruct (is_nan f); [done|]. by intros [= <-].
  - by intros [= <-].
  - destruct (is_nan f); [done|]. by intros [= <-].
Qed.

End QuotientFacts.

Module QuotientClaims.
Import Py Np Pd App Spec BlsSpec Contract Samples QuotientFacts.

(** C2. In every row of the Spend Shaper's output whose annual spend is
    a number, or a text that parses to one, the monthly spend is the
    IEEE 754 quotient of that number by 12, in binary64; in particular an
    annual spend of twelve times a whole number gives that whole number,
    exactly. *)
Theorem monthly_spend_is_annual_over_12 (R : Runtime) (bls_in out : DataFrame) :
  rectangular bls_in ->
  prep_bls R bls_in = Ok out ->
  monthly_is_annual_over_12 R out /\ whole_months_are_exact R out.
Proof.
  intros Hrect Hout.
  pose proof (BlsFacts.prep_bls_monthly R bls_in out Hrect Hout) as H.
  split.
  - intros r a x Hr Ha Hx. rewrite <- (truediv_number R a x Hx). by apply H.
  - intros r a k Hr Ha H0 Hk Hx.
    change (f64_of_int k) with (of_Z k). rewrite <- (fdiv_12_exact k H0 Hk).
    change (of_Z (12 * k)) with (f64_of_int (12 * k)).
    rewrite <- (truediv_number R a _ Hx). by apply H.
Qed.

Lemma monthly_spend_is_annual_over_12_witness :
  monthly_is_annual_over_12 (Ref.runtime []) bls_whole_shaped
  /\ whole_months_are_exact (Ref.runtime []) bls_whole_shaped.
Proof.
  apply (monthly_spend_is_annual_over_12 (Ref.runtime []) bls_whole
           bls_whole_shaped).
  - repeat constructor.
  - vm_compute. reflexivity.
Defined.

(** On the sample file: 1200 a year is 100 a month, 90 a year is 7.5 a
    month, and the spend that does not parse gives no monthly spend. *)
Remark monthly_of_the_sample :
  prep_bls (Ref.runtime []) bls_whole = Ok bls_whole_shaped
  /\ column_values "AgeGroup" bls_whole_shaped
     = [SStr "Under 25"; SStr "25-34"; SStr "35-44"]
  /\ column_values "AvgMonthlySpend" bls_whole_shaped
     = [Ref.ratio 15 2; NaN; SFloat (of_Z 100)].
Proof. split; [|split]; vm_compute; reflexivity. Qed.

End QuotientClaims.
